(** * Balanced multilingual corpus merger: embedding and verification

    A shallow embedding of [tokenizer_dataset_creation/balanced_split.py]
    and the proofs of its specification.

    Conventions of the embedding:
    - a Python [int] is a [Z]; [len] is [Z.of_nat (length _)];
    - a Python [str] holding corpus text is a list of Unicode code points;
      language codes, file names and paths are [string]s (they are ASCII
      in the configuration);
    - a raised exception is the [Raise] branch of [result];
    - [print], the file system and the process-wide random generator are
      threaded through an explicit state. *)

From Stdlib Require Import ZArith String Ascii Bool Lia SpecFloat.
From Stdlib Require Import List Permutation.
Import ListNotations.
Open Scope Z_scope.

(* ================================================================= *)
(** * Part I: the embedding *)
(* ================================================================= *)

(** ** Python values *)

(** One decoded character (a Unicode code point). *)
Definition char := N.

(** Corpus text: what [f.read()] returns after UTF-8 decoding. *)
Definition str := list char.

Definition len {T : Type} (s : list T) : Z := Z.of_nat (length s).

(** [not s] for a sequence. *)
Definition is_empty {T : Type} (s : list T) : bool :=
  match s with [] => true | _ :: _ => false end.

(** The exceptions the program can raise. *)
Inductive exn : Type :=
| KeyError (key : string)
| ValueError (what : string)
| OverflowError (what : string).

Inductive result (A : Type) : Type :=
| Ok (a : A)
| Raise (e : exn).
Arguments Ok {A} a.
Arguments Raise {A} e.

Definition rbind {A B : Type} (r : result A) (k : A -> result B) : result B :=
  match r with
  | Ok a => k a
  | Raise e => Raise e
  end.

(** [range(n)] *)
Definition range (n : Z) : list Z := map Z.of_nat (seq 0 (Z.to_nat n)).

(** [range(start, stop, step)]: CPython computes the number of elements
    first; a zero step raises [ValueError]. *)
Definition py_range (start stop step : Z) : result (list Z) :=
  if step =? 0 then Raise (ValueError "range() arg 3 must not be zero")
  else
    let n := if 0 <? step
             then (stop - start + step - 1) / step
             else (start - stop - step - 1) / (- step) in
    Ok (map (fun k => start + Z.of_nat k * step) (seq 0 (Z.to_nat n))).

(** A slice bound clipped to the sequence, negative bounds counted from
    the end. *)
Definition clip_index (n k : Z) : Z :=
  if k <? 0 then Z.max 0 (k + n) else Z.min k n.

(** [s[i:j]] *)
Definition py_slice {T : Type} (s : list T) (i j : Z) : list T :=
  let lo := clip_index (len s) i in
  let hi := clip_index (len s) j in
  firstn (Z.to_nat (hi - lo)) (skipn (Z.to_nat lo) s).

(** [s[:j]] *)
Definition py_prefix {T : Type} (s : list T) (j : Z) : list T :=
  py_slice s 0 j.

(** ** [interleave_texts] *)

(** The list comprehension
    [[text[i:i+chunk_size] for i in range(0, len(text), chunk_size)]]. *)
Definition chunks_of {T : Type} (text : list T) (chunk_size : Z)
  : result (list (list T)) :=
  rbind (py_range 0 (len text) chunk_size) (fun idx =>
  Ok (map (fun i => py_slice text i (i + chunk_size)) idx)).

(** One iteration of the loop [for i in range(max_len)]. *)
Definition interleave_step {T : Type} (chunks1 chunks2 : list (list T))
  (acc : list (list T)) (i : Z) : list (list T) :=
  let acc := if i <? len chunks1
             then acc ++ [nth (Z.to_nat i) chunks1 []] else acc in
  let acc := if i <? len chunks2
             then acc ++ [nth (Z.to_nat i) chunks2 []] else acc in
  acc.

Definition interleave_texts {T : Type} (text1 text2 : list T)
  (chunk_size : Z) : result (list T) :=
  if is_empty text1 then Ok text2
  else if is_empty text2 then Ok text1
  else
    rbind (chunks_of text1 chunk_size) (fun chunks1 =>
    rbind (chunks_of text2 chunk_size) (fun chunks2 =>
    let max_len := Z.max (len chunks1) (len chunks2) in
    let acc := fold_left (interleave_step chunks1 chunks2)
                         (range max_len) [] in
    Ok (concat acc))).

(** Where each output character comes from: the interleaver run on the two
    texts with every character tagged by its source ([true] for the first
    text). *)
Definition tag_source {T : Type} (b : bool) (s : list T) : list (bool * T) :=
  map (pair b) s.

Definition from_source {T : Type} (b : bool) (tagged : list (bool * T))
  : list T :=
  map snd (filter (fun p => Bool.eqb (fst p) b) tagged).

(** The loop of [interleave_texts] builds this list. *)
Fixpoint weave {T : Type} (c1 c2 : list T) : list T :=
  match c1, c2 with
  | [], _ => c2
  | _, [] => c1
  | x :: xs, y :: ys => x :: y :: weave xs ys
  end.

(** What [chunks_of] returns for a positive chunk size. *)
Definition chunk_list {T : Type} (text : list T) (chunk_size : Z)
  : list (list T) :=
  map (fun k => firstn (Z.to_nat chunk_size)
                       (skipn (k * Z.to_nat chunk_size) text))
      (seq 0 (Z.to_nat ((len text + chunk_size - 1) / chunk_size))).

(** ** Configuration *)

Definition WIKI_DIR : string := "wiki_data_final".
Definition OSCAR_DIR : string := "output".
Definition OUTPUT_DIR : string := "final_outputs".

(** One entry of [LANGUAGE_DATA]. *)
Record availability : Type := Availability {
  wiki : Z;
  oscar : Z;
  total : Z
}.

(** A Python [dict] in insertion order. *)
Definition dict (V : Type) : Type := list (string * V).

Fixpoint dict_find {V : Type} (d : dict V) (key : string) : option V :=
  match d with
  | [] => None
  | (k, v) :: rest => if String.eqb k key then Some v else dict_find rest key
  end.

(** [d[key]] *)
Definition dict_get {V : Type} (d : dict V) (key : string) : result V :=
  match dict_find d key with
  | Some v => Ok v
  | None => Raise (KeyError key)
  end.

(** [d[key] = v]: an existing key keeps its position. *)
Fixpoint dict_set {V : Type} (d : dict V) (key : string) (v : V) : dict V :=
  match d with
  | [] => [(key, v)]
  | (k, v0) :: rest =>
      if String.eqb k key then (k, v) :: rest
      else (k, v0) :: dict_set rest key v
  end.

(** The two module-level tables the functions read.  They are an explicit
    argument of every function that reads them. *)
Record config : Type := Config {
  languages : list string;
  language_data : dict availability
}.

Definition LANGUAGES : list string :=
  ["yo"; "ar"; "zh"; "ru"; "hi"; "ja"; "sw"; "bn"; "tr"]%string.

Definition LANGUAGE_DATA : dict availability :=
  [ ("yo", Availability 12646633 18209 12664842);
    ("ar", Availability 1326903243 50000000 1376903243);
    ("zh", Availability 730233254 50000000 780233254);
    ("ru", Availability 4569290658 50000000 4619290658);
    ("hi", Availability 218280173 50000000 268280173);
    ("ja", Availability 1423270470 50000000 1473270470);
    ("sw", Availability 61130713 8428241 69558954);
    ("bn", Availability 368019974 50000000 418019974);
    ("tr", Availability 728714011 50000000 778714011) ]%string.

Definition module_config : config := Config LANGUAGES LANGUAGE_DATA.

(** ** Python floats

    [find_baseline_amounts] multiplies an [int] by a [float] ratio and
    truncates the product.  A finite binary64 value is kept as
    [mant * 2 ^ expo] with a signed mantissa (the sign of a zero is not
    kept: [int()] does not observe it).  Arithmetic rounds to nearest,
    ties to even, to 53 bits, with gradual underflow. *)
Module PyFloat.

Record t : Type := mk { mant : Z; expo : Z }.

Definition emin : Z := -1074.
Definition emax : Z := 1024.

(** [m / 2 ^ s] rounded to the nearest integer, ties to even. *)
Definition round_half_even (m s : Z) : Z :=
  let q := m / 2 ^ s in
  let r := m mod 2 ^ s in
  let h := 2 ^ (s - 1) in
  if r <? h then q
  else if h <? r then q + 1
  else if Z.even q then q else q + 1.

(** Round the non-negative dyadic [m * 2 ^ e] to the format: 53
    significant bits, and no exponent below [emin]. *)
Definition round_mag (m e : Z) : Z * Z :=
  let e' := Z.max (e + Z.log2 m - 52) emin in
  if e' <=? e then (m, e)
  else (round_half_even m (e' - e), e').

Definition round (m e : Z) : t :=
  let '(q, e') := round_mag (Z.abs m) e in
  mk (Z.sgn m * q) e'.

(** The magnitude is [2 ^ emax] or more. *)
Definition overflows (x : t) : bool :=
  negb (mant x =? 0) && (emax <=? Z.log2 (Z.abs (mant x)) + expo x).

Inductive value : Type :=
| Finite (x : t)
| Infinity (negative : bool).

(** The conversion of an [int] operand. *)
Definition of_int (n : Z) : result t :=
  let x := round n 0 in
  if overflows x
  then Raise (OverflowError "int too large to convert to float")
  else Ok x.

Definition mul (x y : t) : value :=
  let z := round (mant x * mant y) (expo x + expo y) in
  if overflows z then Infinity (mant z <? 0) else Finite z.

(** [n * x] for an [int] [n] and a [float] [x]. *)
Definition int_mul (n : Z) (x : t) : result value :=
  rbind (of_int n) (fun fn => Ok (mul fn x)).

(** [int()] of a finite float: truncation toward zero. *)
Definition truncate (x : t) : Z :=
  if 0 <=? expo x then mant x * 2 ^ expo x
  else Z.quot (mant x) (2 ^ (- expo x)).

(** [int(v)] *)
Definition to_int (v : value) : result Z :=
  match v with
  | Infinity _ =>
      Raise (OverflowError "cannot convert float infinity to integer")
  | Finite x => Ok (truncate x)
  end.

(** The value of a float counted in units of [2 ^ c], for [c] at most its
    exponent; [scaled] is the same for a magnitude and its exponent. *)
Definition units (c : Z) (x : t) : Z := mant x * 2 ^ (expo x - c).

Definition scaled (c : Z) (p : Z * Z) : Z := fst p * 2 ^ (snd p - c).

(** [x <= y] on the values denoted. *)
Definition le (x y : t) : Prop :=
  units (Z.min (expo x) (expo y)) x <= units (Z.min (expo x) (expo y)) y.

(** The literals [0.9] and [1.0]. *)
Definition lit_0_9 : t := mk 8106479329266893 (-53).
Definition lit_1_0 : t := mk 1 0.

End PyFloat.

(** The same value in the Standard Library's specification of IEEE 754
    arithmetic, used to test the model above. *)
Definition same_value (v : PyFloat.value) (f : spec_float) : bool :=
  match v, f with
  | PyFloat.Infinity s, S754_infinity s' => Bool.eqb s s'
  | PyFloat.Finite x, S754_zero _ => PyFloat.mant x =? 0
  | PyFloat.Finite x, S754_finite s m e =>
      let c := Z.min (PyFloat.expo x) e in
      PyFloat.units c x =? (if s then Z.neg m else Z.pos m) * 2 ^ (e - c)
  | _, _ => false
  end.

Definition spec_of (x : PyFloat.t) : spec_float :=
  match PyFloat.mant x with
  | Z0 => S754_zero false
  | Zpos p => S754_finite false p (PyFloat.expo x)
  | Zneg p => S754_finite true p (PyFloat.expo x)
  end.

(** ** Text helpers *)

Definition str_of_string (s : string) : str :=
  map N_of_ascii (list_ascii_of_string s).

(** [s.upper()] for an ASCII string. *)
Definition upper_ascii (a : ascii) : ascii :=
  let n := nat_of_ascii a in
  if ((97 <=? n) && (n <=? 122))%nat then ascii_of_nat (n - 32) else a.

Fixpoint upper (s : string) : string :=
  match s with
  | EmptyString => EmptyString
  | String a rest => String (upper_ascii a) (upper rest)
  end.

(** [os.path.join(dir, name)] for the relative names used here. *)
Definition path_join (dir name : string) : string :=
  (dir ++ "/" ++ name)%string.

Definition newline : char := 10%N.

(** ** The world, the state and the effects *)

(** What opening and reading a source file does.  A file is readable as a
    whole or not at all: a file whose bytes decode only up to some point,
    which a bounded read can return from and an unbounded one cannot, has no
    state here, and the statements about what a read returns are about
    [Content] and [Missing]. *)
Inductive file_state : Type :=
| Missing                    (* [FileNotFoundError] *)
| Unreadable (why : string)  (* any other [Exception] while opening or reading *)
| Content (text : str).      (* the decoded content *)

(** The source files and directories.  The program never writes under the
    two source directories, so they are read-only here, and what it writes
    is collected in [written]. *)
Record world : Type := World {
  inputs : string -> file_state;
  path_exists : string -> bool
}.

(** The part of the [random] module the program uses. *)
Class Random : Type := {
  rng : Type;
  random_seed : Z -> rng;
  random_shuffle : rng -> list str -> list str * rng
}.

(** One row of [balanced_statistics.csv]; the two percentage columns are
    floating-point roundings of the other columns and are left out. *)
Record csv_row : Type := CsvRow {
  csv_file : string;
  csv_language : string;
  csv_is_baseline : bool;
  csv_target_chars : Z;
  csv_wiki_chars : Z;
  csv_oscar_chars : Z;
  csv_total_chars : Z
}.

Inductive file_content : Type :=
| TextFile (text : str)
| CsvFile (rows : list csv_row).

(** What [print] writes: one constructor per formatted line, [Line] for a
    literal one. *)
Inductive message : Type :=
| Line (text : string)
| BaselineLanguage (min_lang : string) (min_total : Z)
| SplitChars (split_name : string) (chars_per_lang : Z)
| SplitTotal (total_chars : Z)
| SplitOutput (name : string)
| WarningFileNotFound (filepath : string)
| ErrorReading (filepath why : string)
| Processing (lang : string) (chars_needed : Z)
| Distribution (wiki_chars oscar_chars : Z)
| Truncated (chars_needed : Z)
| FinalLength (n : Z)
| Creating (filename : string)
| BaselineOf (baseline_lang : string) (chars_per_lang : Z)
| TotalTarget (total_chars : Z)
| Collected (lang : string) (actual_chars : Z)
| Created (filename : string) (n : Z)
| PerfectBalance (b : bool)
| SavedTo (path : string)
| ErrorDirectory (dir : string)
| ProcessingSplit (split_name : string)
| ErrorCreating (filename : string) (e : exn)
| ReportBaseline (baseline_lang : string) (baseline_total : Z)
| SummaryRow (filename : string) (per_lang total : Z) (perfect : bool)
| BreakdownTitle (filename : string)
| BreakdownRow (lang : string) (is_baseline : bool)
               (target wiki oscar total : Z)
| BreakdownTotal (total_wiki total_oscar total_all : Z)
| StatisticsSavedTo (path : string)
| FileCreated (filename : string) (size_bytes chars_per_lang : Z).

Section Effects.
Context {R : Random}.

Record state : Type := State {
  stdout : list message;
  generator : rng;
  written : list (string * file_content)
}.

(** A computation: reads the world, updates the state, returns or
    raises.  The state reached when an exception is raised is kept. *)
Definition M (A : Type) : Type := world -> state -> result A * state.

Definition ret {A : Type} (a : A) : M A := fun _ s => (Ok a, s).

Definition bind {A B : Type} (c : M A) (k : A -> M B) : M B :=
  fun w s =>
    match c w s with
    | (Ok a, s') => k a w s'
    | (Raise e, s') => (Raise e, s')
    end.

Definition lift {A : Type} (r : result A) : M A := fun _ s => (r, s).

(** [try: c  except Exception as e: handler e] *)
Definition try_except {A : Type} (c : M A) (handler : exn -> M A) : M A :=
  fun w s =>
    match c w s with
    | (Ok a, s') => (Ok a, s')
    | (Raise e, s') => handler e w s'
    end.

Definition print (m : message) : M unit :=
  fun _ s => (Ok tt, State (stdout s ++ [m]) (generator s) (written s)).

Definition read_file (filepath : string) : M file_state :=
  fun w s => (Ok (inputs w filepath), s).

Definition os_path_exists (path : string) : M bool :=
  fun w s => (Ok (path_exists w path), s).

(** [with open(path, 'w') as f: f.write(...)]; writing is assumed to
    succeed. *)
Definition write_file (path : string) (c : file_content) : M unit :=
  fun _ s => (Ok tt, State (stdout s) (generator s) (written s ++ [(path, c)])).

(** The content of an output file, when the program has written it. *)
Definition written_content (path : string) : M (option file_content) :=
  fun _ s =>
    (Ok (fold_left (fun found pc =>
                      if String.eqb (fst pc) path then Some (snd pc)
                      else found)
                   (written s) None), s).

Definition seed (n : Z) : M unit :=
  fun _ s => (Ok tt, State (stdout s) (random_seed n) (written s)).

Definition shuffle (x : list str) : M (list str) :=
  fun _ s =>
    let '(x', g) := random_shuffle (generator s) x in
    (Ok x', State (stdout s) g (written s)).

End Effects.

Declare Scope monad_scope.
Delimit Scope monad_scope with monad.
Notation "x <- c ;; k" := (bind c (fun x => k))
  (at level 61, c at next level, right associativity) : monad_scope.
Notation "' pat <- c ;; k" := (bind c (fun x => match x with pat => k end))
  (at level 61, pat pattern, c at next level, right associativity)
  : monad_scope.
Notation "c ;; k" := (bind c (fun _ => k))
  (at level 61, right associativity) : monad_scope.
Open Scope monad_scope.

(** A [for] loop that updates local variables [S]. *)
Fixpoint for_each {R : Random} {A S : Type}
  (l : list A) (body : S -> A -> M S) (s : S) : M S :=
  match l with
  | [] => ret s
  | x :: rest => s' <- body s x ;; for_each rest body s'
  end.

(** ** [load_text_file] *)

(** The test [if max_chars:] *)
Definition truthy (max_chars : option Z) : bool :=
  match max_chars with
  | None => false
  | Some n => negb (n =? 0)
  end.

(** [f.read(size)] on a text file: a negative or absent size reads to the
    end.  This is [read] for a size below [2 ^ 63]; from there on the real
    call raises [OverflowError], which the handler of the loader turns into
    the empty text and an error line, so a statement about the characters
    returned holds of the code for sizes below [2 ^ 63]. *)
Definition file_read (text : str) (size : option Z) : str :=
  match size with
  | None => text
  | Some n => if n <? 0 then text else firstn (Z.to_nat n) text
  end.

Definition load_text_file {R : Random}
  (filepath : string) (max_chars : option Z) : M str :=
  f <- read_file filepath ;;
  match f with
  | Content text =>
      if truthy max_chars then ret (file_read text max_chars)
      else ret (file_read text None)
  | Missing =>
      print (WarningFileNotFound filepath) ;;
      ret []
  | Unreadable why =>
      print (ErrorReading filepath why) ;;
      ret []
  end.

(** ** [get_balanced_language_data] *)

(** "Calculate optimal distribution between Wikipedia and OSCAR": the
    pair [(wiki_chars, oscar_chars)]. *)
Definition optimal_distribution
  (chars_needed wiki_available oscar_available : Z) : Z * Z :=
  if oscar_available =? 0 then
    (Z.min chars_needed wiki_available, 0)
  else if wiki_available =? 0 then
    (0, Z.min chars_needed oscar_available)
  else
    let target_per_source := chars_needed / 2 in
    if target_per_source <=? Z.min wiki_available oscar_available then
      (target_per_source, chars_needed - target_per_source)
    else if wiki_available >=? chars_needed then
      let oscar_chars := Z.min oscar_available (chars_needed / 2) in
      (chars_needed - oscar_chars, oscar_chars)
    else if oscar_available >=? chars_needed then
      let wiki_chars := Z.min wiki_available (chars_needed / 2) in
      (wiki_chars, chars_needed - wiki_chars)
    else
      let wiki_chars := Z.min wiki_available chars_needed in
      (wiki_chars, Z.min oscar_available (chars_needed - wiki_chars)).

(** The [stats] dictionary of one language. *)
Module LangStats.
Record t : Type := mk {
  language : string;
  wiki_chars : Z;
  oscar_chars : Z;
  total_chars : Z;
  target_chars : Z;
  wiki_available : Z;
  oscar_available : Z
}.
End LangStats.

Definition wiki_file_of (lang : string) : string :=
  path_join WIKI_DIR (lang ++ "_articles.txt").

Definition oscar_file_of (lang : string) : string :=
  path_join OSCAR_DIR ("oscar_" ++ lang ++ "_50M.txt").

Definition get_balanced_language_data {R : Random}
  (cfg : config) (lang : string) (chars_needed : Z)
  : M (str * LangStats.t) :=
  print (Processing lang chars_needed) ;;
  let wiki_file := wiki_file_of lang in
  let oscar_file := oscar_file_of lang in
  entry <- lift (dict_get (language_data cfg) lang) ;;
  let wiki_available := wiki entry in
  let oscar_available := oscar entry in
  let '(wiki_chars, oscar_chars) :=
    optimal_distribution chars_needed wiki_available oscar_available in
  print (Distribution wiki_chars oscar_chars) ;;
  wiki_text <- (if 0 <? wiki_chars
                then load_text_file wiki_file (Some wiki_chars)
                else ret []) ;;
  oscar_text <- (if 0 <? oscar_chars
                 then load_text_file oscar_file (Some oscar_chars)
                 else ret []) ;;
  let stats :=
    LangStats.mk lang (len wiki_text) (len oscar_text)
                 (len wiki_text + len oscar_text)
                 chars_needed wiki_available oscar_available in
  merged_text <- lift (interleave_texts wiki_text oscar_text 1000) ;;
  merged_text <- (if chars_needed <? len merged_text
                  then print (Truncated chars_needed) ;;
                       ret (py_prefix merged_text chars_needed)
                  else ret merged_text) ;;
  print (FinalLength (len merged_text)) ;;
  ret (merged_text, stats).

(** ** [find_baseline_amounts] *)

Record split_def : Type := SplitDef {
  ratio : PyFloat.t;
  name : string
}.

(** The local table [split_configs]. *)
Definition split_configs : dict split_def :=
  [ ("small", SplitDef PyFloat.lit_0_9 "final_balanced_small.txt");
    ("medium", SplitDef PyFloat.lit_1_0 "final_balanced_medium.txt");
    ("large", SplitDef PyFloat.lit_1_0 "final_balanced_large.txt") ]%string.

(** One value of [baseline_amounts]. *)
Module Split.
Record t : Type := mk {
  chars_per_lang : Z;
  filename : string;
  total_chars : Z;
  baseline_lang : string
}.
End Split.

(** [min(d.keys(), key=lambda x: d[x]['total'])] with the entry found:
    the first entry of least total; [ValueError] on an empty table. *)
Definition min_by_total (d : dict availability)
  : result (string * availability) :=
  match d with
  | [] => Raise (ValueError "min() arg is an empty sequence")
  | first :: rest =>
      Ok (fold_left
            (fun best x => if total (snd x) <? total (snd best)
                           then x else best)
            rest first)
  end.

(** [int(min_total * ratio)] *)
Definition scaled_chars (min_total : Z) (r : PyFloat.t) : result Z :=
  rbind (PyFloat.int_mul min_total r) PyFloat.to_int.

(** [find_baseline_amounts] with the table [split_configs] as an argument. *)
Definition find_baseline_amounts_for {R : Random}
  (configs : dict split_def) (cfg : config) : M (dict Split.t) :=
  m <- lift (min_by_total (language_data cfg)) ;;
  let min_lang := fst m in
  let min_total := total (snd m) in
  print (BaselineLanguage (upper min_lang) min_total) ;;
  for_each configs
    (fun baseline_amounts '(split_name, config) =>
       chars_per_lang <- lift (scaled_chars min_total (ratio config)) ;;
       let amounts :=
         Split.mk chars_per_lang (name config)
                  (chars_per_lang * len (languages cfg)) min_lang in
       print (SplitChars split_name chars_per_lang) ;;
       print (SplitTotal (chars_per_lang * len (languages cfg))) ;;
       print (SplitOutput (name config)) ;;
       ret (dict_set baseline_amounts split_name amounts))
    [].

Definition find_baseline_amounts {R : Random} (cfg : config)
  : M (dict Split.t) :=
  find_baseline_amounts_for split_configs cfg.

(** ** [create_balanced_file] *)

(** The returned dictionary. *)
Module FileStats.
Record t : Type := mk {
  filename : string;
  target_chars : Z;
  actual_chars : Z;
  chars_per_lang : Z;
  baseline_lang : string;
  language_stats : dict LangStats.t
}.
End FileStats.

(** [f"# Language: {lang.upper()}\n{lang_text}\n\n"] *)
Definition language_block (lang : string) (lang_text : str) : str :=
  str_of_string ("# Language: " ++ upper lang) ++ [newline]
    ++ lang_text ++ [newline; newline].

(** The local variables of the loop over [LANGUAGES]. *)
Record collected : Type := Collect {
  all_texts : list str;
  language_stats : dict LangStats.t;
  total_collected : Z
}.

Definition collect_language {R : Random} (cfg : config) (chars_per_lang : Z)
  (acc : collected) (lang : string) : M collected :=
  '(lang_text, lang_stats) <-
     get_balanced_language_data cfg lang chars_per_lang ;;
  let actual_chars := len lang_text in
  let acc :=
    if 0 <? actual_chars
    then Collect (all_texts acc ++ [language_block lang lang_text])
                 (language_stats acc)
                 (total_collected acc + actual_chars)
    else acc in
  let acc := Collect (all_texts acc)
                     (dict_set (language_stats acc) lang lang_stats)
                     (total_collected acc) in
  print (Collected lang actual_chars) ;;
  ret acc.

Definition create_balanced_file {R : Random}
  (cfg : config) (split_config : Split.t) : M FileStats.t :=
  let filename := Split.filename split_config in
  let chars_per_lang := Split.chars_per_lang split_config in
  let total_chars := Split.total_chars split_config in
  let baseline_lang := Split.baseline_lang split_config in
  print (Line "======================================================================") ;;
  print (Creating filename) ;;
  print (BaselineOf (upper baseline_lang) chars_per_lang) ;;
  print (TotalTarget total_chars) ;;
  print (Line "======================================================================") ;;
  acc <- for_each (languages cfg) (collect_language cfg chars_per_lang)
                  (Collect [] [] 0) ;;
  shuffled <- shuffle (all_texts acc) ;;
  let final_text := concat shuffled in
  let output_path := path_join OUTPUT_DIR filename in
  write_file output_path (TextFile final_text) ;;
  print (Created filename (len final_text)) ;;
  print (PerfectBalance (len final_text =? total_chars)) ;;
  print (SavedTo output_path) ;;
  ret (FileStats.mk filename total_chars (len final_text) chars_per_lang
                    baseline_lang (language_stats acc)).

(** ** [print_detailed_statistics] and [save_statistics_to_file] *)

(** The "Perfect Balance" column. *)
Definition perfect_balance (file_stats : FileStats.t) : bool :=
  FileStats.actual_chars file_stats =? FileStats.target_chars file_stats.

(** The running totals of one breakdown table. *)
Record totals : Type := Totals {
  total_wiki : Z;
  total_oscar : Z;
  total_all : Z
}.

Definition print_breakdown {R : Random} (cfg : config)
  (file_stats : FileStats.t) : M unit :=
  let lang_stats := FileStats.language_stats file_stats in
  print (BreakdownTitle (FileStats.filename file_stats)) ;;
  sums <- for_each (languages cfg)
    (fun sums lang =>
       match dict_find lang_stats lang with
       | Some stats =>
           print (BreakdownRow (upper lang)
                    (String.eqb lang (FileStats.baseline_lang file_stats))
                    (LangStats.target_chars stats)
                    (LangStats.wiki_chars stats)
                    (LangStats.oscar_chars stats)
                    (LangStats.total_chars stats)) ;;
           ret (Totals (total_wiki sums + LangStats.wiki_chars stats)
                       (total_oscar sums + LangStats.oscar_chars stats)
                       (total_all sums + LangStats.total_chars stats))
       | None => ret sums
       end)
    (Totals 0 0 0) ;;
  print (BreakdownTotal (total_wiki sums) (total_oscar sums)
                        (total_all sums)) ;;
  print (Line "* = Baseline language").

Definition print_detailed_statistics {R : Random} (cfg : config)
  (all_file_stats : list FileStats.t) : M unit :=
  print (Line "DETAILED STATISTICS REPORT - BALANCED APPROACH") ;;
  match all_file_stats with
  | first :: _ =>
      let baseline_lang := FileStats.baseline_lang first in
      entry <- lift (dict_get (language_data cfg) baseline_lang) ;;
      print (ReportBaseline (upper baseline_lang) (total entry))
  | [] => ret tt
  end ;;
  print (Line "FILE SUMMARY") ;;
  for_each all_file_stats
    (fun _ file_stats =>
       print (SummaryRow (FileStats.filename file_stats)
                         (FileStats.chars_per_lang file_stats)
                         (FileStats.actual_chars file_stats)
                         (perfect_balance file_stats)))
    tt ;;
  for_each all_file_stats (fun _ file_stats => print_breakdown cfg file_stats)
    tt.

(** The rows [save_statistics_to_file] writes for one file. *)
Definition csv_rows_of (cfg : config) (file_stats : FileStats.t)
  : list csv_row :=
  flat_map
    (fun lang =>
       match dict_find (FileStats.language_stats file_stats) lang with
       | Some stats =>
           [CsvRow (FileStats.filename file_stats) lang
                   (String.eqb lang (FileStats.baseline_lang file_stats))
                   (LangStats.target_chars stats)
                   (LangStats.wiki_chars stats)
                   (LangStats.oscar_chars stats)
                   (LangStats.total_chars stats)]
       | None => []
       end)
    (languages cfg).

Definition save_statistics_to_file {R : Random} (cfg : config)
  (all_file_stats : list FileStats.t) : M unit :=
  let stats_file := path_join OUTPUT_DIR "balanced_statistics.csv" in
  write_file stats_file (CsvFile (flat_map (csv_rows_of cfg) all_file_stats)) ;;
  print (StatisticsSavedTo stats_file).

(** ** [main] *)

(** The size in bytes of a text once encoded in UTF-8. *)
Definition utf8_size (text : str) : Z :=
  fold_left
    (fun n c => n + (if c <? 128 then 1 else if c <? 2048 then 2
                     else if c <? 65536 then 3 else 4))
    (map Z.of_N text) 0.

Definition main {R : Random} (cfg : config) : M unit :=
  print (Line "Multilingual Data Merger - Balanced Approach") ;;
  print (Line "Using lowest available language as baseline for perfect balance") ;;
  wiki_ok <- os_path_exists WIKI_DIR ;;
  if negb wiki_ok then print (ErrorDirectory WIKI_DIR)
  else
    oscar_ok <- os_path_exists OSCAR_DIR ;;
    if negb oscar_ok then print (ErrorDirectory OSCAR_DIR)
    else
      seed 42 ;;
      baseline_configs <- find_baseline_amounts cfg ;;
      all_file_stats <- for_each baseline_configs
        (fun all_file_stats '(split_name, config) =>
           try_except
             (print (ProcessingSplit split_name) ;;
              file_stats <- create_balanced_file cfg config ;;
              ret (all_file_stats ++ [file_stats]))
             (fun e =>
                print (ErrorCreating (Split.filename config) e) ;;
                ret all_file_stats))
        [] ;;
      print_detailed_statistics cfg all_file_stats ;;
      save_statistics_to_file cfg all_file_stats ;;
      print (Line "All balanced files created successfully!") ;;
      for_each all_file_stats
        (fun _ file_stats =>
           let filename := FileStats.filename file_stats in
           c <- written_content (path_join OUTPUT_DIR filename) ;;
           match c with
           | Some (TextFile text) =>
               print (FileCreated filename (utf8_size text)
                        (FileStats.chars_per_lang file_stats))
           | _ => ret tt
           end)
        tt ;;
      print (Line "Perfect multilingual balance achieved!") ;;
      print (Line "Every language contributes exactly the same amount in each file.").

(** Running a computation from a fresh process. *)
Definition initial_state {R : Random} (g : rng) : state := State [] g [].

Definition run {R : Random} {A : Type} (c : M A) (w : world) (g : rng)
  : result A * state :=
  c w (initial_state g).

(** The text files a run has written, in order. *)
Definition text_files {R : Random} (s : state) : list (string * str) :=
  flat_map (fun pc => match snd pc with
                      | TextFile text => [(fst pc, text)]
                      | CsvFile _ => []
                      end)
           (written s).

(** ** Readings of the effectful functions used in the statements *)

(** What [load_text_file] returns and prints, from the state of the file. *)
Definition load_result (f : file_state) (max_chars : option Z) : str :=
  match f with
  | Content text =>
      if truthy max_chars then file_read text max_chars else text
  | Missing | Unreadable _ => []
  end.

Definition load_log (filepath : string) (f : file_state) : list message :=
  match f with
  | Content _ => []
  | Missing => [WarningFileNotFound filepath]
  | Unreadable why => [ErrorReading filepath why]
  end.

(** The guarded call [load_text_file(file, n) if n > 0 else ""]. *)
Definition requested_text (w : world) (filepath : string) (n : Z) : str :=
  if 0 <? n then load_result (inputs w filepath) (Some n) else [].

Definition requested_log (w : world) (filepath : string) (n : Z)
  : list message :=
  if 0 <? n then load_log filepath (inputs w filepath) else [].

(** The state after printing [ms]. *)
Definition say {R : Random} (ms : list message) (s : state) : state :=
  State (stdout s ++ ms) (generator s) (written s).

(** The state with another generator. *)
Definition set_generator {R : Random} (g : rng) (s : state) : state :=
  State (stdout s) g (written s).

(** [c] only reads the world and prints: its result and what it prints
    depend on the world alone, and it leaves the generator and the written
    files as they are. *)
Definition prints_only {R : Random} {A : Type} (c : M A) : Prop :=
  forall w, exists r log, forall s, c w s = (r, say log s).

(** The messages [create_balanced_file] prints before its loop. *)
Definition banner (split_config : Split.t) : list message :=
  [ Line "======================================================================";
    Creating (Split.filename split_config);
    BaselineOf (upper (Split.baseline_lang split_config))
               (Split.chars_per_lang split_config);
    TotalTarget (Split.total_chars split_config);
    Line "======================================================================" ].

Definition is_truncation (m : message) : bool :=
  match m with Truncated _ => true | _ => false end.

(** The sum of the [total_chars] column over the CSV rows of one file. *)
Definition csv_total (rows : list csv_row) : Z :=
  fold_right (fun row n => csv_total_chars row + n) 0 rows.

(** The length of a file made of the given blocks. *)
Definition blocks_length (blocks : list str) : Z := len (concat blocks).

(** Two worlds with the same source files for the configured languages and
    the same two source directories. *)
Definition same_inputs (cfg : config) (w1 w2 : world) : Prop :=
  path_exists w1 WIKI_DIR = path_exists w2 WIKI_DIR /\
  path_exists w1 OSCAR_DIR = path_exists w2 OSCAR_DIR /\
  forall lang, In lang (languages cfg) ->
    inputs w1 (wiki_file_of lang) = inputs w2 (wiki_file_of lang) /\
    inputs w1 (oscar_file_of lang) = inputs w2 (oscar_file_of lang).

(** ** Sample data for the examples *)

(** A generator whose shuffle rotates the list by the current state. *)
Definition rotate (k : nat) (l : list str) : list str :=
  skipn (k mod length l) l ++ firstn (k mod length l) l.

#[export] Instance rotating_random : Random := {|
  rng := nat;
  random_seed := Z.to_nat;
  random_shuffle := fun g l => (rotate g l, S g)
|}.

(** A world given by a list of files; every directory exists. *)
Definition world_of (files : dict str) : world :=
  World (fun p => match dict_find files p with
                  | Some text => Content text
                  | None => Missing
                  end)
        (fun _ => true).

(** A world in which every source file holds the same text. *)
Definition uniform_world (text : str) : world :=
  World (fun _ => Content text) (fun _ => true).

(** A fresh process with the rotating generator. *)
Definition fresh : state (R := rotating_random) :=
  initial_state (R := rotating_random) 0%nat.

(** One language with an odd target whose half is all the crawl data. *)
Definition odd_config : config :=
  Config ["xx"%string] [("xx"%string, Availability 2 1 3)].

Definition odd_world : world :=
  world_of [ (wiki_file_of "xx", [97; 98]%N);
             (oscar_file_of "xx", [120]%N) ].

(** The crawl file of "hi" is there, its wiki file is not. *)
Definition crawl_only_world : world :=
  world_of [ (oscar_file_of "hi", [97; 98; 99; 100]%N) ].

(** [c] runs the same way in the two worlds. *)
Definition same_run {R : Random} {A : Type} (w1 w2 : world) (c : M A)
  : Prop :=
  forall s, c w1 s = c w2 s.

(** A split small enough to run: two characters per language. *)
Definition tiny_split : Split.t :=
  Split.mk 2 "final_balanced_tiny.txt" 18 "yo".

(** Two outcomes with the same result, the same output and the same
    files. *)
Definition same_output {R : Random} {A : Type}
  (r1 r2 : result A * state) : Prop :=
  fst r1 = fst r2 /\
  stdout (snd r1) = stdout (snd r2) /\
  written (snd r1) = written (snd r2).

(** What [c] returns, prints and writes does not depend on the state of
    the generator it starts from. *)
Definition generator_blind {R : Random} {A : Type} (c : M A) : Prop :=
  forall w s g, same_output (c w (set_generator g s)) (c w s).

(** The same directories and source files as the uniform world, and one
    more file elsewhere. *)
Definition cluttered_world (text : str) : world :=
  World (fun p => if String.eqb p "notes.txt" then Missing else Content text)
        (fun _ => true).

(** One value of [baseline_amounts], for a ratio that can be applied. *)
Definition amounts_for (cfg : config) (m : string * availability)
  (config : split_def) (chars_per_lang : Z) : Split.t :=
  Split.mk chars_per_lang (name config)
           (chars_per_lang * len (languages cfg)) (fst m).

(** The characters that the headers and separators of the blocks of the
    given languages add to a file. *)
Definition header_overhead (langs : list string) : Z :=
  fold_right (fun lang n => Z.of_nat (String.length lang) + 15 + n) 0 langs.

(** The language is in the table, with enough combined data for [n]
    characters, the two source files hold at least what the table
    advertises, and the 50/50 branch does not ask the crawl source for an
    odd remainder it does not have. *)
Definition well_supplied (cfg : config) (w : world) (n : Z) (lang : string)
  : Prop :=
  exists entry wiki_content oscar_content,
    dict_find (language_data cfg) lang = Some entry /\
    0 <= wiki entry /\ 0 <= oscar entry /\
    n <= wiki entry + oscar entry /\
    (n / 2 <= Z.min (wiki entry) (oscar entry) -> n - n / 2 <= oscar entry) /\
    inputs w (wiki_file_of lang) = Content wiki_content /\
    wiki entry <= len wiki_content /\
    inputs w (oscar_file_of lang) = Content oscar_content /\
    oscar entry <= len oscar_content.

(** ** Further readings and sample data *)

(** What the allocator returns or raises, as a function of the tables and
    of the world. *)
Definition allocation_of (cfg : config) (w : world) (lang : string) (n : Z)
  : result (str * LangStats.t) :=
  rbind (dict_get (language_data cfg) lang) (fun entry =>
  let '(wiki_chars, oscar_chars) :=
    optimal_distribution n (wiki entry) (oscar entry) in
  let wiki_text := requested_text w (wiki_file_of lang) wiki_chars in
  let oscar_text := requested_text w (oscar_file_of lang) oscar_chars in
  rbind (interleave_texts wiki_text oscar_text 1000) (fun merged =>
  Ok (if n <? len merged then py_prefix merged n else merged,
      LangStats.mk lang (len wiki_text) (len oscar_text)
                   (len wiki_text + len oscar_text)
                   n (wiki entry) (oscar entry)))).

(** What the allocator prints. *)
Definition allocation_log (cfg : config) (w : world) (lang : string) (n : Z)
  : list message :=
  match dict_find (language_data cfg) lang with
  | None => [Processing lang n]
  | Some entry =>
      let '(wc, oc) := optimal_distribution n (wiki entry) (oscar entry) in
      match interleave_texts (requested_text w (wiki_file_of lang) wc)
                             (requested_text w (oscar_file_of lang) oc) 1000
      with
      | Ok merged =>
          [Processing lang n; Distribution wc oc]
            ++ requested_log w (wiki_file_of lang) wc
            ++ requested_log w (oscar_file_of lang) oc
            ++ (if n <? len merged then [Truncated n] else [])
            ++ [FinalLength
                  (len (if n <? len merged then py_prefix merged n
                        else merged))]
      | Raise _ => []
      end
  end.

(** The block the assembler adds for a language: none when the allocator
    returned no text. *)
Definition block_of (cfg : config) (w : world) (n : Z) (lang : string)
  : list str :=
  match allocation_of cfg w lang n with
  | Ok (text, _) =>
      if 0 <? len text then [language_block lang text] else []
  | Raise _ => []
  end.

(** The statistics the assembler stores for a language. *)
Definition stats_of (cfg : config) (w : world) (n : Z) (lang : string)
  : list (string * LangStats.t) :=
  match allocation_of cfg w lang n with
  | Ok (_, stats) => [(lang, stats)]
  | Raise _ => []
  end.

(** The language has an entry in the availability table. *)
Definition listed (cfg : config) (lang : string) : Prop :=
  dict_find (language_data cfg) lang <> None.

(** A table with a negative availability. *)
Definition skewed_config : config :=
  Config ["zz"%string] [("zz"%string, Availability 3 (-5) (-2))].

(** The statistics dictionary after the assembler's loop over [langs]. *)
Definition stats_after (cfg : config) (w : world) (n : Z)
  (d : dict LangStats.t) (langs : list string) : dict LangStats.t :=
  fold_left
    (fun d lang =>
       match allocation_of cfg w lang n with
       | Ok (_, stats) => dict_set d lang stats
       | Raise _ => d
       end)
    langs d.

(** The characters counted in [total_collected] for a language. *)
Definition collected_chars (cfg : config) (w : world) (n : Z) (lang : string)
  : Z :=
  match allocation_of cfg w lang n with
  | Ok (text, _) => if 0 <? len text then len text else 0
  | Raise _ => 0
  end.

(** What the loop of the assembler prints for [langs], all listed. *)
Definition collect_log (cfg : config) (w : world) (n : Z)
  (langs : list string) : list message :=
  flat_map
    (fun lang =>
       allocation_log cfg w lang n
         ++ match allocation_of cfg w lang n with
            | Ok (text, _) => [Collected lang (len text)]
            | Raise _ => []
            end)
    langs.

(** A language list naming a language the table does not have. *)
Definition gap_config : config :=
  Config ["yo"; "xx"; "ar"]%string LANGUAGE_DATA.

(** Two languages, the second with no source file in [one_file_world]. *)
Definition pair_config : config :=
  Config ["hi"; "sw"]%string LANGUAGE_DATA.

Definition one_file_world : world :=
  world_of [ (wiki_file_of "hi", [97; 98; 99; 100]%N) ].



(** ** Readings of [main] *)

(** One turn of the loop of [main] over the plans: the [try] block and its
    handler. *)
Definition process_split {R : Random} (cfg : config)
  (all_file_stats : list FileStats.t) (plan : string * Split.t)
  : M (list FileStats.t) :=
  let '(split_name, config) := plan in
  try_except
    (print (ProcessingSplit split_name) ;;
     file_stats <- create_balanced_file cfg config ;;
     ret (all_file_stats ++ [file_stats]))
    (fun e =>
       print (ErrorCreating (Split.filename config) e) ;;
       ret all_file_stats).

(** What [main] does after that loop. *)
Definition report_and_save {R : Random} (cfg : config)
  (all_file_stats : list FileStats.t) : M unit :=
  print_detailed_statistics cfg all_file_stats ;;
  save_statistics_to_file cfg all_file_stats ;;
  print (Line "All balanced files created successfully!") ;;
  for_each all_file_stats
    (fun _ file_stats =>
       let filename := FileStats.filename file_stats in
       c <- written_content (path_join OUTPUT_DIR filename) ;;
       match c with
       | Some (TextFile text) =>
           print (FileCreated filename (utf8_size text)
                    (FileStats.chars_per_lang file_stats))
       | _ => ret tt
       end)
    tt ;;
  print (Line "Perfect multilingual balance achieved!") ;;
  print (Line "Every language contributes exactly the same amount in each file.").

(** [c] returns and does nothing but print. *)
Definition reports {R : Random} {A : Type} (c : M A) : Prop :=
  forall w s, exists a log, c w s = (Ok a, say log s).

(** The output file of a split, when it was written. *)
Definition optional_file (filename : string) (text : option str)
  : list (string * file_content) :=
  match text with
  | Some t => [(path_join OUTPUT_DIR filename, TextFile t)]
  | None => []
  end.

Definition output_path_of (file_stats : FileStats.t) : string :=
  path_join OUTPUT_DIR (FileStats.filename file_stats).

(** A CSV row under another file name. *)
Definition with_file (filename : string) (row : csv_row) : csv_row :=
  CsvRow filename (csv_language row) (csv_is_baseline row)
         (csv_target_chars row) (csv_wiki_chars row) (csv_oscar_chars row)
         (csv_total_chars row).

(** The CSV rows of the file assembled under [filename] for the target [n]
    per language: for each language of [LANGUAGES], the statistics the
    assembler's loop has stored for it. *)
Definition rows_for (cfg : config) (w : world) (filename baseline : string)
  (n : Z) : list csv_row :=
  flat_map
    (fun lang =>
       match dict_find (stats_after cfg w n [] (languages cfg)) lang with
       | Some stats =>
           [CsvRow filename lang (String.eqb lang baseline)
                   (LangStats.target_chars stats)
                   (LangStats.wiki_chars stats)
                   (LangStats.oscar_chars stats)
                   (LangStats.total_chars stats)]
       | None => []
       end)
    (languages cfg).

(** A world without the two source directories. *)
Definition bare_world : world :=
  World (fun _ => Missing) (fun _ => false).

(** ** More text helpers *)

(** [c.isspace()] for one character: the code points Python counts as
    whitespace. *)
Definition isspace (c : char) : bool :=
  (((9 <=? c) && (c <=? 13)) || ((28 <=? c) && (c <=? 32))
   || (c =? 133) || (c =? 160) || (c =? 5760)
   || ((8192 <=? c) && (c <=? 8202))
   || (c =? 8232) || (c =? 8233) || (c =? 8239) || (c =? 8287)
   || (c =? 12288))%N.

(** [s.lstrip()], [s.rstrip()] and [s.strip()] *)
Fixpoint lstrip (s : str) : str :=
  match s with
  | [] => []
  | c :: rest => if isspace c then lstrip rest else s
  end.

Definition rstrip (s : str) : str := rev (lstrip (rev s)).

Definition strip (s : str) : str := rstrip (lstrip s).

(** [s.lower()] for an ASCII string. *)
Definition lower_ascii (a : ascii) : ascii :=
  let n := nat_of_ascii a in
  if ((65 <=? n) && (n <=? 90))%nat then ascii_of_nat (n + 32) else a.

Fixpoint lower (s : string) : string :=
  match s with
  | EmptyString => EmptyString
  | String a rest => String (lower_ascii a) (lower rest)
  end.

(** [s.replace(old, new)] for single characters. *)
Fixpoint replace_char (old new : ascii) (s : string) : string :=
  match s with
  | EmptyString => EmptyString
  | String a rest =>
      String (if Ascii.eqb a old then new else a) (replace_char old new rest)
  end.

(** ** [extract_oscar.py] *)

Module ExtractOscar.

Definition LANGUAGE_CODES : list (string * string) :=
  [ ("Yoruba", "unshuffled_deduplicated_yo");
    ("Arabic", "unshuffled_deduplicated_ar");
    ("Mandarin Chinese", "unshuffled_deduplicated_zh");
    ("Russian", "unshuffled_deduplicated_ru");
    ("Hindi", "unshuffled_deduplicated_hi");
    ("Japanese", "unshuffled_deduplicated_ja");
    ("Swahili", "unshuffled_deduplicated_sw");
    ("Bengali", "unshuffled_deduplicated_bn");
    ("Turkish", "unshuffled_deduplicated_tr") ]%string.

(** [output_path] of [extract_oscar_language]. *)
Definition output_path (language_name output_dir : string) : string :=
  path_join output_dir
    ("oscar_" ++ lower (replace_char " " "_" language_name) ++ "_50M.txt").

(** The two counters of the loop and what has been written to the file. *)
Record progress : Type := Progress {
  total_chars : Z;
  doc_count : Z;
  file : str
}.

(** The loop over the samples of the dataset, given by their ["text"]
    fields; [break] leaves the rest of the stream unread. *)
Fixpoint extract_loop (limit_chars : Z) (dataset : list str) (p : progress)
  : progress :=
  match dataset with
  | [] => p
  | sample :: rest =>
      let text := strip sample in
      if is_empty text then extract_loop limit_chars rest p
      else
        let remaining := limit_chars - total_chars p in
        if remaining <=? 0 then p
        else
          let text := if remaining <? len text
                      then py_prefix text remaining else text in
          extract_loop limit_chars rest
            (Progress (total_chars p + len text) (doc_count p + 1)
                      (file p ++ text ++ [newline]))
  end.

(** The file and the counters after [extract_oscar_language] has gone
    through a dataset that loads and streams without error. *)
Definition extract_oscar_language (limit_chars : Z) (dataset : list str)
  : progress :=
  extract_loop limit_chars dataset (Progress 0 0 []).

End ExtractOscar.

(** ** [process.py], and the records [extract_wiki.py] writes *)

Module Process.

(** [s.startswith(prefix)] *)
Fixpoint starts_with (prefix s : str) : bool :=
  match prefix, s with
  | [], _ => true
  | _ :: _, [] => false
  | p :: prefix', c :: s' => (p =? c)%N && starts_with prefix' s'
  end.

(** [s.replace(old, "")] for a non-empty [old]: the occurrences of [old]
    are taken from left to right and do not overlap; [skip] counts the
    characters of the current occurrence still to drop. *)
Fixpoint remove_all (old : str) (skip : nat) (s : str) : str :=
  match s with
  | [] => []
  | c :: rest =>
      match skip with
      | S k => remove_all old k rest
      | O =>
          if starts_with old s
          then remove_all old (length old - 1) rest
          else c :: remove_all old 0 rest
      end
  end.

(** [s.replace('\n', ' ')] *)
Definition flatten (s : str) : str :=
  map (fun c => if (c =? 10)%N then 32%N else c) s.

(** What reading a file in text mode does to line endings. *)
Fixpoint universal_newlines (s : str) : str :=
  match s with
  | [] => []
  | c :: rest =>
      if (c =? 13)%N
      then newline
             :: universal_newlines
                  match rest with
                  | d :: rest' => if (d =? 10)%N then rest' else rest
                  | [] => rest
                  end
      else c :: universal_newlines rest
  end.

(** The lines a file object yields: each with its newline, the last one
    possibly without; [cur] is the line being read. *)
Fixpoint lines_from (cur : str) (s : str) : list str :=
  match s with
  | [] => if is_empty cur then [] else [cur]
  | c :: rest =>
      if (c =? 10)%N then (cur ++ [c]) :: lines_from [] rest
      else lines_from (cur ++ [c]) rest
  end.

Definition file_lines (content : str) : list str :=
  lines_from [] (universal_newlines content).

Definition TITLE : str := str_of_string "TITLE:".
Definition TEXT : str := str_of_string "TEXT:".

(** [if text: outfile.write(text.replace('\n', ' ').strip() + "\n")] *)
Definition flush (text out : str) : str :=
  if is_empty text then out
  else out ++ strip (flatten text) ++ [newline].

(** One turn of the loop over the lines; the state is the variable [text]
    and what has been written. *)
Definition step (state : str * str) (line : str) : str * str :=
  let '(text, out) := state in
  let line := strip line in
  if starts_with TITLE line then (text, out)
  else if starts_with TEXT line then (strip (remove_all TEXT 0 line), out)
  else if starts_with [61%N] line then ([], flush text out)
  else (text ++ [32%N] ++ line, out).

(** The output file for one input file. *)
Definition process_file (content : str) : str :=
  let '(text, out) := fold_left step (file_lines content) ([], []) in
  flush text out.

End Process.

Module ExtractWiki.

(** The three writes of [process_extracted_json] for one article. *)
Definition article_record (article : str * str) : str :=
  str_of_string "TITLE: " ++ fst article ++ [newline]
    ++ str_of_string "TEXT: " ++ snd article ++ [newline]
    ++ repeat 61%N 80 ++ [newline; newline].

(** The file it writes for a non-empty list of articles. *)
Definition articles_file (articles : list (str * str)) : str :=
  concat (map article_record articles).

End ExtractWiki.

(** The four lines of a record. *)
Definition record_lines (article : str * str) : list str :=
  [ str_of_string "TITLE: " ++ fst article ++ [newline];
    str_of_string "TEXT: " ++ snd article ++ [newline];
    repeat 61%N 80 ++ [newline];
    [newline] ].

(** The text is on one line: no line ending in it. *)
Definition one_line (s : str) : Prop :=
  Forall (fun c => c <> 10%N /\ c <> 13%N) s.

(** The text is not empty and [strip] leaves it as it is, as the title and
    the text that [process_extracted_json] keeps. *)
Definition stripped (s : str) : Prop := strip s = s /\ s <> [].

(** No occurrence of [old] in [s]. *)
Definition free_of (old s : str) : Prop :=
  forall k, Process.starts_with old (skipn k s) = false.

(** An article whose record takes one line for the title and one for the
    text, and whose text does not contain the marker of the text line. *)
Definition plain_article (article : str * str) : Prop :=
  one_line (fst article) /\
  one_line (snd article) /\ stripped (snd article) /\
  free_of Process.TEXT (snd article).

(* ================================================================= *)
(** * Part II: properties *)
(* ================================================================= *)

(** ** The interleaver *)

Lemma fold_left_ext_in {A B : Type} (f g : A -> B -> A) (l : list B) :
  (forall a b, In b l -> f a b = g a b) ->
  forall a, fold_left f l a = fold_left g l a.
Proof.
  induction l as [|b l IH]; intros H a; simpl; [reflexivity|].
  rewrite H by (left; reflexivity). apply IH.
  intros a' b' Hin. apply H. right. exact Hin.
Qed.

Lemma range_succ (n : nat) :
  range (Z.of_nat (S n)) = 0 :: map Z.succ (range (Z.of_nat n)).
Proof.
  unfold range. rewrite !Nat2Z.id. simpl. f_equal.
  rewrite <- seq_shift, !map_map. apply map_ext.
  intros k. lia.
Qed.

Lemma range_nonneg n i : In i (range n) -> 0 <= i.
Proof.
  unfold range. rewrite in_map_iff. intros [k [<- _]]. lia.
Qed.

Lemma interleave_step_tl {T : Type} (c1 c2 : list (list T)) acc i :
  0 <= i ->
  interleave_step c1 c2 acc (Z.succ i) =
  interleave_step (tl c1) (tl c2) acc i.
Proof.
  intros Hi. unfold interleave_step, len.
  replace (Z.to_nat (Z.succ i)) with (S (Z.to_nat i)) by lia.
  assert (Hnth : forall c : list (list T),
             nth (S (Z.to_nat i)) c [] = nth (Z.to_nat i) (tl c) []).
  { intros [|x c]; simpl; [destruct (Z.to_nat i)|]; reflexivity. }
  assert (Hlt : forall c : list (list T),
             (Z.succ i <? Z.of_nat (length c)) =
             (i <? Z.of_nat (length (tl c)))).
  { intros [|x c]; simpl length.
    - destruct (Z.ltb_spec (Z.succ i) (Z.of_nat 0));
        destruct (Z.ltb_spec i (Z.of_nat 0)); lia || reflexivity.
    - rewrite Nat2Z.inj_succ.
      destruct (Z.ltb_spec (Z.succ i) (Z.succ (Z.of_nat (length c))));
        destruct (Z.ltb_spec i (Z.of_nat (length c))); lia || reflexivity. }
  rewrite !Hnth, !Hlt. reflexivity.
Qed.

Lemma fold_left_map {A B C : Type} (f : A -> B -> A) (g : C -> B) l a :
  fold_left f (map g l) a = fold_left (fun a x => f a (g x)) l a.
Proof.
  revert a. induction l as [|x l IH]; intros a; simpl; [reflexivity|].
  apply IH.
Qed.

Lemma weave_nil_r {T : Type} (c : list T) : weave c [] = c.
Proof. destruct c; reflexivity. Qed.

Lemma interleave_loop_weave {T : Type} (n : nat) :
  forall (c1 c2 acc : list (list T)),
    n = Nat.max (length c1) (length c2) ->
    fold_left (interleave_step c1 c2) (range (Z.of_nat n)) acc =
    acc ++ weave c1 c2.
Proof.
  induction n as [|n IH]; intros c1 c2 acc Hn.
  - destruct c1, c2; simpl in Hn; try lia.
    simpl. rewrite app_nil_r. reflexivity.
  - rewrite range_succ. simpl fold_left. rewrite fold_left_map.
    rewrite (fold_left_ext_in _ (interleave_step (tl c1) (tl c2))).
    2:{ intros a b Hb. apply interleave_step_tl.
        apply (range_nonneg _ _ Hb). }
    rewrite IH.
    2:{ destruct c1, c2; simpl in *; lia. }
    unfold interleave_step, len.
    destruct c1 as [|x c1], c2 as [|y c2]; simpl in *; try lia.
    + rewrite <- app_assoc. reflexivity.
    + rewrite weave_nil_r, <- app_assoc. reflexivity.
    + rewrite <- !app_assoc. reflexivity.
Qed.

Lemma py_slice_chunk {T : Type} (text : list T) (i cs : Z) :
  0 <= i -> 0 < cs ->
  py_slice text i (i + cs) =
  firstn (Z.to_nat cs) (skipn (Z.to_nat i) text).
Proof.
  intros Hi Hcs. unfold py_slice, clip_index, len.
  destruct (Z.ltb_spec i 0); [lia|].
  destruct (Z.ltb_spec (i + cs) 0); [lia|].
  destruct (Z.le_gt_cases i (Z.of_nat (length text))) as [Hle|Hgt].
  - rewrite (Z.min_l i) by lia.
    destruct (Z.le_gt_cases (i + cs) (Z.of_nat (length text))).
    + rewrite Z.min_l by lia. f_equal. lia.
    + rewrite Z.min_r by lia.
      rewrite !firstn_all2; [reflexivity| |]; rewrite length_skipn; lia.
  - rewrite !Z.min_r by lia. rewrite Z.sub_diag. simpl.
    rewrite skipn_all2 by lia. rewrite firstn_nil. reflexivity.
Qed.

Lemma chunks_of_pos {T : Type} (text : list T) (cs : Z) :
  0 < cs -> chunks_of text cs = Ok (chunk_list text cs).
Proof.
  intros Hcs. unfold chunks_of, py_range, chunk_list.
  destruct (Z.eqb_spec cs 0); [lia|].
  destruct (Z.ltb_spec 0 cs); [|lia].
  simpl. f_equal. rewrite map_map. rewrite Z.sub_0_r.
  apply map_ext. intros k.
  rewrite py_slice_chunk by lia. do 2 f_equal. lia.
Qed.

Lemma concat_chunks_firstn {T : Type} (text : list T) (c m : nat) :
  concat (map (fun k => firstn c (skipn (k * c) text)) (seq 0 m)) =
  firstn (m * c) text.
Proof.
  induction m as [|m IH]; [reflexivity|].
  rewrite seq_S, map_app, concat_app, IH. simpl.
  rewrite app_nil_r.
  rewrite firstn_skipn_comm.
  replace (firstn (m * c) text)
    with (firstn (m * c) (firstn (m * c + c) text)).
  2:{ rewrite firstn_firstn. f_equal. lia. }
  rewrite firstn_skipn. f_equal. lia.
Qed.

Lemma concat_chunk_list {T : Type} (text : list T) (cs : Z) :
  0 < cs -> concat (chunk_list text cs) = text.
Proof.
  intros Hcs. unfold chunk_list. rewrite concat_chunks_firstn.
  apply firstn_all2. unfold len.
  set (n := Z.of_nat (length text)).
  assert (Hn : 0 <= n) by (unfold n; lia).
  assert (Hd : n <= (n + cs - 1) / cs * cs).
  { pose proof (Z.div_mod (n + cs - 1) cs ltac:(lia)) as Hdm.
    pose proof (Z.mod_pos_bound (n + cs - 1) cs Hcs). nia. }
  assert (Hq : 0 <= (n + cs - 1) / cs) by (apply Z.div_pos; lia).
  apply Nat2Z.inj_le. rewrite Nat2Z.inj_mul, !Z2Nat.id by lia.
  fold n. lia.
Qed.

Lemma interleave_texts_weave {T : Type} (text1 text2 : list T) (cs : Z) :
  0 < cs -> text1 <> [] -> text2 <> [] ->
  interleave_texts text1 text2 cs =
  Ok (concat (weave (chunk_list text1 cs) (chunk_list text2 cs))).
Proof.
  intros Hcs H1 H2. unfold interleave_texts.
  destruct text1 as [|a text1]; [congruence|].
  destruct text2 as [|b text2]; [congruence|].
  cbn [is_empty]. rewrite !chunks_of_pos by assumption.
  cbn [rbind]. f_equal. f_equal.
  unfold len at 1 2. rewrite <- Nat2Z.inj_max.
  rewrite interleave_loop_weave by reflexivity. reflexivity.
Qed.

Lemma length_concat_weave {T : Type} (c1 c2 : list (list T)) :
  length (concat (weave c1 c2)) =
  (length (concat c1) + length (concat c2))%nat.
Proof.
  revert c2. induction c1 as [|x c1 IH]; intros c2; [reflexivity|].
  destruct c2 as [|y c2]; cbn [weave concat].
  - cbn [length]. lia.
  - rewrite !length_app, IH. lia.
Qed.

Lemma filter_all {T : Type} (p : T -> bool) (l : list T) :
  Forall (fun x => p x = true) l -> filter p l = l.
Proof.
  induction 1 as [|x l Hx _ IH]; simpl; [reflexivity|].
  rewrite Hx, IH. reflexivity.
Qed.

Lemma filter_none {T : Type} (p : T -> bool) (l : list T) :
  Forall (fun x => p x = false) l -> filter p l = [].
Proof.
  induction 1 as [|x l Hx _ IH]; simpl; [reflexivity|].
  rewrite Hx, IH. reflexivity.
Qed.

Lemma filter_concat_weave_l {T : Type} (p : T -> bool) (c1 c2 : list (list T)) :
  Forall (fun x => p x = true) (concat c1) ->
  Forall (fun x => p x = false) (concat c2) ->
  filter p (concat (weave c1 c2)) = concat c1.
Proof.
  revert c2. induction c1 as [|x c1 IH]; intros c2 H1 H2.
  - simpl. apply filter_none. exact H2.
  - destruct c2 as [|y c2].
    + simpl weave. apply filter_all. exact H1.
    + simpl in *. apply Forall_app in H1. apply Forall_app in H2.
      destruct H1 as [Hx H1]. destruct H2 as [Hy H2].
      rewrite !filter_app, (filter_all _ _ Hx), (filter_none _ _ Hy).
      rewrite IH by assumption. reflexivity.
Qed.

Lemma filter_concat_weave_r {T : Type} (p : T -> bool) (c1 c2 : list (list T)) :
  Forall (fun x => p x = false) (concat c1) ->
  Forall (fun x => p x = true) (concat c2) ->
  filter p (concat (weave c1 c2)) = concat c2.
Proof.
  revert c2. induction c1 as [|x c1 IH]; intros c2 H1 H2.
  - simpl. apply filter_all. exact H2.
  - destruct c2 as [|y c2].
    + simpl weave. simpl concat at 2. apply filter_none. exact H1.
    + simpl in *. apply Forall_app in H1. apply Forall_app in H2.
      destruct H1 as [Hx H1]. destruct H2 as [Hy H2].
      rewrite !filter_app, (filter_none _ _ Hx), (filter_all _ _ Hy).
      rewrite IH by assumption. reflexivity.
Qed.

Lemma map_weave {S T : Type} (f : S -> T) (c1 c2 : list S) :
  map f (weave c1 c2) = weave (map f c1) (map f c2).
Proof.
  revert c2. induction c1 as [|x c1 IH]; intros c2; [reflexivity|].
  destruct c2 as [|y c2]; simpl; [reflexivity|].
  rewrite IH. reflexivity.
Qed.

Lemma chunk_list_map {S T : Type} (f : S -> T) (text : list S) (cs : Z) :
  chunk_list (map f text) cs = map (map f) (chunk_list text cs).
Proof.
  unfold chunk_list, len. rewrite length_map, map_map.
  apply map_ext. intros k. rewrite skipn_map, firstn_map. reflexivity.
Qed.

(** The interleaver commutes with any relabelling of the characters. *)
Lemma interleave_texts_map {S T : Type} (f : S -> T) (a b : list S) (cs : Z) :
  0 < cs ->
  forall out, interleave_texts a b cs = Ok out ->
  interleave_texts (map f a) (map f b) cs = Ok (map f out).
Proof.
  intros Hcs out.
  destruct a as [|x a].
  { cbn. intros [= <-]. reflexivity. }
  destruct b as [|y b].
  { cbn. intros [= <-]. reflexivity. }
  rewrite interleave_texts_weave by (assumption || discriminate).
  intros [= <-].
  change (map f (x :: a)) with (map f (x :: a)).
  rewrite interleave_texts_weave by (assumption || discriminate).
  rewrite !chunk_list_map, <- map_weave, concat_map. reflexivity.
Qed.

Lemma interleave_texts_total {T : Type} (a b : list T) (cs : Z) :
  0 < cs ->
  exists out, interleave_texts a b cs = Ok out /\
              length out = (length a + length b)%nat.
Proof.
  intros Hcs.
  destruct a as [|x a].
  { exists b. split; reflexivity. }
  destruct b as [|y b].
  { exists (x :: a). split; [reflexivity|]. simpl. lia. }
  rewrite interleave_texts_weave by (assumption || discriminate).
  eexists. split; [reflexivity|].
  rewrite length_concat_weave, !concat_chunk_list by assumption.
  reflexivity.
Qed.

Lemma interleave_texts_nil_l {T : Type} (b : list T) (cs : Z) :
  interleave_texts [] b cs = Ok b.
Proof. reflexivity. Qed.

Lemma interleave_texts_nil_r {T : Type} (a : list T) (cs : Z) :
  interleave_texts a [] cs = Ok a.
Proof. destruct a; reflexivity. Qed.

Lemma tag_source_fst {T : Type} (c d : bool) (l : list T) :
  Forall (fun p => Bool.eqb (fst p) d = Bool.eqb c d) (tag_source c l).
Proof.
  unfold tag_source. apply Forall_forall.
  intros p Hp. apply in_map_iff in Hp. destruct Hp as [x [<- _]].
  reflexivity.
Qed.

Lemma tag_source_snd {T : Type} (c : bool) (l : list T) :
  map snd (tag_source c l) = l.
Proof. unfold tag_source. rewrite map_map. apply map_id. Qed.

Lemma from_source_tagged {T : Type} (a b : list T) (cs : Z) :
  0 < cs ->
  forall tagged,
    interleave_texts (tag_source true a) (tag_source false b) cs = Ok tagged ->
    from_source true tagged = a /\ from_source false tagged = b.
Proof.
  intros Hcs tagged.
  pose proof (tag_source_fst true true a) as Htt.
  pose proof (tag_source_fst true false a) as Htf.
  pose proof (tag_source_fst false true b) as Hft.
  pose proof (tag_source_fst false false b) as Hff.
  cbn [Bool.eqb] in Htt, Htf, Hft, Hff.
  unfold from_source.
  destruct a as [|x a].
  { change (tag_source true (@nil T)) with (@nil (bool * T)).
    rewrite interleave_texts_nil_l. intros [= <-].
    rewrite filter_none by exact Hft.
    rewrite filter_all by exact Hff.
    split; [reflexivity|exact (tag_source_snd false b)]. }
  destruct b as [|y b].
  { change (tag_source false (@nil T)) with (@nil (bool * T)).
    rewrite interleave_texts_nil_r. intros [= <-].
    rewrite filter_all by exact Htt.
    rewrite filter_none by exact Htf.
    split; [exact (tag_source_snd true (x :: a))|reflexivity]. }
  rewrite interleave_texts_weave by (assumption || discriminate).
  intros [= <-]. split.
  - rewrite filter_concat_weave_l; rewrite ?concat_chunk_list by assumption;
      [exact (tag_source_snd true (x :: a))|exact Htt|exact Hft].
  - rewrite filter_concat_weave_r; rewrite ?concat_chunk_list by assumption;
      [exact (tag_source_snd false (y :: b))|exact Htf|exact Hff].
Qed.

Example interleave_texts_ex :
  interleave_texts [1; 2; 3; 4; 5]%N [10; 20; 30]%N 2 =
  Ok [1; 2; 10; 20; 3; 4; 30; 5]%N.
Proof. reflexivity. Qed.

(** C3. For all texts [A], [B] and any positive chunk size the interleaver
    returns a text of length [len A + len B]; an empty text on either side
    gives back the other text unchanged; and, tracking the origin of every
    output character, the characters that come from [A] are exactly [A] in
    order, and likewise for [B]. *)
Theorem interleave_texts_spec (A B : str) (chunk_size : Z) :
  0 < chunk_size ->
  exists out tagged,
    interleave_texts A B chunk_size = Ok out /\
    len out = len A + len B /\
    interleave_texts [] B chunk_size = Ok B /\
    interleave_texts A [] chunk_size = Ok A /\
    interleave_texts (tag_source true A) (tag_source false B) chunk_size
      = Ok tagged /\
    map snd tagged = out /\
    from_source true tagged = A /\
    from_source false tagged = B.
Proof.
  intros Hcs.
  destruct (interleave_texts_total (tag_source true A) (tag_source false B)
              chunk_size Hcs) as [tagged [Ht _]].
  destruct (interleave_texts_total A B chunk_size Hcs) as [out [Ho Hlen]].
  exists out, tagged.
  pose proof (interleave_texts_map snd _ _ _ Hcs _ Ht) as Hm.
  unfold tag_source in Hm. rewrite !map_map in Hm. cbn [snd] in Hm.
  rewrite !map_id in Hm. rewrite Ho in Hm. injection Hm as Hm.
  destruct (from_source_tagged A B chunk_size Hcs tagged Ht) as [HA HB].
  repeat split; try assumption.
  - unfold len. rewrite Hlen. lia.
  - destruct A; reflexivity.
  - symmetry. exact Hm.
Qed.

Lemma interleave_texts_spec_witness :
  0 < 2 /\
  exists out tagged,
    interleave_texts [1; 2; 3; 4; 5]%N [10; 20; 30]%N 2 = Ok out /\
    len out = len [1; 2; 3; 4; 5]%N + len [10; 20; 30]%N /\
    interleave_texts [] [10; 20; 30]%N 2 = Ok [10; 20; 30]%N /\
    interleave_texts [1; 2; 3; 4; 5]%N [] 2 = Ok [1; 2; 3; 4; 5]%N /\
    interleave_texts (tag_source true [1; 2; 3; 4; 5]%N)
                     (tag_source false [10; 20; 30]%N) 2 = Ok tagged /\
    map snd tagged = out /\
    from_source true tagged = [1; 2; 3; 4; 5]%N /\
    from_source false tagged = [10; 20; 30]%N.
Proof.
  split; [lia|].
  apply (interleave_texts_spec [1; 2; 3; 4; 5]%N [10; 20; 30]%N 2). lia.
Defined.

(** ** Running the effectful functions *)

Section Runs.
Context {R : Random}.

Lemma say_nil (s : state) : say [] s = s.
Proof. destruct s. unfold say. simpl. rewrite app_nil_r. reflexivity. Qed.

Lemma say_say (a b : list message) (s : state) :
  say b (say a s) = say (a ++ b) s.
Proof. unfold say. simpl. rewrite app_assoc. reflexivity. Qed.

Lemma print_run (m : message) (w : world) (s : state) :
  print m w s = (Ok tt, say [m] s).
Proof. reflexivity. Qed.

Lemma load_text_file_run filepath max_chars (w : world) (s : state) :
  load_text_file filepath max_chars w s =
  (Ok (load_result (inputs w filepath) max_chars),
   say (load_log filepath (inputs w filepath)) s).
Proof.
  unfold load_text_file, bind, read_file, load_result, load_log.
  destruct (inputs w filepath) as [|why|text].
  - reflexivity.
  - reflexivity.
  - rewrite say_nil. destruct (truthy max_chars); reflexivity.
Qed.

Lemma requested_run filepath n (w : world) (s : state) :
  (if 0 <? n then load_text_file filepath (Some n) else ret []) w s =
  (Ok (requested_text w filepath n), say (requested_log w filepath n) s).
Proof.
  unfold requested_text, requested_log.
  destruct (0 <? n).
  - apply load_text_file_run.
  - rewrite say_nil. reflexivity.
Qed.

(** The allocator returns the interleaving of what the two guarded loads
    returned, cut to [chars_needed], with the statistics of the loads. *)
Lemma get_balanced_language_data_run cfg lang chars_needed entry w s
      wiki_chars oscar_chars merged :
  dict_find (language_data cfg) lang = Some entry ->
  optimal_distribution chars_needed (wiki entry) (oscar entry) =
    (wiki_chars, oscar_chars) ->
  let wiki_text := requested_text w (wiki_file_of lang) wiki_chars in
  let oscar_text := requested_text w (oscar_file_of lang) oscar_chars in
  interleave_texts wiki_text oscar_text 1000 = Ok merged ->
  let cut := chars_needed <? len merged in
  let final := if cut then py_prefix merged chars_needed else merged in
  get_balanced_language_data cfg lang chars_needed w s =
  (Ok (final,
       LangStats.mk lang (len wiki_text) (len oscar_text)
                    (len wiki_text + len oscar_text)
                    chars_needed (wiki entry) (oscar entry)),
   say ([Processing lang chars_needed;
         Distribution wiki_chars oscar_chars]
        ++ requested_log w (wiki_file_of lang) wiki_chars
        ++ requested_log w (oscar_file_of lang) oscar_chars
        ++ (if cut then [Truncated chars_needed] else [])
        ++ [FinalLength (len final)]) s).
Proof.
  intros Hfind Hdist wiki_text oscar_text Hmerge cut final.
  unfold get_balanced_language_data, dict_get.
  rewrite Hfind.
  unfold bind at 1. rewrite print_run.
  unfold bind at 1. unfold lift at 1.
  rewrite Hdist.
  unfold bind at 1. rewrite print_run.
  unfold bind at 1. rewrite requested_run.
  unfold bind at 1. rewrite requested_run.
  fold wiki_text oscar_text.
  unfold bind at 1. unfold lift at 1. rewrite Hmerge.
  unfold bind at 1. fold cut.
  rewrite !say_say.
  destruct cut eqn:Hcut; subst final.
  - unfold bind at 1. rewrite print_run.
    unfold ret at 1. unfold bind at 1. rewrite print_run.
    unfold ret. rewrite !say_say.
    do 2 f_equal. rewrite <- !app_assoc. reflexivity.
  - unfold ret at 1. unfold bind at 1. rewrite print_run.
    unfold ret. rewrite !say_say.
    do 2 f_equal. rewrite <- !app_assoc. reflexivity.
Qed.

End Runs.

(** ** The source loader *)

Lemma len_nonneg {T : Type} (l : list T) : 0 <= len l.
Proof. unfold len. lia. Qed.

Lemma len_firstn_le {T : Type} (n : Z) (l : list T) :
  0 <= n -> len (firstn (Z.to_nat n) l) <= n.
Proof. intros Hn. unfold len. rewrite length_firstn. lia. Qed.

Lemma len_firstn_eq {T : Type} (n : Z) (l : list T) :
  0 <= n <= len l -> len (firstn (Z.to_nat n) l) = n.
Proof. unfold len. intros Hn. rewrite length_firstn. lia. Qed.

(** With a positive limit the loader returns the first [max_chars]
    characters of the file. *)
Lemma load_result_positive (text : str) (max_chars : Z) :
  0 < max_chars ->
  load_result (Content text) (Some max_chars) =
  firstn (Z.to_nat max_chars) text.
Proof.
  intros Hpos. unfold load_result, truthy, file_read.
  destruct (Z.eqb_spec max_chars 0); [lia|].
  destruct (Z.ltb_spec max_chars 0); [lia|]. reflexivity.
Qed.

(** For a positive limit: a prefix of the content, no longer than the
    limit; a missing or unreadable file gives the empty text and one
    warning, and the call returns normally in every case. *)
Lemma load_text_file_positive {R : Random} filepath (max_chars : Z) w s :
  0 < max_chars ->
  exists text,
    load_text_file filepath (Some max_chars) w s =
      (Ok text, say (load_log filepath (inputs w filepath)) s) /\
    len text <= max_chars /\
    match inputs w filepath with
    | Content content => text = firstn (Z.to_nat max_chars) content
    | Missing =>
        text = [] /\
        load_log filepath (inputs w filepath) = [WarningFileNotFound filepath]
    | Unreadable why =>
        text = [] /\
        load_log filepath (inputs w filepath) = [ErrorReading filepath why]
    end.
Proof.
  intros Hpos. eexists. split; [apply load_text_file_run|].
  destruct (inputs w filepath) as [|why|content].
  - cbn. split; [lia|]. split; reflexivity.
  - cbn. split; [lia|]. split; reflexivity.
  - rewrite load_result_positive by assumption.
    split; [apply len_firstn_le; lia|reflexivity].
Qed.

Lemma requested_text_le (w : world) filepath (n : Z) :
  0 <= n -> len (requested_text w filepath n) <= n.
Proof.
  intros Hn. unfold requested_text.
  destruct (Z.ltb_spec 0 n) as [Hpos|Hle]; [|cbn; lia].
  destruct (inputs w filepath) as [|why|content]; try (cbn; lia).
  rewrite load_result_positive by assumption.
  apply len_firstn_le. lia.
Qed.

Lemma requested_text_content (w : world) filepath (n : Z) content :
  inputs w filepath = Content content ->
  0 <= n <= len content ->
  requested_text w filepath n = firstn (Z.to_nat n) content.
Proof.
  intros Hc Hn. unfold requested_text. rewrite Hc.
  destruct (Z.ltb_spec 0 n) as [Hpos|Hle].
  - apply load_result_positive. assumption.
  - replace n with 0 by lia. reflexivity.
Qed.

Lemma requested_text_missing (w : world) filepath (n : Z) :
  inputs w filepath = Missing -> requested_text w filepath n = [].
Proof.
  intros Hm. unfold requested_text. rewrite Hm.
  destruct (0 <? n); reflexivity.
Qed.

(** C8, at an input where the code departs from it.  A limit of [0] is
    taken for no limit at all: the loader returns the whole three-character
    file, not a prefix of length at most [0]. *)
Theorem load_text_file_zero_limit :
  let w := world_of [("corpus.txt"%string, [97; 98; 99]%N)] in
  fst (run (R := rotating_random) (load_text_file "corpus.txt" (Some 0)) w 0%nat)
    = Ok [97; 98; 99]%N /\
  ~ len [97; 98; 99]%N <= 0.
Proof.
  split; [reflexivity|].
  unfold len. simpl. lia.
Qed.

(** ** The allocation policy *)

Lemma half_bounds (n : Z) : 0 <= n -> 0 <= n / 2 /\ n - 1 <= 2 * (n / 2) <= n.
Proof.
  intros Hn.
  pose proof (Z.div_mod n 2 ltac:(lia)).
  pose proof (Z.mod_pos_bound n 2 ltac:(lia)).
  lia.
Qed.

(** The ways through the policy, as facts about its result. *)
Lemma optimal_distribution_cases (n w o : Z) :
  forall wc oc, optimal_distribution n w o = (wc, oc) ->
    (o = 0 /\ wc = Z.min n w /\ oc = 0) \/
    (o <> 0 /\ w = 0 /\ wc = 0 /\ oc = Z.min n o) \/
    (o <> 0 /\ w <> 0 /\ n / 2 <= Z.min w o /\
       wc = n / 2 /\ oc = n - n / 2) \/
    (o <> 0 /\ w <> 0 /\ Z.min w o < n / 2 /\ n <= w /\
       oc = Z.min o (n / 2) /\ wc = n - oc) \/
    (o <> 0 /\ w <> 0 /\ Z.min w o < n / 2 /\ w < n /\ n <= o /\
       wc = Z.min w (n / 2) /\ oc = n - wc) \/
    (o <> 0 /\ w <> 0 /\ Z.min w o < n / 2 /\ w < n /\ o < n /\
       wc = Z.min w n /\ oc = Z.min o (n - wc)).
Proof.
  intros wc oc. unfold optimal_distribution.
  destruct (Z.eqb_spec o 0) as [Ho|Ho].
  { intros [= <- <-]. left. auto. }
  destruct (Z.eqb_spec w 0) as [Hw|Hw].
  { intros [= <- <-]. right. left. auto. }
  destruct (Z.leb_spec (n / 2) (Z.min w o)) as [Hh|Hh].
  { intros [= <- <-]. do 2 right. left. auto. }
  rewrite !Z.geb_leb.
  destruct (Z.leb_spec n w) as [Hnw|Hnw].
  { intros [= <- <-]. do 3 right. left. repeat split; auto. }
  destruct (Z.leb_spec n o) as [Hno|Hno].
  { intros [= <- <-]. do 4 right. left. repeat split; auto. }
  intros [= <- <-]. do 5 right. repeat split; auto.
Qed.

(** In every branch the two requested counts are non-negative and sum to at
    most [chars_needed]. *)
Lemma optimal_distribution_sum_le (n w o wc oc : Z) :
  0 < n -> 0 <= w -> 0 <= o ->
  optimal_distribution n w o = (wc, oc) ->
  0 <= wc /\ 0 <= oc /\ wc + oc <= n.
Proof.
  intros Hn Hw Ho Hd.
  pose proof (half_bounds n ltac:(lia)).
  apply optimal_distribution_cases in Hd. lia.
Qed.

(** With enough combined availability the requested counts sum to exactly
    [chars_needed]. *)
Lemma optimal_distribution_sum_eq (n w o wc oc : Z) :
  0 < n -> 0 <= w -> 0 <= o -> n <= w + o ->
  optimal_distribution n w o = (wc, oc) ->
  wc + oc = n.
Proof.
  intros Hn Hw Ho Hsum Hd.
  pose proof (half_bounds n ltac:(lia)).
  apply optimal_distribution_cases in Hd. lia.
Qed.

(** The requested counts stay within the advertised availability, except
    for the remainder of an odd [chars_needed] in the 50/50 branch. *)
Lemma optimal_distribution_within (n w o wc oc : Z) :
  0 < n -> 0 <= w -> 0 <= o ->
  (n / 2 <= Z.min w o -> n - n / 2 <= o) ->
  optimal_distribution n w o = (wc, oc) ->
  wc <= w /\ oc <= o.
Proof.
  intros Hn Hw Ho Hodd Hd.
  pose proof (half_bounds n ltac:(lia)).
  apply optimal_distribution_cases in Hd. lia.
Qed.

Example optimal_distribution_yo :
  optimal_distribution 36419 12646633 18209 = (18209, 18210).
Proof. reflexivity. Qed.

(** ** The per-language allocator *)

(** What a call of the allocator does when the availabilities are
    non-negative: nothing is cut after the merge. *)
Lemma allocator_outcome {R : Random} cfg lang entry n w (s : state) wc oc :
  dict_find (language_data cfg) lang = Some entry ->
  0 < n -> 0 <= wiki entry -> 0 <= oscar entry ->
  optimal_distribution n (wiki entry) (oscar entry) = (wc, oc) ->
  let wiki_text := requested_text w (wiki_file_of lang) wc in
  let oscar_text := requested_text w (oscar_file_of lang) oc in
  exists merged,
    interleave_texts wiki_text oscar_text 1000 = Ok merged /\
    len merged = len wiki_text + len oscar_text /\
    len merged <= n /\
    get_balanced_language_data cfg lang n w s =
    (Ok (merged,
         LangStats.mk lang (len wiki_text) (len oscar_text)
                      (len wiki_text + len oscar_text)
                      n (wiki entry) (oscar entry)),
     say ([Processing lang n; Distribution wc oc]
          ++ requested_log w (wiki_file_of lang) wc
          ++ requested_log w (oscar_file_of lang) oc
          ++ [FinalLength (len merged)]) s).
Proof.
  intros Hfind Hn Hw Ho Hd wiki_text oscar_text.
  destruct (optimal_distribution_sum_le _ _ _ _ _ Hn Hw Ho Hd)
    as [Hwc [Hoc Hsum]].
  destruct (interleave_texts_total wiki_text oscar_text 1000 ltac:(lia))
    as [merged [Hm Hlen]].
  assert (Hlen' : len merged = len wiki_text + len oscar_text).
  { unfold len. rewrite Hlen. lia. }
  pose proof (requested_text_le w (wiki_file_of lang) wc Hwc) as H1.
  pose proof (requested_text_le w (oscar_file_of lang) oc Hoc) as H2.
  fold wiki_text in H1. fold oscar_text in H2.
  exists merged. repeat split; try assumption; [lia|].
  rewrite (get_balanced_language_data_run cfg lang n entry w s wc oc merged
             Hfind Hd Hm).
  destruct (Z.ltb_spec n (len merged)) as [Hcut|_]; [lia|].
  reflexivity.
Qed.

(** C9. For a positive [chars_needed] and non-negative availabilities the
    two counts the policy requests sum to at most [chars_needed] in every
    branch; each guarded load returns at most the count requested; so the
    merged text is never longer than [chars_needed], the allocator returns
    it uncut and prints no truncation message. *)
Theorem truncation_unreachable {R : Random} cfg lang entry n w (s : state) :
  dict_find (language_data cfg) lang = Some entry ->
  0 < n -> 0 <= wiki entry -> 0 <= oscar entry ->
  exists wc oc merged stats log,
    optimal_distribution n (wiki entry) (oscar entry) = (wc, oc) /\
    wc + oc <= n /\
    len (requested_text w (wiki_file_of lang) wc) <= wc /\
    len (requested_text w (oscar_file_of lang) oc) <= oc /\
    interleave_texts (requested_text w (wiki_file_of lang) wc)
                     (requested_text w (oscar_file_of lang) oc) 1000
      = Ok merged /\
    len merged <= n /\
    get_balanced_language_data cfg lang n w s
      = (Ok (merged, stats), say log s) /\
    existsb is_truncation log = false.
Proof.
  intros Hfind Hn Hw Ho.
  destruct (optimal_distribution n (wiki entry) (oscar entry))
    as [wc oc] eqn:Hd.
  destruct (optimal_distribution_sum_le _ _ _ _ _ Hn Hw Ho Hd)
    as [Hwc [Hoc Hsum]].
  destruct (allocator_outcome cfg lang entry n w s wc oc Hfind Hn Hw Ho Hd)
    as [merged [Hm [Hlen [Hle Hrun]]]].
  exists wc, oc, merged. eexists. eexists.
  split; [reflexivity|].
  split; [exact Hsum|].
  split; [apply requested_text_le; exact Hwc|].
  split; [apply requested_text_le; exact Hoc|].
  split; [exact Hm|].
  split; [exact Hle|].
  split; [exact Hrun|].
  rewrite !existsb_app. cbn [existsb is_truncation orb].
  assert (Hlog : forall p k, existsb is_truncation (requested_log w p k) = false).
  { intros p k. unfold requested_log, load_log.
    destruct (0 <? k); [|reflexivity].
    destruct (inputs w p); reflexivity. }
  rewrite !Hlog. reflexivity.
Qed.

Lemma truncation_unreachable_witness :
  dict_find (language_data module_config) "sw" = Some (Availability 61130713 8428241 69558954)
  /\ 0 < 5 /\
  exists wc oc merged stats log,
    optimal_distribution 5 61130713 8428241 = (wc, oc) /\
    wc + oc <= 5 /\
    len (requested_text (uniform_world [97; 98; 99]%N) (wiki_file_of "sw") wc) <= wc /\
    len (requested_text (uniform_world [97; 98; 99]%N) (oscar_file_of "sw") oc) <= oc /\
    interleave_texts
      (requested_text (uniform_world [97; 98; 99]%N) (wiki_file_of "sw") wc)
      (requested_text (uniform_world [97; 98; 99]%N) (oscar_file_of "sw") oc)
      1000 = Ok merged /\
    len merged <= 5 /\
    get_balanced_language_data module_config "sw" 5
      (uniform_world [97; 98; 99]%N) fresh
      = (Ok (merged, stats), say log fresh) /\
    existsb is_truncation log = false.
Proof.
  split; [reflexivity|]. split; [lia|].
  apply (truncation_unreachable (R := rotating_random) module_config "sw"
           (Availability 61130713 8428241 69558954) 5
           (uniform_world [97; 98; 99]%N) fresh).
  - reflexivity.
  - lia.
  - simpl. lia.
  - simpl. lia.
Defined.

(** C5 as specified does not hold of the code.  On the module's own table
    "hi" has wiki and crawl data and half of four fits in each, so the
    policy assigns two characters to each source; with the wiki file of
    "hi" absent the counts used are 0 and 2, which differ by two. *)
Lemma even_split_needs_both_files :
  (0 < 4 /\
   exists entry,
     dict_find (language_data module_config) "hi" = Some entry /\
     0 < wiki entry /\ 0 < oscar entry /\
     4 / 2 <= Z.min (wiki entry) (oscar entry) /\
     optimal_distribution 4 (wiki entry) (oscar entry) = (2, 2)) /\
  inputs crawl_only_world (wiki_file_of "hi") = Missing /\
  exists text stats s',
    get_balanced_language_data module_config "hi" 4 crawl_only_world fresh
      = (Ok (text, stats), s') /\
    LangStats.wiki_chars stats = 0 /\
    LangStats.oscar_chars stats = 2 /\
    ~ Z.abs (LangStats.wiki_chars stats - LangStats.oscar_chars stats) <= 1.
Proof.
  split.
  { split; [lia|]. eexists. split; [reflexivity|].
    cbn [wiki oscar]. split; [lia|]. split; [lia|].
    split; [vm_compute; discriminate|reflexivity]. }
  split; [reflexivity|].
  eexists. eexists. eexists.
  split; [vm_compute; reflexivity|].
  split; [reflexivity|]. split; [reflexivity|].
  cbn [LangStats.wiki_chars LangStats.oscar_chars]. vm_compute.
  intros H. apply H. reflexivity.
Qed.

(** C5, amended.  When both sources are available and half of
    [chars_needed] fits in each, the policy assigns [chars_needed // 2] to
    wiki and the rest to crawl, so the two counts assigned differ by at
    most one; and when, besides, the two files are there and hold at least
    the counts assigned, the [wiki_chars] and [oscar_chars] used are these
    counts and differ by at most one. *)
Theorem even_split (n w o : Z) :
  0 < n -> 0 < w -> 0 < o -> n / 2 <= Z.min w o ->
  optimal_distribution n w o = (n / 2, n - n / 2) /\
  Z.abs (n / 2 - (n - n / 2)) <= 1 /\
  forall (R : Random) cfg lang entry world (s : state)
         wiki_content oscar_content,
    dict_find (language_data cfg) lang = Some entry ->
    wiki entry = w -> oscar entry = o ->
    inputs world (wiki_file_of lang) = Content wiki_content ->
    n / 2 <= len wiki_content ->
    inputs world (oscar_file_of lang) = Content oscar_content ->
    n - n / 2 <= len oscar_content ->
    exists text stats s',
      get_balanced_language_data cfg lang n world s
        = (Ok (text, stats), s') /\
      LangStats.wiki_chars stats = n / 2 /\
      LangStats.oscar_chars stats = n - n / 2 /\
      Z.abs (LangStats.wiki_chars stats - LangStats.oscar_chars stats) <= 1.
Proof.
  intros Hn Hw Ho Hhalf.
  pose proof (half_bounds n ltac:(lia)) as Hb.
  assert (Hd : optimal_distribution n w o = (n / 2, n - n / 2)).
  { unfold optimal_distribution.
    destruct (Z.eqb_spec o 0); [lia|].
    destruct (Z.eqb_spec w 0); [lia|].
    destruct (Z.leb_spec (n / 2) (Z.min w o)); [reflexivity|lia]. }
  split; [exact Hd|]. split; [lia|].
  intros R cfg lang entry world s wiki_content oscar_content
         Hfind Hew Heo Hwf Hwl Hof Hol.
  subst w o.
  destruct (allocator_outcome cfg lang entry n world s _ _ Hfind Hn
              ltac:(lia) ltac:(lia) Hd) as [merged [_ [_ [_ Hrun]]]].
  eexists. eexists. eexists. split; [exact Hrun|].
  cbn [LangStats.wiki_chars LangStats.oscar_chars].
  rewrite (requested_text_content _ _ _ _ Hwf) by lia.
  rewrite (requested_text_content _ _ _ _ Hof) by lia.
  rewrite !len_firstn_eq by lia. lia.
Qed.

Lemma even_split_witness :
  (0 < 5 /\ 0 < 61130713 /\ 0 < 8428241 /\ 5 / 2 <= Z.min 61130713 8428241) /\
  optimal_distribution 5 61130713 8428241 = (2, 3) /\
  exists text stats s',
    get_balanced_language_data module_config "sw" 5
      (uniform_world [97; 98; 99]%N) fresh = (Ok (text, stats), s') /\
    LangStats.wiki_chars stats = 2 /\
    LangStats.oscar_chars stats = 3.
Proof.
  assert (H1 : 0 < 5) by lia.
  assert (H2 : 0 < 61130713) by lia.
  assert (H3 : 0 < 8428241) by lia.
  assert (H4 : 5 / 2 <= Z.min 61130713 8428241) by (vm_compute; discriminate).
  split; [repeat split; assumption|].
  destruct (even_split 5 61130713 8428241 H1 H2 H3 H4) as [Hd [_ Hrun]].
  split; [exact Hd|].
  destruct (Hrun rotating_random module_config "sw"%string
              (Availability 61130713 8428241 69558954)
              (uniform_world [97; 98; 99]%N) fresh
              [97; 98; 99]%N [97; 98; 99]%N
              eq_refl eq_refl eq_refl eq_refl
              ltac:(vm_compute; discriminate) eq_refl
              ltac:(vm_compute; discriminate))
    as [text [stats [s' [Hr [Hwc [Hoc _]]]]]].
  exists text, stats, s'. repeat split; assumption.
Defined.

(** The reported total never exceeds [chars_needed]. *)
Lemma total_chars_used_le {R : Random} cfg lang entry n w (s : state) :
  dict_find (language_data cfg) lang = Some entry ->
  0 < n -> 0 <= wiki entry -> 0 <= oscar entry ->
  exists text stats s',
    get_balanced_language_data cfg lang n w s = (Ok (text, stats), s') /\
    LangStats.total_chars stats = len text /\
    LangStats.total_chars stats <= n.
Proof.
  intros Hfind Hn Hw Ho.
  destruct (optimal_distribution n (wiki entry) (oscar entry))
    as [wc oc] eqn:Hd.
  destruct (allocator_outcome cfg lang entry n w s wc oc Hfind Hn Hw Ho Hd)
    as [merged [_ [Hlen [Hle Hrun]]]].
  eexists. eexists. eexists. split; [exact Hrun|].
  cbn [LangStats.total_chars]. lia.
Qed.

(** The reported total is exactly [chars_needed] when the combined
    availability suffices and the files hold what the table advertises,
    provided the 50/50 branch does not ask the crawl source for the odd
    remainder it does not have. *)
Lemma total_chars_used_eq {R : Random} cfg lang entry n w (s : state)
      wiki_content oscar_content :
  dict_find (language_data cfg) lang = Some entry ->
  0 < n -> 0 <= wiki entry -> 0 <= oscar entry ->
  n <= wiki entry + oscar entry ->
  (n / 2 <= Z.min (wiki entry) (oscar entry) -> n - n / 2 <= oscar entry) ->
  inputs w (wiki_file_of lang) = Content wiki_content ->
  wiki entry <= len wiki_content ->
  inputs w (oscar_file_of lang) = Content oscar_content ->
  oscar entry <= len oscar_content ->
  exists text stats s',
    get_balanced_language_data cfg lang n w s = (Ok (text, stats), s') /\
    LangStats.total_chars stats = n /\ len text = n.
Proof.
  intros Hfind Hn Hw Ho Hsum Hodd Hwf Hwl Hof Hol.
  destruct (optimal_distribution n (wiki entry) (oscar entry))
    as [wc oc] eqn:Hd.
  destruct (optimal_distribution_sum_le _ _ _ _ _ Hn Hw Ho Hd)
    as [Hwc [Hoc _]].
  pose proof (optimal_distribution_sum_eq _ _ _ _ _ Hn Hw Ho Hsum Hd) as Heq.
  destruct (optimal_distribution_within _ _ _ _ _ Hn Hw Ho Hodd Hd)
    as [Hwin Hoin].
  destruct (allocator_outcome cfg lang entry n w s wc oc Hfind Hn Hw Ho Hd)
    as [merged [_ [Hlen [_ Hrun]]]].
  eexists. eexists. eexists. split; [exact Hrun|].
  cbn [LangStats.total_chars]. rewrite Hlen.
  rewrite (requested_text_content _ _ _ _ Hwf) by lia.
  rewrite (requested_text_content _ _ _ _ Hof) by lia.
  rewrite !len_firstn_eq by lia. lia.
Qed.

(** C2, at an input where the code departs from it.  The table advertises
    2 wiki and 1 crawl characters, the files hold exactly that, and 3
    characters are asked for: the 50/50 branch requests 1 + 2, the crawl
    file yields 1, and the reported total is 2. *)
Theorem allocator_odd_remainder_shortfall :
  dict_find (language_data odd_config) "xx" = Some (Availability 2 1 3) /\
  3 <= 2 + 1 /\
  inputs odd_world (wiki_file_of "xx") = Content [97; 98]%N /\
  inputs odd_world (oscar_file_of "xx") = Content [120]%N /\
  optimal_distribution 3 2 1 = (1, 2) /\
  exists text stats s',
    get_balanced_language_data odd_config "xx" 3 odd_world fresh
      = (Ok (text, stats), s') /\
    LangStats.total_chars stats = 2 /\
    LangStats.total_chars stats <> 3.
Proof.
  repeat (split; [reflexivity || lia|]).
  eexists. eexists. eexists.
  split; [vm_compute; reflexivity|].
  split; [reflexivity|discriminate].
Qed.

(** The same shortfall on the module's own table: for "yo" the crawl file
    holds the 18,209 characters advertised, and asking for 36,419 reports
    36,418. *)
Lemma allocator_shortfall_yo {R : Random} w (s : state)
      wiki_content oscar_content :
  inputs w (wiki_file_of "yo") = Content wiki_content ->
  12646633 <= len wiki_content ->
  inputs w (oscar_file_of "yo") = Content oscar_content ->
  len oscar_content = 18209 ->
  exists text stats s',
    get_balanced_language_data module_config "yo" 36419 w s
      = (Ok (text, stats), s') /\
    LangStats.total_chars stats = 36418.
Proof.
  intros Hwf Hwl Hof Hol.
  destruct (allocator_outcome module_config "yo"%string
              (Availability 12646633 18209 12664842) 36419 w s
              18209 18210 eq_refl eq_refl) as [merged [_ [_ [_ Hrun]]]].
  { cbn [wiki]. lia. }
  { cbn [oscar]. lia. }
  { reflexivity. }
  eexists. eexists. eexists. split; [exact Hrun|].
  cbn [LangStats.total_chars].
  rewrite (requested_text_content _ _ _ _ Hwf) by lia.
  rewrite len_firstn_eq by lia.
  unfold requested_text. rewrite Hof.
  change (0 <? 18210) with true. cbv iota.
  rewrite load_result_positive by lia.
  rewrite firstn_all2 by (unfold len in Hol; lia).
  lia.
Qed.

(** C4 as specified does not hold of the code.  On the module's own table,
    with the wiki file of "hi" absent and four characters in its crawl
    file, asking for four characters reports a total of two. *)
Lemma missing_wiki_not_refilled :
  inputs crawl_only_world (wiki_file_of "hi") = Missing /\
  inputs crawl_only_world (oscar_file_of "hi")
    = Content [97; 98; 99; 100]%N /\
  4 <= len [97; 98; 99; 100]%N /\
  exists stats s',
    get_balanced_language_data module_config "hi" 4 crawl_only_world fresh
      = (Ok ([97; 98]%N, stats), s') /\
    LangStats.total_chars stats = 2 /\
    LangStats.total_chars stats <> 4.
Proof.
  repeat (split; [reflexivity || (vm_compute; discriminate)|]).
  eexists. eexists.
  split; [vm_compute; reflexivity|].
  split; [reflexivity|discriminate].
Qed.

(** C4, amended.  When the wiki file of a language is absent and its crawl
    file holds at least [n] characters, the allocator returns normally; the
    text is the prefix of the crawl file of the length the policy requested
    from the crawl source, computed from the availability table alone; no
    wiki character is used and the total is that requested crawl count; the
    file-not-found warning for the wiki file is printed exactly when the
    policy requested wiki characters; and the total is [n] when the table
    itself lists no wiki data and at least [n] crawl characters. *)
Theorem missing_wiki_file {R : Random} cfg lang entry n w (s : state)
        oscar_content :
  dict_find (language_data cfg) lang = Some entry ->
  0 < n -> 0 <= wiki entry -> 0 <= oscar entry ->
  inputs w (wiki_file_of lang) = Missing ->
  inputs w (oscar_file_of lang) = Content oscar_content ->
  n <= len oscar_content ->
  exists wc oc stats log,
    optimal_distribution n (wiki entry) (oscar entry) = (wc, oc) /\
    get_balanced_language_data cfg lang n w s
      = (Ok (firstn (Z.to_nat oc) oscar_content, stats), say log s) /\
    LangStats.wiki_chars stats = 0 /\
    LangStats.oscar_chars stats = oc /\
    LangStats.total_chars stats = oc /\
    (In (WarningFileNotFound (wiki_file_of lang)) log <-> 0 < wc) /\
    (wiki entry = 0 -> n <= oscar entry -> LangStats.total_chars stats = n).
Proof.
  intros Hfind Hn Hw Ho Hwf Hof Hol.
  destruct (optimal_distribution n (wiki entry) (oscar entry))
    as [wc oc] eqn:Hd.
  destruct (optimal_distribution_sum_le _ _ _ _ _ Hn Hw Ho Hd)
    as [Hwc [Hoc Hsum]].
  destruct (allocator_outcome cfg lang entry n w s wc oc Hfind Hn Hw Ho Hd)
    as [merged [Hm [_ [_ Hrun]]]].
  rewrite (requested_text_missing _ _ _ Hwf) in Hm, Hrun.
  rewrite (requested_text_content _ _ _ _ Hof) in Hm, Hrun by lia.
  rewrite interleave_texts_nil_l in Hm. injection Hm as <-.
  exists wc, oc. eexists. eexists.
  split; [reflexivity|]. split; [exact Hrun|].
  cbn [LangStats.wiki_chars LangStats.oscar_chars LangStats.total_chars].
  rewrite len_firstn_eq by lia.
  change (len (@nil char)) with 0.
  split; [reflexivity|]. split; [reflexivity|]. split; [lia|].
  split.
  - unfold requested_log. rewrite Hwf, Hof.
    assert (Hquiet : (if 0 <? oc
                      then load_log (oscar_file_of lang) (Content oscar_content)
                      else []) = []) by (destruct (0 <? oc); reflexivity).
    rewrite Hquiet.
    destruct (Z.ltb_spec 0 wc) as [Hpos|Hnpos]; cbn [load_log app In].
    + split; [intros _; exact Hpos|].
      intros _. right. right. left. reflexivity.
    + split; [|lia].
      intros [H|[H|[H|[]]]]; discriminate H.
  - intros Hw0 Hno.
    apply optimal_distribution_cases in Hd.
    pose proof (half_bounds n ltac:(lia)). lia.
Qed.

Lemma missing_wiki_file_witness :
  (dict_find (language_data module_config) "hi"
     = Some (Availability 218280173 50000000 268280173) /\
   0 < 4 /\
   inputs crawl_only_world (wiki_file_of "hi") = Missing /\
   inputs crawl_only_world (oscar_file_of "hi")
     = Content [97; 98; 99; 100]%N /\
   4 <= len [97; 98; 99; 100]%N) /\
  exists wc oc stats log,
    optimal_distribution 4 218280173 50000000 = (wc, oc) /\
    get_balanced_language_data module_config "hi" 4 crawl_only_world fresh
      = (Ok (firstn (Z.to_nat oc) [97; 98; 99; 100]%N, stats), say log fresh) /\
    LangStats.wiki_chars stats = 0 /\
    LangStats.oscar_chars stats = oc /\
    LangStats.total_chars stats = oc /\
    (In (WarningFileNotFound (wiki_file_of "hi")) log <-> 0 < wc) /\
    (218280173 = 0 -> 4 <= 50000000 -> LangStats.total_chars stats = 4).
Proof.
  split.
  - repeat split; try reflexivity; lia.
  - apply (missing_wiki_file (R := rotating_random) module_config "hi"
             (Availability 218280173 50000000 268280173) 4
             crawl_only_world fresh [97; 98; 99; 100]%N).
    + reflexivity.
    + lia.
    + simpl. lia.
    + simpl. lia.
    + reflexivity.
    + reflexivity.
    + vm_compute. discriminate.
Defined.

(** ** The file assembler *)

Section Assembler.
Context {R : Random}.

Lemma prints_only_ret {A : Type} (a : A) : prints_only (ret a).
Proof.
  intros w. exists (Ok a), []. intros s. rewrite say_nil. reflexivity.
Qed.

Lemma prints_only_lift {A : Type} (r : result A) : prints_only (lift r).
Proof.
  intros w. exists r, []. intros s. rewrite say_nil. reflexivity.
Qed.

Lemma prints_only_print (m : message) : prints_only (print m).
Proof. intros w. exists (Ok tt), [m]. intros s. reflexivity. Qed.

Lemma prints_only_read_file (p : string) : prints_only (read_file p).
Proof.
  intros w. exists (Ok (inputs w p)), []. intros s.
  rewrite say_nil. reflexivity.
Qed.

Lemma prints_only_bind {A B : Type} (c : M A) (k : A -> M B) :
  prints_only c -> (forall a, prints_only (k a)) ->
  prints_only (bind c k).
Proof.
  intros Hc Hk w. destruct (Hc w) as [r [log Hrun]].
  destruct r as [a|e].
  - destruct (Hk a w) as [r' [log' Hrun']].
    exists r', (log ++ log'). intros s.
    unfold bind. rewrite Hrun, Hrun', say_say. reflexivity.
  - exists (Raise e), log. intros s.
    unfold bind. rewrite Hrun. reflexivity.
Qed.

Lemma prints_only_for_each {A S : Type} (l : list A)
      (body : S -> A -> M S) :
  (forall acc x, prints_only (body acc x)) ->
  forall acc, prints_only (for_each l body acc).
Proof.
  intros Hbody. induction l as [|x l IH]; intros acc; cbn [for_each].
  - apply prints_only_ret.
  - apply prints_only_bind; [apply Hbody|exact IH].
Qed.

Lemma prints_only_load_text_file p max_chars :
  prints_only (load_text_file p max_chars).
Proof.
  intros w. eexists. eexists. intros s. apply load_text_file_run.
Qed.

Lemma prints_only_get_balanced_language_data cfg lang n :
  prints_only (get_balanced_language_data cfg lang n).
Proof.
  unfold get_balanced_language_data.
  apply prints_only_bind; [apply prints_only_print|]. intros _.
  apply prints_only_bind; [apply prints_only_lift|]. intros entry.
  destruct (optimal_distribution n (wiki entry) (oscar entry)) as [wc oc].
  apply prints_only_bind; [apply prints_only_print|]. intros _.
  apply prints_only_bind.
  { destruct (0 <? wc);
      [apply prints_only_load_text_file|apply prints_only_ret]. }
  intros wiki_text.
  apply prints_only_bind.
  { destruct (0 <? oc);
      [apply prints_only_load_text_file|apply prints_only_ret]. }
  intros oscar_text.
  apply prints_only_bind; [apply prints_only_lift|]. intros merged.
  apply prints_only_bind.
  { destruct (n <? len merged); [|apply prints_only_ret].
    apply prints_only_bind; [apply prints_only_print|].
    intros _. apply prints_only_ret. }
  intros final.
  apply prints_only_bind; [apply prints_only_print|]. intros _.
  apply prints_only_ret.
Qed.

Lemma prints_only_collect_language cfg n acc lang :
  prints_only (collect_language cfg n acc lang).
Proof.
  unfold collect_language.
  apply prints_only_bind;
    [apply prints_only_get_balanced_language_data|].
  intros [lang_text lang_stats].
  apply prints_only_bind; [apply prints_only_print|]. intros _.
  apply prints_only_ret.
Qed.

(** [create_balanced_file] in terms of its loop and of the shuffle. *)
Lemma create_balanced_file_run cfg split_config w (s : state) :
  create_balanced_file cfg split_config w s =
  match for_each (languages cfg)
          (collect_language cfg (Split.chars_per_lang split_config))
          (Collect [] [] 0) w (say (banner split_config) s) with
  | (Raise e, s1) => (Raise e, s1)
  | (Ok acc, s1) =>
      let shuffled := fst (random_shuffle (generator s1) (all_texts acc)) in
      let g := snd (random_shuffle (generator s1) (all_texts acc)) in
      let final_text := concat shuffled in
      let filename := Split.filename split_config in
      (Ok (FileStats.mk filename (Split.total_chars split_config)
             (len final_text) (Split.chars_per_lang split_config)
             (Split.baseline_lang split_config) (language_stats acc)),
       State (stdout s1
                ++ [ Created filename (len final_text);
                     PerfectBalance
                       (len final_text =? Split.total_chars split_config);
                     SavedTo (path_join OUTPUT_DIR filename) ])
             g
             (written s1
                ++ [(path_join OUTPUT_DIR filename, TextFile final_text)]))
  end.
Proof.
  unfold create_balanced_file.
  do 5 (unfold bind at 1; rewrite print_run).
  rewrite !say_say. cbn [app]. fold (banner split_config).
  unfold bind at 1.
  destruct (for_each (languages cfg) _ _ w (say (banner split_config) s))
    as [[acc|e] s1]; [|reflexivity].
  unfold bind at 1. unfold shuffle at 1.
  destruct (random_shuffle (generator s1) (all_texts acc))
    as [shuffled g] eqn:Hsh.
  cbn [fst snd].
  unfold bind, write_file, print, ret. cbn [stdout generator written].
  rewrite <- !app_assoc. reflexivity.
Qed.

End Assembler.

Lemma Permutation_concat_length {T : Type} (l l' : list (list T)) :
  Permutation l l' -> length (concat l) = length (concat l').
Proof.
  induction 1 as [|x l l' _ IH|x y l|l l' l'' _ IH1 _ IH2]; cbn [concat].
  - reflexivity.
  - rewrite !length_app, IH. reflexivity.
  - rewrite !length_app. lia.
  - congruence.
Qed.

Lemma length_str_of_string (s : string) :
  length (str_of_string s) = String.length s.
Proof.
  unfold str_of_string. rewrite length_map.
  induction s as [|a s IH]; cbn; [reflexivity|]. rewrite IH. reflexivity.
Qed.

Lemma length_upper (s : string) : String.length (upper s) = String.length s.
Proof. induction s as [|a s IH]; cbn; [reflexivity|]. rewrite IH. reflexivity. Qed.

(** Every block carries its header and separator on top of the text of the
    language: 15 characters and the language code. *)
Lemma language_block_length (lang : string) (lang_text : str) :
  len (language_block lang lang_text) =
  len lang_text + Z.of_nat (String.length lang) + 15.
Proof.
  unfold language_block, len.
  rewrite !length_app, length_str_of_string.
  change ("# Language: " ++ upper lang)%string
    with (String "#" (String " " (String "L" (String "a" (String "n"
         (String "g" (String "u" (String "a" (String "g" (String "e"
         (String ":" (String " " (upper lang))))))))))))).
  cbn [String.length length]. rewrite length_upper. lia.
Qed.

Lemma rotate_permutation (k : nat) (l : list str) :
  Permutation l (rotate k l).
Proof.
  unfold rotate.
  rewrite <- (firstn_skipn (k mod length l) l) at 1.
  apply Permutation_app_comm.
Qed.



Lemma dict_find_set_same {V : Type} (d : dict V) (key : string) (v : V) :
  dict_find (dict_set d key v) key = Some v.
Proof.
  induction d as [|[k v0] d IH]; cbn [dict_set dict_find].
  - rewrite String.eqb_refl. reflexivity.
  - destruct (String.eqb k key) eqn:Hk; cbn [dict_find]; rewrite Hk.
    + reflexivity.
    + exact IH.
Qed.

Lemma dict_find_set_other {V : Type} (d : dict V) (key key' : string) (v : V) :
  key <> key' ->
  dict_find (dict_set d key v) key' = dict_find d key'.
Proof.
  intros Hne. induction d as [|[k v0] d IH]; cbn [dict_set dict_find].
  - destruct (String.eqb_spec key key'); [contradiction|reflexivity].
  - destruct (String.eqb_spec k key) as [->|Hk]; cbn [dict_find].
    + destruct (String.eqb_spec key key'); [contradiction|reflexivity].
    + destruct (String.eqb k key'); [reflexivity|exact IH].
Qed.

Lemma blocks_length_snoc (blocks : list str) (b : str) :
  blocks_length (blocks ++ [b]) = blocks_length blocks + len b.
Proof.
  unfold blocks_length, len.
  rewrite concat_app, length_app. cbn [concat]. rewrite app_nil_r. lia.
Qed.

(** The loop of the assembler over well-supplied languages: every language
    adds its [n] characters and its header to the blocks, and its
    statistics, with a total of [n], to the dictionary. *)
Lemma collect_loop_well_supplied {R : Random} cfg w (n : Z) :
  0 < n ->
  forall langs (s : state) acc,
    Forall (well_supplied cfg w n) langs ->
    NoDup langs ->
    exists acc' s',
      for_each langs (collect_language cfg n) acc w s = (Ok acc', s') /\
      blocks_length (all_texts acc') =
        blocks_length (all_texts acc) + n * len langs
          + header_overhead langs /\
      (forall lang, In lang langs ->
         exists stats, dict_find (language_stats acc') lang = Some stats /\
                       LangStats.total_chars stats = n) /\
      (forall lang, ~ In lang langs ->
         dict_find (language_stats acc') lang
           = dict_find (language_stats acc) lang).
Proof.
  intros Hn. induction langs as [|lang langs IH]; intros s acc Hall Hnodup.
  - exists acc, s. split; [reflexivity|].
    split; [cbn; unfold len; cbn; lia|].
    split; [intros ? []|reflexivity].
  - apply Forall_cons_iff in Hall. destruct Hall as [Hlang Hall].
    apply NoDup_cons_iff in Hnodup. destruct Hnodup as [Hfresh Hnodup].
    destruct Hlang as [entry [wc [oc [Hfind [Hw [Ho [Hsum [Hodd
                        [Hwf [Hwl [Hof Hol]]]]]]]]]]].
    destruct (total_chars_used_eq cfg lang entry n w s wc oc
                Hfind Hn Hw Ho Hsum Hodd Hwf Hwl Hof Hol)
      as [text [stats [s1 [Hrun [Htotal Hlen]]]]].
    cbn [for_each]. unfold bind at 1. unfold collect_language at 1.
    unfold bind at 1. rewrite Hrun.
    unfold bind at 1. rewrite print_run. unfold ret at 1.
    rewrite Hlen.
    destruct (Z.ltb_spec 0 n) as [_|]; [|lia].
    cbn [all_texts language_stats total_collected].
    match goal with
    | |- context [for_each langs _ ?a w ?st] =>
        destruct (IH st a Hall Hnodup)
          as [acc' [s' [Hloop [Hblocks [Hin Hout]]]]]
    end.
    exists acc', s'. split; [exact Hloop|].
    cbn [all_texts language_stats] in Hblocks, Hout.
    split.
    + rewrite Hblocks, blocks_length_snoc, language_block_length, Hlen.
      change (header_overhead (lang :: langs))
        with (Z.of_nat (String.length lang) + 15 + header_overhead langs).
      unfold len. cbn [length]. lia.
    + split.
      * intros l [<-|Hl]; [|apply Hin; exact Hl].
        exists stats. split; [|exact Htotal].
        rewrite (Hout lang Hfresh). apply dict_find_set_same.
      * intros l Hl. cbn [In] in Hl.
        rewrite Hout by tauto. apply dict_find_set_other. tauto.
Qed.

Lemma csv_total_well_supplied (file_stats : FileStats.t) (n : Z) :
  forall langs,
    (forall lang, In lang langs ->
       exists stats,
         dict_find (FileStats.language_stats file_stats) lang = Some stats /\
         LangStats.total_chars stats = n) ->
    csv_total
      (flat_map
         (fun lang =>
            match dict_find (FileStats.language_stats file_stats) lang with
            | Some stats =>
                [CsvRow (FileStats.filename file_stats) lang
                   (String.eqb lang (FileStats.baseline_lang file_stats))
                   (LangStats.target_chars stats)
                   (LangStats.wiki_chars stats)
                   (LangStats.oscar_chars stats)
                   (LangStats.total_chars stats)]
            | None => []
            end) langs) = n * len langs.
Proof.
  induction langs as [|lang langs IH]; intros Hin.
  - cbn. lia.
  - cbn [flat_map].
    destruct (Hin lang (or_introl eq_refl)) as [stats [-> Htotal]].
    cbn [app csv_total fold_right csv_total_chars].
    change (fold_right (fun row k => csv_total_chars row + k) 0)
      with csv_total.
    rewrite IH by (intros l Hl; apply Hin; right; exact Hl).
    rewrite Htotal. unfold len. cbn [length]. lia.
Qed.

(** What the assembler reports for a split all of whose languages are well
    supplied: the per-language totals of the CSV sum to the target, and
    [actual_chars], the length of the file, exceeds the target by the
    headers and separators of the blocks. *)
Lemma assembled_length_well_supplied {R : Random}
      cfg split_config w (s : state) :
  (forall g l, Permutation l (fst (random_shuffle g l))) ->
  0 < Split.chars_per_lang split_config ->
  Split.total_chars split_config =
    Split.chars_per_lang split_config * len (languages cfg) ->
  NoDup (languages cfg) ->
  Forall (well_supplied cfg w (Split.chars_per_lang split_config))
         (languages cfg) ->
  exists file_stats s',
    create_balanced_file cfg split_config w s = (Ok file_stats, s') /\
    FileStats.target_chars file_stats = Split.total_chars split_config /\
    csv_total (csv_rows_of cfg file_stats)
      = FileStats.target_chars file_stats /\
    FileStats.actual_chars file_stats =
      FileStats.target_chars file_stats + header_overhead (languages cfg).
Proof.
  intros Hperm Hn Htotal Hnodup Hall.
  rewrite create_balanced_file_run.
  destruct (collect_loop_well_supplied cfg w _ Hn (languages cfg)
              (say (banner split_config) s) (Collect [] [] 0) Hall Hnodup)
    as [acc [s1 [Hloop [Hblocks [Hin _]]]]].
  rewrite Hloop. eexists. eexists. split; [reflexivity|].
  cbn [FileStats.target_chars FileStats.actual_chars].
  split; [reflexivity|]. split.
  - unfold csv_rows_of. rewrite Htotal.
    apply csv_total_well_supplied.
    cbn [FileStats.language_stats]. exact Hin.
  - pose proof (Permutation_concat_length _ _
                  (Hperm (generator s1) (all_texts acc))) as Hlen.
    unfold len at 1. rewrite <- Hlen.
    fold (len (concat (all_texts acc))). fold (blocks_length (all_texts acc)).
    rewrite Hblocks, Htotal. cbn [all_texts].
    unfold blocks_length, len. cbn [concat length]. lia.
Qed.

(** C1, at an input where the code departs from it.  On the module's own
    table, with two characters asked of each of the nine languages and
    every source file holding three, every language has enough data and the
    per-language totals of the CSV sum to the target, 18; but the file
    written has 171 characters, the 17 characters of header and separator
    of each block included, that length is what [actual_chars] reports, and
    the report says the file is not balanced. *)
Theorem assembled_file_counts_headers :
  Forall (fun e => Split.chars_per_lang tiny_split
                   <= wiki (snd e) + oscar (snd e))
         (language_data module_config) /\
  Split.total_chars tiny_split =
    Split.chars_per_lang tiny_split * len (languages module_config) /\
  exists file_stats s' text,
    create_balanced_file module_config tiny_split
      (uniform_world [97; 98; 99]%N) fresh = (Ok file_stats, s') /\
    text_files s' =
      [(path_join OUTPUT_DIR (Split.filename tiny_split), text)] /\
    csv_total (csv_rows_of module_config file_stats) = 18 /\
    FileStats.target_chars file_stats = 18 /\
    len text = 171 /\
    FileStats.actual_chars file_stats = 171 /\
    perfect_balance file_stats = false.
Proof.
  split.
  { repeat constructor; vm_compute; discriminate. }
  split; [reflexivity|].
  eexists. eexists. eexists.
  split; [vm_compute; reflexivity|].
  split; [vm_compute; reflexivity|].
  repeat split.
Qed.

(** ** Determinism *)

Section Determinism.
Context {R : Random}.
Variables w1 w2 : world.

Lemma same_run_ret {A : Type} (a : A) : same_run w1 w2 (ret a).
Proof. intros s. reflexivity. Qed.

Lemma same_run_lift {A : Type} (r : result A) : same_run w1 w2 (lift r).
Proof. intros s. reflexivity. Qed.

Lemma same_run_print (m : message) : same_run w1 w2 (print m).
Proof. intros s. reflexivity. Qed.

Lemma same_run_write_file p c : same_run w1 w2 (write_file p c).
Proof. intros s. reflexivity. Qed.

Lemma same_run_written_content p : same_run w1 w2 (written_content p).
Proof. intros s. reflexivity. Qed.

Lemma same_run_seed n : same_run w1 w2 (seed n).
Proof. intros s. reflexivity. Qed.

Lemma same_run_shuffle x : same_run w1 w2 (shuffle x).
Proof. intros s. reflexivity. Qed.

Lemma same_run_read_file p :
  inputs w1 p = inputs w2 p -> same_run w1 w2 (read_file p).
Proof. intros H s. unfold read_file. rewrite H. reflexivity. Qed.

Lemma same_run_os_path_exists p :
  path_exists w1 p = path_exists w2 p ->
  same_run w1 w2 (os_path_exists p).
Proof. intros H s. unfold os_path_exists. rewrite H. reflexivity. Qed.

Lemma same_run_bind {A B : Type} (c : M A) (k : A -> M B) :
  same_run w1 w2 c -> (forall a, same_run w1 w2 (k a)) ->
  same_run w1 w2 (bind c k).
Proof.
  intros Hc Hk s. unfold bind. rewrite Hc.
  destruct (c w2 s) as [[a|e] s']; [apply Hk|reflexivity].
Qed.

Lemma same_run_try_except {A : Type} (c : M A) (h : exn -> M A) :
  same_run w1 w2 c -> (forall e, same_run w1 w2 (h e)) ->
  same_run w1 w2 (try_except c h).
Proof.
  intros Hc Hh s. unfold try_except. rewrite Hc.
  destruct (c w2 s) as [[a|e] s']; [reflexivity|apply Hh].
Qed.

Lemma same_run_for_each {A S : Type} (l : list A) (body : S -> A -> M S) :
  (forall acc x, In x l -> same_run w1 w2 (body acc x)) ->
  forall acc, same_run w1 w2 (for_each l body acc).
Proof.
  induction l as [|x l IH]; intros Hbody acc; cbn [for_each].
  - apply same_run_ret.
  - apply same_run_bind.
    + apply Hbody. left. reflexivity.
    + apply IH. intros acc' y Hy. apply Hbody. right. exact Hy.
Qed.

End Determinism.

Create HintDb same_run.
#[export] Hint Resolve same_run_ret same_run_lift same_run_print
  same_run_write_file same_run_written_content same_run_seed
  same_run_shuffle : same_run.

(** One step through a computation built from the primitives. *)
Ltac same_run_step :=
  first
    [ solve [auto with same_run]
    | apply same_run_bind; [solve [auto with same_run]|intros ?]
    | match goal with
      | |- same_run _ _ (if ?b then _ else _) => destruct b
      | |- same_run _ _ (match ?x with _ => _ end) => destruct x
      end ].

Section DeterminismOfThePipeline.
Context {R : Random}.
Variables w1 w2 : world.

Lemma same_run_load_text_file p max_chars :
  inputs w1 p = inputs w2 p ->
  same_run w1 w2 (load_text_file p max_chars).
Proof.
  intros Hp. unfold load_text_file.
  apply same_run_bind; [apply same_run_read_file; exact Hp|].
  intros f. repeat same_run_step.
Qed.

Lemma same_run_requested p n :
  inputs w1 p = inputs w2 p ->
  same_run w1 w2
    (if 0 <? n then load_text_file p (Some n) else ret []).
Proof.
  intros Hp. destruct (0 <? n).
  - apply same_run_load_text_file. exact Hp.
  - apply same_run_ret.
Qed.

Lemma same_run_get_balanced_language_data cfg lang n :
  inputs w1 (wiki_file_of lang) = inputs w2 (wiki_file_of lang) ->
  inputs w1 (oscar_file_of lang) = inputs w2 (oscar_file_of lang) ->
  same_run w1 w2 (get_balanced_language_data cfg lang n).
Proof.
  intros Hwiki Hoscar. unfold get_balanced_language_data.
  repeat same_run_step.
  apply same_run_bind; [apply same_run_requested; exact Hwiki|].
  intros wiki_text.
  apply same_run_bind; [apply same_run_requested; exact Hoscar|].
  intros oscar_text.
  same_run_step.
  apply same_run_bind; [repeat same_run_step|].
  intros final. repeat same_run_step.
Qed.

Lemma same_run_collect_language cfg n acc lang :
  inputs w1 (wiki_file_of lang) = inputs w2 (wiki_file_of lang) ->
  inputs w1 (oscar_file_of lang) = inputs w2 (oscar_file_of lang) ->
  same_run w1 w2 (collect_language cfg n acc lang).
Proof.
  intros Hwiki Hoscar. unfold collect_language.
  apply same_run_bind;
    [apply same_run_get_balanced_language_data; assumption|].
  intros [lang_text lang_stats]. repeat same_run_step.
Qed.

Lemma same_run_create_balanced_file cfg split_config :
  same_inputs cfg w1 w2 ->
  same_run w1 w2 (create_balanced_file cfg split_config).
Proof.
  intros [_ [_ Hfiles]]. unfold create_balanced_file.
  repeat same_run_step.
  apply same_run_bind.
  { apply same_run_for_each. intros acc lang Hin.
    apply same_run_collect_language; apply Hfiles; exact Hin. }
  intros acc. repeat same_run_step.
Qed.

Lemma same_run_find_baseline_amounts cfg :
  same_run w1 w2 (find_baseline_amounts cfg).
Proof.
  unfold find_baseline_amounts, find_baseline_amounts_for.
  repeat same_run_step.
  apply same_run_for_each. intros acc [split_name config] _.
  repeat same_run_step.
Qed.

Lemma same_run_print_breakdown cfg file_stats :
  same_run w1 w2 (print_breakdown cfg file_stats).
Proof.
  unfold print_breakdown. repeat same_run_step.
  apply same_run_bind.
  { apply same_run_for_each. intros sums lang _. repeat same_run_step. }
  intros sums. repeat same_run_step.
Qed.

Lemma same_run_print_detailed_statistics cfg all_file_stats :
  same_run w1 w2 (print_detailed_statistics cfg all_file_stats).
Proof.
  unfold print_detailed_statistics. repeat same_run_step.
  apply same_run_bind.
  { destruct all_file_stats; repeat same_run_step. }
  intros _. repeat same_run_step.
  apply same_run_bind.
  { apply same_run_for_each. intros acc x _. repeat same_run_step. }
  intros _. apply same_run_for_each. intros acc x _.
  apply same_run_print_breakdown.
Qed.

Lemma same_run_process_split cfg all_file_stats split_name config :
  same_inputs cfg w1 w2 ->
  same_run w1 w2
    (try_except
       (print (ProcessingSplit split_name) ;;
        file_stats <- create_balanced_file cfg config ;;
        ret (all_file_stats ++ [file_stats]))
       (fun e =>
          print (ErrorCreating (Split.filename config) e) ;;
          ret all_file_stats)).
Proof.
  intros Hsame. apply same_run_try_except.
  - same_run_step.
    apply same_run_bind;
      [apply same_run_create_balanced_file; exact Hsame|].
    intros file_stats. apply same_run_ret.
  - intros e. repeat same_run_step.
Qed.

Lemma same_run_main cfg :
  same_inputs cfg w1 w2 -> same_run w1 w2 (main cfg).
Proof.
  intros Hsame. pose proof Hsame as [Hwiki [Hoscar _]]. unfold main.
  repeat same_run_step.
  apply same_run_bind; [apply same_run_os_path_exists; exact Hwiki|].
  intros wiki_ok. destruct (negb wiki_ok); [apply same_run_print|].
  apply same_run_bind; [apply same_run_os_path_exists; exact Hoscar|].
  intros oscar_ok. destruct (negb oscar_ok); [apply same_run_print|].
  same_run_step.
  apply same_run_bind; [apply same_run_find_baseline_amounts|].
  intros baseline_configs.
  apply same_run_bind.
  { apply same_run_for_each. intros acc [split_name config] _.
    apply same_run_process_split. exact Hsame. }
  intros all_file_stats.
  apply same_run_bind; [apply same_run_print_detailed_statistics|].
  intros _.
  apply same_run_bind.
  { unfold save_statistics_to_file. repeat same_run_step. }
  intros _. same_run_step.
  apply same_run_bind.
  { apply same_run_for_each. intros acc x _.
    apply same_run_bind; [apply same_run_written_content|].
    intros [[text|rows]|]; repeat same_run_step. }
  intros _. repeat same_run_step.
Qed.

Lemma prints_only_generator_blind {A : Type} (c : M A) :
  prints_only c -> generator_blind c.
Proof.
  intros Hc w s g. destruct (Hc w) as [r [log Hrun]].
  rewrite !Hrun. repeat split.
Qed.

Lemma generator_blind_bind {A B : Type} (c : M A) (k : A -> M B) :
  prints_only c -> (forall a, generator_blind (k a)) ->
  generator_blind (bind c k).
Proof.
  intros Hc Hk w s g. destruct (Hc w) as [r [log Hrun]].
  unfold bind. rewrite !Hrun.
  destruct r as [a|e]; [|repeat split].
  apply (Hk a w (say log s) g).
Qed.

Lemma generator_blind_seed {B : Type} (n : Z) (k : unit -> M B) :
  generator_blind (bind (seed n) k).
Proof. intros w s g. repeat split. Qed.

Lemma prints_only_os_path_exists p : prints_only (os_path_exists p).
Proof.
  intros w. exists (Ok (path_exists w p)), []. intros s.
  rewrite say_nil. reflexivity.
Qed.

(** [main] seeds the generator before anything reads it: the state of
    the generator when the process starts does not matter. *)
Lemma main_reseeds cfg : generator_blind (main cfg).
Proof.
  unfold main.
  apply generator_blind_bind; [apply prints_only_print|]. intros _.
  apply generator_blind_bind; [apply prints_only_print|]. intros _.
  apply generator_blind_bind; [apply prints_only_os_path_exists|].
  intros wiki_ok. destruct (negb wiki_ok).
  { apply prints_only_generator_blind, prints_only_print. }
  apply generator_blind_bind; [apply prints_only_os_path_exists|].
  intros oscar_ok. destruct (negb oscar_ok).
  { apply prints_only_generator_blind, prints_only_print. }
  apply generator_blind_seed.
Qed.

End DeterminismOfThePipeline.

(** C6. Two runs of the pipeline on the same source files and directories
    return, print and write the same: the output files are identical,
    block order included, whatever state the generator is in when each
    process starts, since [main] seeds it with 42 before the first shuffle.
    In particular the file assembler run from the same generator state on
    the same inputs does the same. *)
Theorem pipeline_deterministic {R : Random} cfg w1 w2 (g1 g2 : rng) :
  same_inputs cfg w1 w2 ->
  same_output (run (main cfg) w1 g1) (run (main cfg) w2 g2) /\
  text_files (snd (run (main cfg) w1 g1))
    = text_files (snd (run (main cfg) w2 g2)) /\
  forall split_config s,
    create_balanced_file cfg split_config w1 s =
    create_balanced_file cfg split_config w2 s.
Proof.
  intros Hsame.
  assert (Hout : same_output (run (main cfg) w1 g1) (run (main cfg) w2 g2)).
  { unfold run.
    change (initial_state g1) with (set_generator g1 (initial_state g2)).
    rewrite <- (same_run_main w1 w2 cfg Hsame (initial_state g2)).
    apply main_reseeds. }
  split; [exact Hout|]. split.
  - unfold text_files. destruct Hout as [_ [_ ->]]. reflexivity.
  - intros split_config s.
    apply same_run_create_balanced_file. exact Hsame.
Qed.

Lemma pipeline_deterministic_witness :
  same_inputs module_config (uniform_world [97; 98; 99]%N)
              (cluttered_world [97; 98; 99]%N) /\
  same_output
    (run (R := rotating_random) (main module_config)
         (uniform_world [97; 98; 99]%N) 3%nat)
    (run (R := rotating_random) (main module_config)
         (cluttered_world [97; 98; 99]%N) 8%nat) /\
  text_files (snd (run (R := rotating_random) (main module_config)
                       (uniform_world [97; 98; 99]%N) 3%nat))
    = text_files (snd (run (R := rotating_random) (main module_config)
                           (cluttered_world [97; 98; 99]%N) 8%nat)) /\
  forall split_config s,
    create_balanced_file (R := rotating_random) module_config split_config
      (uniform_world [97; 98; 99]%N) s =
    create_balanced_file (R := rotating_random) module_config split_config
      (cluttered_world [97; 98; 99]%N) s.
Proof.
  assert (Hsame : same_inputs module_config (uniform_world [97; 98; 99]%N)
                              (cluttered_world [97; 98; 99]%N)).
  { split; [reflexivity|]. split; [reflexivity|].
    intros lang Hin. cbn in Hin.
    repeat (destruct Hin as [<-|Hin]; [split; reflexivity|]).
    contradiction. }
  split; [exact Hsame|].
  apply (pipeline_deterministic (R := rotating_random) module_config
           (uniform_world [97; 98; 99]%N) (cluttered_world [97; 98; 99]%N)
           3%nat 8%nat Hsame).
Defined.

(** ** The baseline calculator *)


(** ** Rounding *)

Lemma pow2_pos (k : Z) : 0 <= k -> 0 < 2 ^ k.
Proof. intros Hk. apply Z.pow_pos_nonneg; lia. Qed.

Lemma pow2_split (a b : Z) : 0 <= a -> 0 <= b -> 2 ^ (a + b) = 2 ^ a * 2 ^ b.
Proof. intros Ha Hb. apply Z.pow_add_r; assumption. Qed.

Lemma pow2_half (s : Z) : 0 < s -> 2 ^ s = 2 * 2 ^ (s - 1).
Proof.
  intros Hs. replace s with (1 + (s - 1)) at 1 by lia.
  rewrite pow2_split by lia. reflexivity.
Qed.

(** The quotient and remainder [round_half_even] works from. *)
Lemma shift_decompose (m s : Z) :
  0 <= s ->
  m = 2 ^ s * (m / 2 ^ s) + m mod 2 ^ s /\ 0 <= m mod 2 ^ s < 2 ^ s.
Proof.
  intros Hs. pose proof (pow2_pos s Hs) as Hp.
  split; [apply Z.div_mod; lia|apply Z.mod_pos_bound; lia].
Qed.

Lemma round_half_even_bounds (m s : Z) :
  m / 2 ^ s <= PyFloat.round_half_even m s <= m / 2 ^ s + 1.
Proof.
  unfold PyFloat.round_half_even.
  destruct (_ <? _); [lia|]. destruct (_ <? _); [lia|].
  destruct (Z.even _); lia.
Qed.

Lemma round_half_even_multiple (a s : Z) :
  0 < s -> PyFloat.round_half_even (a * 2 ^ s) s = a.
Proof.
  intros Hs. unfold PyFloat.round_half_even.
  pose proof (pow2_pos s ltac:(lia)) as Hp.
  pose proof (pow2_pos (s - 1) ltac:(lia)) as Hh.
  rewrite Z.div_mul by lia. rewrite Z.mod_mul by lia.
  destruct (Z.ltb_spec 0 (2 ^ (s - 1))); [reflexivity|lia].
Qed.

Lemma round_half_even_mono (m1 m2 s : Z) :
  0 < s -> m1 <= m2 ->
  PyFloat.round_half_even m1 s <= PyFloat.round_half_even m2 s.
Proof.
  intros Hs Hm.
  pose proof (pow2_pos s ltac:(lia)) as Hp.
  destruct (shift_decompose m1 s ltac:(lia)) as [H1 R1].
  destruct (shift_decompose m2 s ltac:(lia)) as [H2 R2].
  assert (Hq : m1 / 2 ^ s <= m2 / 2 ^ s) by (apply Z.div_le_mono; lia).
  destruct (Z.eq_dec (m1 / 2 ^ s) (m2 / 2 ^ s)) as [Heq|Hne].
  - assert (Hr : m1 mod 2 ^ s <= m2 mod 2 ^ s) by nia.
    unfold PyFloat.round_half_even. rewrite Heq.
    destruct (Z.ltb_spec (m1 mod 2 ^ s) (2 ^ (s - 1)));
      destruct (Z.ltb_spec (m2 mod 2 ^ s) (2 ^ (s - 1)));
      destruct (Z.ltb_spec (2 ^ (s - 1)) (m1 mod 2 ^ s));
      destruct (Z.ltb_spec (2 ^ (s - 1)) (m2 mod 2 ^ s));
      destruct (Z.even (m2 / 2 ^ s)); lia.
  - pose proof (round_half_even_bounds m1 s).
    pose proof (round_half_even_bounds m2 s). lia.
Qed.

Lemma round_half_even_scale (m s k : Z) :
  0 < s -> 0 <= k ->
  PyFloat.round_half_even (m * 2 ^ k) (s + k) = PyFloat.round_half_even m s.
Proof.
  intros Hs Hk. unfold PyFloat.round_half_even.
  pose proof (pow2_pos s ltac:(lia)) as Hp.
  pose proof (pow2_pos k Hk) as Hpk.
  pose proof (pow2_pos (s - 1) ltac:(lia)) as Hh.
  rewrite (pow2_split s k) by lia.
  rewrite Z.div_mul_cancel_r by lia.
  rewrite Z.mul_mod_distr_r by lia.
  replace (s + k - 1) with ((s - 1) + k) by lia.
  rewrite (pow2_split (s - 1) k) by lia.
  assert (Hlt : forall a b, (a * 2 ^ k <? b * 2 ^ k) = (a <? b)).
  { intros a b. destruct (Z.ltb_spec a b), (Z.ltb_spec (a * 2 ^ k) (b * 2 ^ k));
      try reflexivity; nia. }
  rewrite !Hlt. reflexivity.
Qed.

Lemma round_half_even_upper (m s b : Z) :
  0 < s -> m <= b * 2 ^ s -> PyFloat.round_half_even m s <= b.
Proof.
  intros Hs Hm.
  rewrite <- (round_half_even_multiple b s Hs).
  apply round_half_even_mono; assumption.
Qed.

Lemma round_half_even_lower (m s b : Z) :
  0 < s -> b * 2 ^ s <= m -> b <= PyFloat.round_half_even m s.
Proof.
  intros Hs Hm.
  rewrite <- (round_half_even_multiple b s Hs).
  apply round_half_even_mono; assumption.
Qed.



Lemma log2_upper (m : Z) : 0 <= m -> m < 2 ^ (Z.log2 m + 1).
Proof.
  intros Hm. destruct (Z.eq_dec m 0) as [->|Hne].
  - reflexivity.
  - pose proof (Z.log2_spec m ltac:(lia)) as Hs.
    replace (Z.log2 m + 1) with (Z.succ (Z.log2 m)) by lia. lia.
Qed.

Lemma log2_lower (m : Z) : 0 < Z.log2 m -> 2 ^ Z.log2 m <= m.
Proof.
  intros HL. destruct (Z_lt_le_dec 0 m) as [Hpos|Hle].
  - apply (Z.log2_spec m Hpos).
  - rewrite Z.log2_nonpos in HL by lia. lia.
Qed.

Lemma round_mag_zero (e : Z) : fst (PyFloat.round_mag 0 e) = 0.
Proof.
  unfold PyFloat.round_mag.
  destruct (Z.leb_spec (Z.max (e + Z.log2 0 - 52) PyFloat.emin) e) as [H|H];
    cbn [fst]; [reflexivity|].
  apply (round_half_even_multiple 0). lia.
Qed.

Lemma round_mag_nonneg (m e : Z) : 0 <= m -> 0 <= fst (PyFloat.round_mag m e).
Proof.
  intros Hm. unfold PyFloat.round_mag.
  destruct (Z.leb_spec (Z.max (e + Z.log2 m - 52) PyFloat.emin) e) as [H|H];
    cbn [fst]; [exact Hm|].
  apply (round_half_even_lower m _ 0); lia.
Qed.

Lemma round_mag_expo (m e : Z) : e <= snd (PyFloat.round_mag m e).
Proof.
  unfold PyFloat.round_mag.
  destruct (Z.leb_spec (Z.max (e + Z.log2 m - 52) PyFloat.emin) e) as [H|H];
    cbn [snd]; lia.
Qed.

(** Rounding is monotone on magnitudes given at one exponent. *)
Lemma round_mag_mono_same (c M1 M2 : Z) :
  0 <= M1 <= M2 ->
  PyFloat.scaled c (PyFloat.round_mag M1 c) <= PyFloat.scaled c (PyFloat.round_mag M2 c).
Proof.
  intros HM.
  pose proof (Z.log2_le_mono M1 M2 ltac:(lia)) as HL.
  pose proof (Z.log2_nonneg M1) as HL1.
  pose proof (log2_upper M1 ltac:(lia)) as HU1.
  unfold PyFloat.round_mag, PyFloat.scaled.
  set (L1 := Z.log2 M1) in *. set (L2 := Z.log2 M2) in *.
  destruct (Z.leb_spec (Z.max (c + L1 - 52) PyFloat.emin) c) as [H1|H1];
    destruct (Z.leb_spec (Z.max (c + L2 - 52) PyFloat.emin) c) as [H2|H2];
    cbn [fst snd].
  - rewrite Z.sub_diag. lia.
  - (* exact, then rounded *)
    assert (Ht : Z.max (c + L2 - 52) PyFloat.emin = c + L2 - 52) by lia.
    rewrite Ht in *.
    replace (c + L2 - 52 - c) with (L2 - 52) by lia.
    rewrite Z.sub_diag, Z.mul_1_r.
    pose proof (log2_lower M2 ltac:(fold L2; lia)) as HB. fold L2 in HB.
    assert (Hsplit : 2 ^ L2 = 2 ^ 52 * 2 ^ (L2 - 52)).
    { rewrite <- pow2_split by lia. f_equal. lia. }
    pose proof (round_half_even_lower M2 (L2 - 52) (2 ^ 52) ltac:(lia)
                  ltac:(lia)) as Hlow.
    pose proof (pow2_pos (L2 - 52) ltac:(lia)) as Hp.
    assert (Hup : 2 ^ (L1 + 1) <= 2 ^ L2)
      by (apply Z.pow_le_mono_r; lia).
    nia.
  - lia.
  - (* both rounded *)
    set (t1 := Z.max (c + L1 - 52) PyFloat.emin) in *.
    set (t2 := Z.max (c + L2 - 52) PyFloat.emin) in *.
    assert (Ht12 : t1 <= t2) by (unfold t1, t2; lia).
    destruct (Z.eq_dec t1 t2) as [Heq|Hne].
    + rewrite <- Heq.
      pose proof (round_half_even_mono M1 M2 (t1 - c) ltac:(lia) ltac:(lia)).
      pose proof (pow2_pos (t1 - c) ltac:(lia)). nia.
    + assert (Ht : t2 = c + L2 - 52) by (unfold t1, t2 in *; lia).
      assert (HL12 : L1 + 1 <= L2) by (unfold t1 in *; lia).
      pose proof (log2_lower M2 ltac:(fold L2; lia)) as HB. fold L2 in HB.
      assert (Hup : 2 ^ (L1 + 1) <= 2 ^ L2)
        by (apply Z.pow_le_mono_r; lia).
      assert (Hs2 : 2 ^ L2 = 2 ^ 52 * 2 ^ (t2 - c)).
      { rewrite <- pow2_split by lia. f_equal. lia. }
      assert (Hs1 : 2 ^ L2 = 2 ^ (L2 - (t1 - c)) * 2 ^ (t1 - c)).
      { rewrite <- pow2_split by lia. f_equal. lia. }
      pose proof (round_half_even_lower M2 (t2 - c) (2 ^ 52) ltac:(lia)
                    ltac:(lia)) as Hlow.
      pose proof (round_half_even_upper M1 (t1 - c) (2 ^ (L2 - (t1 - c)))
                    ltac:(lia) ltac:(lia)) as Hupp.
      pose proof (pow2_pos (t2 - c) ltac:(lia)).
      pose proof (pow2_pos (t1 - c) ltac:(lia)).
      nia.
Qed.


(** Rounding sees the value, not the way it is written. *)
Lemma round_mag_rescale (m e k : Z) :
  0 <= m -> 0 <= k ->
  PyFloat.scaled (e - k) (PyFloat.round_mag (m * 2 ^ k) (e - k)) =
  PyFloat.scaled (e - k) (PyFloat.round_mag m e).
Proof.
  intros Hm Hk.
  pose proof (pow2_pos k Hk) as Hpk.
  destruct (Z.eq_dec m 0) as [->|Hne].
  { unfold PyFloat.scaled. rewrite Z.mul_0_l, !round_mag_zero. reflexivity. }
  unfold PyFloat.round_mag, PyFloat.scaled.
  rewrite Z.log2_mul_pow2 by lia.
  replace (e - k + (k + Z.log2 m) - 52) with (e + Z.log2 m - 52) by lia.
  set (t := Z.max (e + Z.log2 m - 52) PyFloat.emin).
  destruct (Z.leb_spec t (e - k)) as [H1|H1];
    destruct (Z.leb_spec t e) as [H2|H2]; cbn [fst snd]; try lia.
  - rewrite Z.sub_diag. replace (e - (e - k)) with k by lia.
    change (2 ^ 0) with 1. lia.
  - replace (e - (e - k)) with k by lia.
    replace (m * 2 ^ k)
      with (m * 2 ^ (k - (t - (e - k))) * 2 ^ (t - (e - k))).
    2:{ rewrite <- Z.mul_assoc, <- pow2_split by lia. do 2 f_equal; lia. }
    rewrite round_half_even_multiple by lia.
    rewrite <- Z.mul_assoc, <- pow2_split by lia. do 2 f_equal; lia.
  - replace (t - (e - k)) with ((t - e) + k) by lia.
    rewrite round_half_even_scale by lia. reflexivity.
Qed.

Lemma round_mag_mono (c m1 e1 m2 e2 : Z) :
  0 <= m1 -> 0 <= m2 -> c <= e1 -> c <= e2 ->
  m1 * 2 ^ (e1 - c) <= m2 * 2 ^ (e2 - c) ->
  PyFloat.scaled c (PyFloat.round_mag m1 e1) <= PyFloat.scaled c (PyFloat.round_mag m2 e2).
Proof.
  intros H1 H2 Hc1 Hc2 Hle.
  pose proof (round_mag_rescale m1 e1 (e1 - c) H1 ltac:(lia)) as R1.
  pose proof (round_mag_rescale m2 e2 (e2 - c) H2 ltac:(lia)) as R2.
  replace (e1 - (e1 - c)) with c in R1 by lia.
  replace (e2 - (e2 - c)) with c in R2 by lia.
  rewrite <- R1, <- R2.
  apply round_mag_mono_same.
  pose proof (pow2_pos (e1 - c) ltac:(lia)). nia.
Qed.

Lemma units_round (c m e : Z) :
  PyFloat.units c (PyFloat.round m e) =
  Z.sgn m * PyFloat.scaled c (PyFloat.round_mag (Z.abs m) e).
Proof.
  unfold PyFloat.units, PyFloat.round, PyFloat.scaled.
  destruct (PyFloat.round_mag (Z.abs m) e) as [q f]. cbn. ring.
Qed.

Lemma round_expo (m e : Z) : e <= PyFloat.expo (PyFloat.round m e).
Proof.
  unfold PyFloat.round.
  pose proof (round_mag_expo (Z.abs m) e).
  destruct (PyFloat.round_mag (Z.abs m) e) as [q f]. cbn in *. lia.
Qed.

Lemma scaled_nonneg (c m e : Z) :
  0 <= m -> c <= e -> 0 <= PyFloat.scaled c (PyFloat.round_mag m e).
Proof.
  intros Hm Hc. unfold PyFloat.scaled.
  pose proof (round_mag_nonneg m e Hm).
  pose proof (round_mag_expo m e).
  pose proof (pow2_pos (snd (PyFloat.round_mag m e) - c) ltac:(lia)).
  nia.
Qed.

(** Rounding is monotone. *)
Lemma round_mono (c m1 e1 m2 e2 : Z) :
  c <= e1 -> c <= e2 ->
  m1 * 2 ^ (e1 - c) <= m2 * 2 ^ (e2 - c) ->
  PyFloat.units c (PyFloat.round m1 e1) <= PyFloat.units c (PyFloat.round m2 e2).
Proof.
  intros Hc1 Hc2 Hle. rewrite !units_round.
  pose proof (pow2_pos (e1 - c) ltac:(lia)) as P1.
  pose proof (pow2_pos (e2 - c) ltac:(lia)) as P2.
  pose proof (scaled_nonneg c (Z.abs m1) e1 ltac:(lia) Hc1) as N1.
  pose proof (scaled_nonneg c (Z.abs m2) e2 ltac:(lia) Hc2) as N2.
  destruct (Z_lt_le_dec m1 0) as [Hn1|Hp1];
    destruct (Z_lt_le_dec m2 0) as [Hn2|Hp2].
  - rewrite !Z.sgn_neg by lia.
    pose proof (round_mag_mono c (Z.abs m2) e2 (Z.abs m1) e1
                  ltac:(lia) ltac:(lia) Hc2 Hc1 ltac:(nia)).
    lia.
  - rewrite Z.sgn_neg by lia.
    pose proof (Z.sgn_nonneg m2) as [_ Hs]. specialize (Hs Hp2). nia.
  - nia.
  - pose proof (round_mag_mono c (Z.abs m1) e1 (Z.abs m2) e2
                  ltac:(lia) ltac:(lia) Hc1 Hc2
                  ltac:(rewrite !Z.abs_eq by lia; exact Hle)) as Hr.
    destruct (Z.eq_dec m1 0) as [->|Hne1].
    + cbn [Z.sgn]. pose proof (Z.sgn_nonneg m2) as [_ Hs].
      specialize (Hs Hp2). nia.
    + assert (0 < m2) by nia.
      rewrite !Z.sgn_pos by lia. lia.
Qed.

Lemma truncate_units (c : Z) (x : PyFloat.t) :
  c <= PyFloat.expo x -> c <= 0 ->
  PyFloat.truncate x = Z.quot (PyFloat.units c x) (2 ^ (- c)).
Proof.
  intros Hc H0. unfold PyFloat.truncate, PyFloat.units.
  pose proof (pow2_pos (- c) ltac:(lia)) as Pc.
  destruct (Z.leb_spec 0 (PyFloat.expo x)) as [He|He].
  - replace (PyFloat.expo x - c) with (PyFloat.expo x + - c) by lia.
    rewrite pow2_split by lia. rewrite Z.mul_assoc.
    rewrite Z.quot_mul by lia. reflexivity.
  - replace (2 ^ (- c))
      with (2 ^ (- PyFloat.expo x) * 2 ^ (PyFloat.expo x - c)).
    2:{ rewrite <- pow2_split by lia. f_equal; lia. }
    pose proof (pow2_pos (PyFloat.expo x - c) ltac:(lia)).
    pose proof (pow2_pos (- PyFloat.expo x) ltac:(lia)).
    rewrite Z.quot_mul_cancel_r by lia. reflexivity.
Qed.

Lemma units_lower (c c' : Z) (x : PyFloat.t) :
  c <= c' -> c' <= PyFloat.expo x ->
  PyFloat.units c x = PyFloat.units c' x * 2 ^ (c' - c).
Proof.
  intros H1 H2. unfold PyFloat.units.
  rewrite <- Z.mul_assoc, <- pow2_split by lia. do 2 f_equal; lia.
Qed.

Lemma truncate_mono (c : Z) (x y : PyFloat.t) :
  c <= PyFloat.expo x -> c <= PyFloat.expo y ->
  PyFloat.units c x <= PyFloat.units c y -> PyFloat.truncate x <= PyFloat.truncate y.
Proof.
  intros Hx Hy Hle.
  set (d := Z.min c 0).
  rewrite (truncate_units d x), (truncate_units d y) by (unfold d; lia).
  apply Z.quot_le_mono; [apply pow2_pos; unfold d; lia|].
  rewrite (units_lower d c x), (units_lower d c y) by (unfold d; lia).
  pose proof (pow2_pos (c - d) ltac:(unfold d; lia)). nia.
Qed.

(** [int(n * r)] is monotone in the ratio [r], for [n >= 0]. *)
Lemma scaled_chars_mono (n : Z) (r1 r2 : PyFloat.t) (a b : Z) :
  0 <= n -> PyFloat.le r1 r2 ->
  scaled_chars n r1 = Ok a -> scaled_chars n r2 = Ok b ->
  a <= b.
Proof.
  intros Hn Hle. unfold scaled_chars, PyFloat.int_mul, PyFloat.of_int.
  destruct (PyFloat.overflows (PyFloat.round n 0)); [discriminate|].
  cbn [rbind]. unfold PyFloat.mul.
  set (fn := PyFloat.round n 0).
  assert (Hfn : 0 <= PyFloat.mant fn).
  { unfold fn, PyFloat.round.
    pose proof (round_mag_nonneg (Z.abs n) 0 ltac:(lia)).
    destruct (PyFloat.round_mag (Z.abs n) 0) as [q f]. cbn in *.
    pose proof (Z.sgn_nonneg n) as [_ Hs]. specialize (Hs Hn). nia. }
  set (z1 := PyFloat.round (PyFloat.mant fn * PyFloat.mant r1)
                           (PyFloat.expo fn + PyFloat.expo r1)).
  set (z2 := PyFloat.round (PyFloat.mant fn * PyFloat.mant r2)
                           (PyFloat.expo fn + PyFloat.expo r2)).
  destruct (PyFloat.overflows z1); [discriminate|].
  destruct (PyFloat.overflows z2); [discriminate|].
  cbn [PyFloat.to_int]. fold (PyFloat.truncate z1). fold (PyFloat.truncate z2).
  intros [= <-] [= <-].
  set (c := PyFloat.expo fn + Z.min (PyFloat.expo r1) (PyFloat.expo r2)).
  apply (truncate_mono c).
  - unfold z1. etransitivity; [|apply round_expo]. unfold c. lia.
  - unfold z2. etransitivity; [|apply round_expo]. unfold c. lia.
  - unfold z1, z2. apply round_mono; try (unfold c; lia).
    unfold PyFloat.le in Hle. cbv zeta in Hle.
    replace (PyFloat.expo fn + PyFloat.expo r1 - c)
      with (PyFloat.expo r1 - Z.min (PyFloat.expo r1) (PyFloat.expo r2))
      by (unfold c; lia).
    replace (PyFloat.expo fn + PyFloat.expo r2 - c)
      with (PyFloat.expo r2 - Z.min (PyFloat.expo r1) (PyFloat.expo r2))
      by (unfold c; lia).
    rewrite <- !Z.mul_assoc. apply Z.mul_le_mono_nonneg_l; assumption.
Qed.

Lemma min_by_total_in (d : dict availability) m :
  min_by_total d = Ok m -> In m d.
Proof.
  destruct d as [|first rest]; [discriminate|].
  cbn [min_by_total]. intros [= <-].
  assert (H : forall (l : dict availability) (best : string * availability),
             In (fold_left
                   (fun best x => if total (snd x) <? total (snd best)
                                  then x else best) l best)
                (best :: l)).
  { induction l as [|x l IH]; intros best; cbn [fold_left].
    - left. reflexivity.
    - destruct (total (snd x) <? total (snd best)).
      + right. apply IH.
      + destruct (IH best) as [H|H]; [left; exact H|right; right; exact H]. }
  apply H.
Qed.

Lemma baseline_loop {R : Random} cfg (m : string * availability) :
  forall configs acc w (s : state) amounts s',
    for_each configs
      (fun baseline_amounts '(split_name, config) =>
         chars_per_lang <-
           lift (scaled_chars (total (snd m)) (ratio config)) ;;
         let amounts :=
           Split.mk chars_per_lang (name config)
                    (chars_per_lang * len (languages cfg)) (fst m) in
         print (SplitChars split_name chars_per_lang) ;;
         print (SplitTotal (chars_per_lang * len (languages cfg))) ;;
         print (SplitOutput (name config)) ;;
         ret (dict_set baseline_amounts split_name amounts))
      acc w s = (Ok amounts, s') ->
    NoDup (map fst configs) ->
    (forall split_name config, In (split_name, config) configs ->
       exists chars,
         scaled_chars (total (snd m)) (ratio config) = Ok chars /\
         dict_find amounts split_name
           = Some (amounts_for cfg m config chars)) /\
    (forall split_name, ~ In split_name (map fst configs) ->
       dict_find amounts split_name = dict_find acc split_name).
Proof.
  induction configs as [|[n0 c0] rest IH];
    intros acc w s amounts s' Hrun Hnodup.
  - cbn in Hrun. injection Hrun as <- _.
    split; [intros ? ? []|reflexivity].
  - cbn [for_each] in Hrun. unfold bind at 1 in Hrun.
    unfold bind at 1 in Hrun. unfold lift at 1 in Hrun.
    destruct (scaled_chars (total (snd m)) (ratio c0)) as [chars|e] eqn:Hc;
      [|discriminate].
    cbn [map fst] in Hnodup. apply NoDup_cons_iff in Hnodup.
    destruct Hnodup as [Hfresh Hnodup].
    unfold bind at 1 in Hrun. rewrite print_run in Hrun.
    unfold bind at 1 in Hrun. rewrite print_run in Hrun.
    unfold bind at 1 in Hrun. rewrite print_run in Hrun.
    unfold ret at 1 in Hrun.
    destruct (IH _ _ _ _ _ Hrun Hnodup) as [Hin Hout].
    split.
    + intros split_name config [Heq|Hrest].
      * injection Heq as <- <-. exists chars. split; [exact Hc|].
        rewrite (Hout n0 Hfresh). apply dict_find_set_same.
      * apply Hin. exact Hrest.
    + intros split_name Hnot. cbn [map fst In] in Hnot.
      rewrite Hout by tauto.
      apply dict_find_set_other. tauto.
Qed.

(** C7. Whenever the baseline calculator returns its split plans for a
    table of non-negative totals, the per-language target is monotone in
    the configured ratio: of any two configured splits, the one with the
    larger or equal ratio has the larger or equal target. *)
Theorem baseline_targets_monotone {R : Random}
        configs cfg w (s : state) amounts s' :
  find_baseline_amounts_for configs cfg w s = (Ok amounts, s') ->
  NoDup (map fst configs) ->
  Forall (fun e => 0 <= total (snd e)) (language_data cfg) ->
  forall name1 config1 name2 config2,
    In (name1, config1) configs -> In (name2, config2) configs ->
    PyFloat.le (ratio config1) (ratio config2) ->
    exists plan1 plan2,
      dict_find amounts name1 = Some plan1 /\
      dict_find amounts name2 = Some plan2 /\
      Split.chars_per_lang plan1 <= Split.chars_per_lang plan2.
Proof.
  intros Hrun Hnodup Hnonneg name1 config1 name2 config2 Hin1 Hin2 Hle.
  unfold find_baseline_amounts_for in Hrun.
  unfold bind at 1 in Hrun. unfold lift at 1 in Hrun.
  destruct (min_by_total (language_data cfg)) as [m|e] eqn:Hmin;
    [|discriminate].
  unfold bind at 1 in Hrun. rewrite print_run in Hrun.
  destruct (baseline_loop cfg m _ _ _ _ _ _ Hrun Hnodup) as [Hin _].
  destruct (Hin _ _ Hin1) as [a [Ha Hf1]].
  destruct (Hin _ _ Hin2) as [b [Hb Hf2]].
  exists (amounts_for cfg m config1 a), (amounts_for cfg m config2 b).
  split; [exact Hf1|]. split; [exact Hf2|].
  cbn [amounts_for Split.chars_per_lang].
  apply (scaled_chars_mono (total (snd m)) (ratio config1) (ratio config2));
    try assumption.
  apply min_by_total_in in Hmin.
  rewrite Forall_forall in Hnonneg. apply (Hnonneg m Hmin).
Qed.

Example find_baseline_amounts_module :
  fst (run (R := rotating_random) (find_baseline_amounts module_config)
           (uniform_world []) 0%nat)
  = Ok [ ("small"%string,
          Split.mk 11398357 "final_balanced_small.txt" 102585213 "yo");
         ("medium"%string,
          Split.mk 12664842 "final_balanced_medium.txt" 113983578 "yo");
         ("large"%string,
          Split.mk 12664842 "final_balanced_large.txt" 113983578 "yo") ].
Proof. vm_compute. reflexivity. Qed.

Lemma baseline_targets_monotone_witness :
  exists amounts s',
    find_baseline_amounts_for split_configs module_config
      (uniform_world []) fresh = (Ok amounts, s') /\
    NoDup (map fst split_configs) /\
    Forall (fun e => 0 <= total (snd e)) (language_data module_config) /\
    In ("small"%string, SplitDef PyFloat.lit_0_9 "final_balanced_small.txt")
       split_configs /\
    In ("medium"%string, SplitDef PyFloat.lit_1_0 "final_balanced_medium.txt")
       split_configs /\
    PyFloat.le PyFloat.lit_0_9 PyFloat.lit_1_0 /\
    exists plan1 plan2,
      dict_find amounts "small" = Some plan1 /\
      dict_find amounts "medium" = Some plan2 /\
      Split.chars_per_lang plan1 <= Split.chars_per_lang plan2.
Proof.
  eexists. eexists.
  assert (Hrun : find_baseline_amounts_for split_configs module_config
                   (uniform_world []) fresh
                 = (fst (find_baseline_amounts_for split_configs module_config
                           (uniform_world []) fresh),
                    snd (find_baseline_amounts_for split_configs module_config
                           (uniform_world []) fresh)))
    by (destruct (find_baseline_amounts_for _ _ _ _); reflexivity).
  assert (Hok : fst (find_baseline_amounts_for split_configs module_config
                       (uniform_world []) fresh)
                = Ok [ ("small"%string,
                        Split.mk 11398357 "final_balanced_small.txt"
                                 102585213 "yo");
                       ("medium"%string,
                        Split.mk 12664842 "final_balanced_medium.txt"
                                 113983578 "yo");
                       ("large"%string,
                        Split.mk 12664842 "final_balanced_large.txt"
                                 113983578 "yo") ])
    by (vm_compute; reflexivity).
  rewrite Hok in Hrun.
  assert (Hnodup : NoDup (map fst split_configs)).
  { cbn. repeat constructor; cbn; intuition discriminate. }
  assert (Hnonneg : Forall (fun e => 0 <= total (snd e))
                           (language_data module_config)).
  { repeat constructor; cbn; lia. }
  assert (Hle : PyFloat.le PyFloat.lit_0_9 PyFloat.lit_1_0).
  { vm_compute. discriminate. }
  split; [exact Hrun|]. split; [exact Hnodup|]. split; [exact Hnonneg|].
  split; [left; reflexivity|]. split; [right; left; reflexivity|].
  split; [exact Hle|].
  apply (baseline_targets_monotone (R := rotating_random) split_configs
           module_config (uniform_world []) fresh _ _ Hrun Hnodup Hnonneg
           "small"%string (SplitDef PyFloat.lit_0_9 "final_balanced_small.txt")
           "medium"%string (SplitDef PyFloat.lit_1_0 "final_balanced_medium.txt")).
  - left. reflexivity.
  - right. left. reflexivity.
  - exact Hle.
Defined.

(** *** The calculator returns *)

Lemma no_overflow (c : Z) (x : PyFloat.t) :
  c <= PyFloat.expo x -> c <= 1023 ->
  Z.abs (PyFloat.units c x) <= 2 ^ (1023 - c) ->
  PyFloat.overflows x = false.
Proof.
  intros Hc Hc' Hb. unfold PyFloat.overflows, PyFloat.emax.
  destruct (Z.eqb_spec (PyFloat.mant x) 0) as [H0|H0]; [reflexivity|].
  cbn [negb andb].
  destruct (Z.leb_spec 1024 (Z.log2 (Z.abs (PyFloat.mant x)) + PyFloat.expo x))
    as [Hover|]; [exfalso|reflexivity].
  unfold PyFloat.units in Hb. rewrite Z.abs_mul in Hb.
  pose proof (pow2_pos (PyFloat.expo x - c) ltac:(lia)) as Hp.
  rewrite (Z.abs_eq (2 ^ _)) in Hb by lia.
  pose proof (Z.log2_spec (Z.abs (PyFloat.mant x)) ltac:(lia)) as [Hl _].
  pose proof (Z.log2_nonneg (Z.abs (PyFloat.mant x))) as Hn.
  assert (Hpow : 2 ^ (Z.log2 (Z.abs (PyFloat.mant x)) + (PyFloat.expo x - c))
                 <= 2 ^ (1023 - c)).
  { rewrite pow2_split by lia. nia. }
  apply Z.pow_le_mono_r_iff in Hpow; lia.
Qed.

Lemma units_round_nonneg (c m e : Z) :
  0 <= m -> c <= e -> 0 <= PyFloat.units c (PyFloat.round m e).
Proof.
  intros Hm Hc. rewrite units_round.
  pose proof (scaled_nonneg c (Z.abs m) e ltac:(lia) Hc).
  pose proof (Z.sgn_nonneg m) as [_ Hs]. specialize (Hs Hm). nia.
Qed.

(** A non-negative value of at most [2 ^ 1023] rounds to a finite float. *)
Lemma round_finite (c m e : Z) :
  0 <= m -> c <= e -> c <= 1023 ->
  m * 2 ^ (e - c) <= 2 ^ (1023 - c) ->
  PyFloat.overflows (PyFloat.round m e) = false.
Proof.
  intros Hm Hc Hc' Hb.
  apply (no_overflow c); [etransitivity; [exact Hc|apply round_expo]|exact Hc'|].
  rewrite Z.abs_eq by (apply units_round_nonneg; assumption).
  pose proof (round_mono c m e 1 1023 Hc Hc' ltac:(lia)) as Hmono.
  replace (PyFloat.units c (PyFloat.round 1 1023)) with (2 ^ (1023 - c))
    in Hmono.
  - exact Hmono.
  - change (PyFloat.round 1 1023) with (PyFloat.mk 1 1023).
    unfold PyFloat.units. cbn [PyFloat.mant PyFloat.expo]. lia.
Qed.

(** [int(n * r)] is computed whenever [0 <= n <= 2 ^ 1023] and
    [0 <= r <= 1.0]. *)
Lemma scaled_chars_returns (n : Z) (r : PyFloat.t) :
  0 <= n <= 2 ^ 1023 -> 0 <= PyFloat.mant r ->
  PyFloat.le r PyFloat.lit_1_0 ->
  exists chars, scaled_chars n r = Ok chars.
Proof.
  intros Hn Hr Hle.
  unfold scaled_chars, PyFloat.int_mul, PyFloat.of_int.
  assert (Hfin : PyFloat.overflows (PyFloat.round n 0) = false).
  { apply (round_finite 0); lia. }
  rewrite Hfin. cbn [rbind]. unfold PyFloat.mul.
  set (fn := PyFloat.round n 0) in *.
  pose proof (round_expo n 0) as He. fold fn in He.
  pose proof (units_round_nonneg 0 n 0 ltac:(lia) ltac:(lia)) as Hfn0.
  fold fn in Hfn0. unfold PyFloat.units in Hfn0.
  assert (Hmf : 0 <= PyFloat.mant fn).
  { pose proof (pow2_pos (PyFloat.expo fn - 0) ltac:(lia)). nia. }
  assert (Hbound : PyFloat.mant fn * 2 ^ PyFloat.expo fn <= 2 ^ 1023).
  { pose proof (round_mono 0 n 0 1 1023 ltac:(lia) ltac:(lia)) as Hmono.
    change (PyFloat.round 1 1023) with (PyFloat.mk 1 1023) in Hmono.
    fold fn in Hmono. unfold PyFloat.units in Hmono.
    cbn [PyFloat.mant PyFloat.expo] in Hmono.
    rewrite !Z.sub_0_r in Hmono. change (2 ^ 0) with 1 in Hmono.
    apply Hmono. lia. }
  set (c := Z.min (PyFloat.expo r) 0).
  unfold PyFloat.le, PyFloat.units in Hle.
  cbn [PyFloat.lit_1_0 PyFloat.mant PyFloat.expo] in Hle. fold c in Hle.
  rewrite (round_finite c); [eexists; reflexivity| | | |].
  - apply Z.mul_nonneg_nonneg; assumption.
  - unfold c. lia.
  - unfold c. lia.
  - replace (PyFloat.expo fn + PyFloat.expo r - c)
      with (PyFloat.expo fn + (PyFloat.expo r - c)) by lia.
    rewrite pow2_split by (unfold c; lia).
    replace (1023 - c) with (1023 + (0 - c)) by lia.
    rewrite pow2_split by (unfold c; lia).
    pose proof (pow2_pos (PyFloat.expo fn) ltac:(lia)).
    pose proof (pow2_pos (PyFloat.expo r - c) ltac:(unfold c; lia)).
    pose proof (pow2_pos (0 - c) ltac:(unfold c; lia)).
    assert (Hr0 : 0 <= PyFloat.mant r * 2 ^ (PyFloat.expo r - c)) by nia.
    assert (Hf0 : 0 <= PyFloat.mant fn * 2 ^ PyFloat.expo fn) by nia.
    replace (PyFloat.mant fn * PyFloat.mant r *
             (2 ^ PyFloat.expo fn * 2 ^ (PyFloat.expo r - c)))
      with ((PyFloat.mant fn * 2 ^ PyFloat.expo fn) *
            (PyFloat.mant r * 2 ^ (PyFloat.expo r - c))) by ring.
    apply Z.mul_le_mono_nonneg; lia.
Qed.

(** The float model against the Standard Library's binary64: products
    that are exact, rounded down, rounded up, tied, subnormal and
    overflowing, and the conversion of integers above [2 ^ 53]. *)
Example pyfloat_agrees_with_binary64 :
  forallb
    (fun xy => same_value (PyFloat.mul (fst xy) (snd xy))
                 (SFmul 53 1024 (spec_of (fst xy)) (spec_of (snd xy))))
    [ (PyFloat.mk 12664842 0, PyFloat.lit_0_9);
      (PyFloat.mk 12664842 0, PyFloat.lit_1_0);
      (PyFloat.mk 9007199254740991 0, PyFloat.lit_0_9);
      (PyFloat.mk 8106479329266893 (-600), PyFloat.mk (-8106479329266895) (-527));
      (PyFloat.mk 3 (-1074), PyFloat.mk 1 (-1));
      (PyFloat.mk 5 (-1074), PyFloat.mk 1 (-1));
      (PyFloat.mk 1 (-1074), PyFloat.mk 1 (-1));
      (PyFloat.mk 9007199254740991 500, PyFloat.mk 9007199254740991 418);
      (PyFloat.mk 9007199254740991 500, PyFloat.mk (-9007199254740991) 500) ]
  = true /\
  forallb
    (fun n => match PyFloat.of_int n with
              | Ok x => same_value (PyFloat.Finite x)
                          (binary_normalize 53 1024 n 0 false)
              | Raise _ => false
              end)
    [ 12664842; 2 ^ 60 + 1; 2 ^ 60 + 2 ^ 7; 2 ^ 60 + 2 ^ 7 + 2 ^ 8;
      2 ^ 53 + 1; 2 ^ 53 + 3; 2 ^ 1023 ]
  = true.
Proof. split; vm_compute; reflexivity. Qed.

(** The calculator returns a plan for each of its three splits whenever the
    table is not empty and its totals are between [0] and [2 ^ 1023]. *)
Lemma find_baseline_amounts_returns {R : Random} cfg w (s : state) :
  language_data cfg <> [] ->
  Forall (fun e => 0 <= total (snd e) <= 2 ^ 1023) (language_data cfg) ->
  exists small medium large s',
    find_baseline_amounts cfg w s =
      (Ok [("small"%string, small); ("medium"%string, medium);
           ("large"%string, large)], s') /\
    Split.chars_per_lang small <= Split.chars_per_lang medium /\
    Split.chars_per_lang medium = Split.chars_per_lang large.
Proof.
  intros Hne Hrange.
  destruct (min_by_total (language_data cfg)) as [m|e] eqn:Hmin.
  2:{ destruct (language_data cfg); [contradiction|discriminate]. }
  pose proof (min_by_total_in _ _ Hmin) as Hin.
  rewrite Forall_forall in Hrange. specialize (Hrange m Hin).
  destruct (scaled_chars_returns (total (snd m)) PyFloat.lit_0_9 Hrange)
    as [a Ha]; [cbn; lia|vm_compute; discriminate|].
  destruct (scaled_chars_returns (total (snd m)) PyFloat.lit_1_0 Hrange)
    as [b Hb]; [cbn; lia|vm_compute; discriminate|].
  assert (Hab : a <= b).
  { apply (scaled_chars_mono (total (snd m)) PyFloat.lit_0_9 PyFloat.lit_1_0);
      try assumption; [lia|vm_compute; discriminate]. }
  exists (amounts_for cfg m (SplitDef PyFloat.lit_0_9 "final_balanced_small.txt") a),
         (amounts_for cfg m (SplitDef PyFloat.lit_1_0 "final_balanced_medium.txt") b),
         (amounts_for cfg m (SplitDef PyFloat.lit_1_0 "final_balanced_large.txt") b).
  eexists. split; [|split; [exact Hab|reflexivity]].
  unfold find_baseline_amounts, find_baseline_amounts_for.
  unfold bind at 1. unfold lift at 1. rewrite Hmin.
  unfold bind at 1. rewrite print_run.
  unfold split_configs. cbn [for_each ratio name].
  unfold bind, lift, print, ret. rewrite Ha, Hb.
  cbn [dict_set String.eqb Ascii.eqb Bool.eqb]. reflexivity.
Qed.

(* ================================================================= *)
(** * Part III: further properties of the code *)
(* ================================================================= *)

(** * Part III: further properties of the code *)

(** ** The interleaver, chunk by chunk *)

Lemma chunk_list_nil {T : Type} (cs : Z) :
  0 < cs -> chunk_list (@nil T) cs = [].
Proof.
  intros Hcs. unfold chunk_list, len. cbn [length].
  rewrite Z.div_small by lia. reflexivity.
Qed.

Lemma chunk_list_cons {T : Type} (text : list T) (cs : Z) :
  0 < cs -> text <> [] ->
  chunk_list text cs =
  firstn (Z.to_nat cs) text :: chunk_list (skipn (Z.to_nat cs) text) cs.
Proof.
  intros Hcs Hne. unfold chunk_list, len.
  assert (Hlen : (0 < length text)%nat)
    by (destruct text; [congruence|cbn; lia]).
  set (n := Z.of_nat (length text)).
  assert (Hcount : Z.to_nat ((n + cs - 1) / cs) =
                   S (Z.to_nat ((Z.of_nat (length (skipn (Z.to_nat cs) text))
                                 + cs - 1) / cs))).
  { rewrite length_skipn.
    replace (n + cs - 1) with ((n - 1) + 1 * cs) by lia.
    rewrite Z.div_add by lia.
    assert (Hq : 0 <= (n - 1) / cs) by (apply Z.div_pos; lia).
    destruct (Z_lt_le_dec (n - 1) cs) as [Hsmall|Hbig].
    - rewrite (Z.div_small (n - 1)) by lia.
      replace (Z.of_nat (length text - Z.to_nat cs)) with 0 by lia.
      rewrite Z.div_small by lia. reflexivity.
    - replace (Z.of_nat (length text - Z.to_nat cs) + cs - 1)
        with (n - 1) by lia.
      lia. }
  rewrite Hcount. cbn [seq map]. rewrite Nat.mul_0_l. cbn [skipn].
  f_equal. rewrite <- seq_shift, map_map. apply map_ext.
  intros k. rewrite skipn_skipn. do 2 f_equal. lia.
Qed.

Lemma interleave_texts_chunks {T : Type} (a b : list T) (cs : Z) :
  0 < cs ->
  interleave_texts a b cs =
  Ok (concat (weave (chunk_list a cs) (chunk_list b cs))).
Proof.
  intros Hcs. destruct a as [|x a].
  { rewrite interleave_texts_nil_l, chunk_list_nil by assumption.
    cbn [weave]. rewrite concat_chunk_list by assumption. reflexivity. }
  destruct b as [|y b].
  { rewrite interleave_texts_nil_r, (chunk_list_nil cs) by assumption.
    rewrite weave_nil_r, concat_chunk_list by assumption. reflexivity. }
  apply interleave_texts_weave; [assumption|discriminate|discriminate].
Qed.

(** X1. With a positive chunk size and two non-empty texts, the output is
    the first chunk of the first text, then the first chunk of the second,
    then the interleaving of what is left of both; so two texts that each
    fit in one chunk are simply concatenated, first text first. *)
Theorem interleave_texts_unfold {T : Type} (A B : list T) (chunk_size : Z) :
  0 < chunk_size -> A <> [] -> B <> [] ->
  exists rest,
    interleave_texts (skipn (Z.to_nat chunk_size) A)
                     (skipn (Z.to_nat chunk_size) B) chunk_size = Ok rest /\
    interleave_texts A B chunk_size =
      Ok (firstn (Z.to_nat chunk_size) A ++ firstn (Z.to_nat chunk_size) B
          ++ rest) /\
    (len A <= chunk_size -> len B <= chunk_size ->
     interleave_texts A B chunk_size = Ok (A ++ B)).
Proof.
  intros Hcs HA HB.
  eexists. split; [apply interleave_texts_chunks; exact Hcs|].
  assert (Heq : interleave_texts A B chunk_size =
                Ok (firstn (Z.to_nat chunk_size) A
                    ++ firstn (Z.to_nat chunk_size) B
                    ++ concat (weave
                         (chunk_list (skipn (Z.to_nat chunk_size) A) chunk_size)
                         (chunk_list (skipn (Z.to_nat chunk_size) B) chunk_size)))).
  { rewrite interleave_texts_chunks by exact Hcs.
    rewrite (chunk_list_cons A), (chunk_list_cons B) by assumption.
    cbn [weave concat]. reflexivity. }
  split; [exact Heq|].
  intros HlA HlB. rewrite Heq. unfold len in HlA, HlB.
  rewrite !firstn_all2 by lia. rewrite !skipn_all2 by lia.
  rewrite chunk_list_nil by exact Hcs. cbn [weave concat].
  rewrite app_nil_r. reflexivity.
Qed.

Lemma interleave_texts_unfold_witness :
  (0 < 2 /\ [1; 2; 3]%N <> [] /\ [7; 8; 9; 10; 11]%N <> []) /\
  exists rest,
    interleave_texts (skipn (Z.to_nat 2) [1; 2; 3]%N)
                     (skipn (Z.to_nat 2) [7; 8; 9; 10; 11]%N) 2 = Ok rest /\
    interleave_texts [1; 2; 3]%N [7; 8; 9; 10; 11]%N 2 =
      Ok (firstn (Z.to_nat 2) [1; 2; 3]%N
          ++ firstn (Z.to_nat 2) [7; 8; 9; 10; 11]%N ++ rest) /\
    (len [1; 2; 3]%N <= 2 -> len [7; 8; 9; 10; 11]%N <= 2 ->
     interleave_texts [1; 2; 3]%N [7; 8; 9; 10; 11]%N 2
       = Ok ([1; 2; 3]%N ++ [7; 8; 9; 10; 11]%N)).
Proof.
  split; [repeat split; (lia || discriminate)|].
  apply (interleave_texts_unfold [1; 2; 3]%N [7; 8; 9; 10; 11]%N 2);
    (lia || discriminate).
Defined.

Lemma py_range_negative_step (n step : Z) :
  0 <= n -> step < 0 -> py_range 0 n step = Ok [].
Proof.
  intros Hn Hs. unfold py_range.
  destruct (Z.eqb_spec step 0); [lia|].
  destruct (Z.ltb_spec 0 step); [lia|].
  assert (Hq : (0 - n - step - 1) / - step <= 0).
  { apply Z.lt_succ_r. apply Z.div_lt_upper_bound; lia. }
  replace (Z.to_nat ((0 - n - step - 1) / - step)) with 0%nat by lia.
  reflexivity.
Qed.

(** X2. With two non-empty texts, a chunk size of zero raises
    [ValueError], and a negative chunk size returns the empty text: both
    inputs are dropped without an error. *)
Theorem interleave_texts_bad_chunk_size {T : Type} (A B : list T)
        (chunk_size : Z) :
  A <> [] -> B <> [] ->
  (chunk_size = 0 ->
   interleave_texts A B chunk_size =
     Raise (ValueError "range() arg 3 must not be zero")) /\
  (chunk_size < 0 -> interleave_texts A B chunk_size = Ok []).
Proof.
  intros HA HB.
  destruct A as [|a A]; [congruence|]. destruct B as [|b B]; [congruence|].
  split.
  - intros ->. reflexivity.
  - intros Hneg. unfold interleave_texts, chunks_of. cbn [is_empty].
    rewrite !py_range_negative_step by (apply len_nonneg || exact Hneg).
    reflexivity.
Qed.

Lemma interleave_texts_bad_chunk_size_witness :
  ([1; 2]%N <> [] /\ [3]%N <> []) /\
  (0 = 0 ->
   interleave_texts [1; 2]%N [3]%N 0 =
     Raise (ValueError "range() arg 3 must not be zero")) /\
  (-4 < 0 -> interleave_texts [1; 2]%N [3]%N (-4) = Ok []).
Proof.
  split; [split; discriminate|].
  pose proof (interleave_texts_bad_chunk_size [1; 2]%N [3]%N 0
                ltac:(discriminate) ltac:(discriminate)) as [H0 _].
  pose proof (interleave_texts_bad_chunk_size [1; 2]%N [3]%N (-4)
                ltac:(discriminate) ltac:(discriminate)) as [_ Hneg].
  split; assumption.
Defined.

(** ** The loader and the policy at their edges *)



(** X4. For a positive target and non-negative availabilities the policy
    never asks the wiki source for more than the table says it has, and it
    asks the crawl source for at most one character too many: that happens
    only in the 50/50 branch, when the target is odd and the crawl
    availability is exactly half of it. *)
Theorem optimal_distribution_requests (n w o wc oc : Z) :
  0 < n -> 0 <= w -> 0 <= o ->
  optimal_distribution n w o = (wc, oc) ->
  0 <= wc <= w /\ 0 <= oc <= o + 1 /\
  (o < oc -> n = 2 * o + 1 /\ wc = o /\ oc = o + 1 /\ o <= w).
Proof.
  intros Hn Hw Ho Hd.
  pose proof (half_bounds n ltac:(lia)).
  apply optimal_distribution_cases in Hd. lia.
Qed.

Lemma optimal_distribution_requests_witness :
  (0 < 3 /\ 0 <= 2 /\ 0 <= 1 /\ optimal_distribution 3 2 1 = (1, 2)) /\
  0 <= 1 <= 2 /\ 0 <= 2 <= 1 + 1 /\
  (1 < 2 -> 3 = 2 * 1 + 1 /\ 1 = 1 /\ 2 = 1 + 1 /\ 1 <= 2).
Proof.
  split; [repeat split; (lia || reflexivity)|].
  apply (optimal_distribution_requests 3 2 1 1 2); (lia || reflexivity).
Defined.

Lemma requested_text_length (w : world) filepath (n : Z) content :
  inputs w filepath = Content content ->
  len (requested_text w filepath n) = Z.min (Z.max 0 n) (len content).
Proof.
  intros Hc. unfold requested_text. rewrite Hc.
  destruct (Z.ltb_spec 0 n) as [Hpos|Hle].
  - rewrite load_result_positive by assumption.
    unfold len. rewrite length_firstn. lia.
  - pose proof (len_nonneg content). unfold len at 1. cbn [length]. lia.
Qed.

(** X5. When the table lists less than the target for the two sources
    together and the files hold exactly what it lists, the allocator uses
    both files whole: the statistics report the two availabilities, their
    sum as the total, and the text has that length, short of the target. *)
Theorem allocator_shortfall {R : Random} cfg lang entry n w (s : state)
        wiki_content oscar_content :
  dict_find (language_data cfg) lang = Some entry ->
  0 <= wiki entry -> 0 <= oscar entry ->
  wiki entry + oscar entry < n ->
  inputs w (wiki_file_of lang) = Content wiki_content ->
  len wiki_content = wiki entry ->
  inputs w (oscar_file_of lang) = Content oscar_content ->
  len oscar_content = oscar entry ->
  exists text stats s',
    get_balanced_language_data cfg lang n w s = (Ok (text, stats), s') /\
    LangStats.wiki_chars stats = wiki entry /\
    LangStats.oscar_chars stats = oscar entry /\
    LangStats.total_chars stats = wiki entry + oscar entry /\
    len text = wiki entry + oscar entry /\
    LangStats.total_chars stats < LangStats.target_chars stats.
Proof.
  intros Hfind Hw Ho Hshort Hwf Hwl Hof Hol.
  assert (Hn : 0 < n) by lia.
  destruct (optimal_distribution n (wiki entry) (oscar entry))
    as [wc oc] eqn:Hd.
  destruct (allocator_outcome cfg lang entry n w s wc oc Hfind Hn Hw Ho Hd)
    as [merged [_ [Hlen [_ Hrun]]]].
  exists merged. eexists. eexists. split; [exact Hrun|].
  cbn [LangStats.wiki_chars LangStats.oscar_chars LangStats.total_chars
       LangStats.target_chars].
  rewrite Hlen.
  rewrite (requested_text_length _ _ _ _ Hwf),
          (requested_text_length _ _ _ _ Hof), Hwl, Hol.
  pose proof (half_bounds n ltac:(lia)) as Hhalf.
  apply optimal_distribution_cases in Hd.
  destruct Hd as [Hc|[Hc|[Hc|[Hc|[Hc|Hc]]]]];
    repeat match goal with H : _ /\ _ |- _ => destruct H end; subst wc oc;
    repeat split; lia.
Qed.

Lemma allocator_shortfall_witness :
  (dict_find (language_data odd_config) "xx" = Some (Availability 2 1 3) /\
   0 <= 2 /\ 0 <= 1 /\ 2 + 1 < 7 /\
   inputs odd_world (wiki_file_of "xx") = Content [97; 98]%N /\
   len [97; 98]%N = 2 /\
   inputs odd_world (oscar_file_of "xx") = Content [120]%N /\
   len [120]%N = 1) /\
  exists text stats s',
    get_balanced_language_data odd_config "xx" 7 odd_world fresh
      = (Ok (text, stats), s') /\
    LangStats.wiki_chars stats = 2 /\
    LangStats.oscar_chars stats = 1 /\
    LangStats.total_chars stats = 2 + 1 /\
    len text = 2 + 1 /\
    LangStats.total_chars stats < LangStats.target_chars stats.
Proof.
  split.
  { split; [reflexivity|]. split; [lia|]. split; [lia|]. split; [lia|].
    split; [reflexivity|]. split; [reflexivity|]. split; reflexivity. }
  apply (allocator_shortfall (R := rotating_random) odd_config "xx"
           (Availability 2 1 3) 7 odd_world fresh [97; 98]%N [120]%N);
    first [reflexivity | cbn; lia].
Defined.

Lemma len_py_prefix {T : Type} (l : list T) (n : Z) :
  0 <= n -> len (py_prefix l n) = Z.min n (len l).
Proof.
  intros Hn. unfold py_prefix, py_slice, clip_index.
  destruct (Z.ltb_spec 0 0); [lia|].
  destruct (Z.ltb_spec n 0); [lia|].
  pose proof (len_nonneg l).
  rewrite (Z.min_l 0) by lia. cbn [Z.to_nat skipn].
  unfold len. rewrite length_firstn. unfold len in *. lia.
Qed.

(** The allocator's result, for a language that is listed. *)
Lemma allocation_of_listed cfg w lang n entry :
  dict_find (language_data cfg) lang = Some entry ->
  exists wc oc merged,
    optimal_distribution n (wiki entry) (oscar entry) = (wc, oc) /\
    interleave_texts (requested_text w (wiki_file_of lang) wc)
                     (requested_text w (oscar_file_of lang) oc) 1000
      = Ok merged /\
    len merged = len (requested_text w (wiki_file_of lang) wc)
                 + len (requested_text w (oscar_file_of lang) oc) /\
    allocation_of cfg w lang n =
      Ok (if n <? len merged then py_prefix merged n else merged,
          LangStats.mk lang
            (len (requested_text w (wiki_file_of lang) wc))
            (len (requested_text w (oscar_file_of lang) oc))
            (len (requested_text w (wiki_file_of lang) wc)
             + len (requested_text w (oscar_file_of lang) oc))
            n (wiki entry) (oscar entry)).
Proof.
  intros Hfind.
  destruct (optimal_distribution n (wiki entry) (oscar entry))
    as [wc oc] eqn:Hd.
  destruct (interleave_texts_total
              (requested_text w (wiki_file_of lang) wc)
              (requested_text w (oscar_file_of lang) oc) 1000 ltac:(lia))
    as [merged [Hm Hlen]].
  exists wc, oc, merged. split; [reflexivity|]. split; [exact Hm|].
  split; [unfold len; rewrite Hlen; lia|].
  unfold allocation_of, dict_get. rewrite Hfind. cbn [rbind].
  rewrite Hd, Hm. reflexivity.
Qed.

(** The allocator returns [allocation_of] and only prints. *)
Lemma get_balanced_language_data_result {R : Random} cfg lang n w (s : state) :
  get_balanced_language_data cfg lang n w s =
  (allocation_of cfg w lang n, say (allocation_log cfg w lang n) s).
Proof.
  destruct (dict_find (language_data cfg) lang) as [entry|] eqn:Hfind.
  - destruct (allocation_of_listed cfg w lang n entry Hfind)
      as [wc [oc [merged [Hd [Hm [_ Halloc]]]]]].
    rewrite Halloc. unfold allocation_log. rewrite Hfind, Hd, Hm.
    apply (get_balanced_language_data_run cfg lang n entry w s wc oc merged
             Hfind Hd Hm).
  - unfold get_balanced_language_data, allocation_of, allocation_log, dict_get.
    rewrite Hfind. reflexivity.
Qed.

(** X6. For a listed language and a non-negative target the allocator
    never raises, whatever numbers the table holds: the statistics carry
    the language, the target and the two availabilities, their total is the
    sum of the two counts, and the text has [min (target, total)]
    characters, the cut after the merge being printed exactly when the
    total exceeds the target. *)
Theorem allocator_respects_target {R : Random} cfg lang entry n w (s : state) :
  dict_find (language_data cfg) lang = Some entry ->
  0 <= n ->
  exists text stats log,
    get_balanced_language_data cfg lang n w s
      = (Ok (text, stats), say log s) /\
    LangStats.language stats = lang /\
    LangStats.target_chars stats = n /\
    LangStats.wiki_available stats = wiki entry /\
    LangStats.oscar_available stats = oscar entry /\
    LangStats.total_chars stats =
      LangStats.wiki_chars stats + LangStats.oscar_chars stats /\
    len text = Z.min n (LangStats.total_chars stats) /\
    (existsb is_truncation log = true <-> n < LangStats.total_chars stats).
Proof.
  intros Hfind Hn.
  destruct (allocation_of_listed cfg w lang n entry Hfind)
    as [wc [oc [merged [Hd [Hm [Hlen Halloc]]]]]].
  eexists. eexists. eexists.
  split.
  { rewrite get_balanced_language_data_result, Halloc. reflexivity. }
  cbn [LangStats.language LangStats.target_chars LangStats.wiki_available
       LangStats.oscar_available LangStats.total_chars LangStats.wiki_chars
       LangStats.oscar_chars].
  repeat (split; [reflexivity|]).
  rewrite <- Hlen.
  assert (Hquiet : forall p k,
             existsb is_truncation (requested_log w p k) = false).
  { intros p k. unfold requested_log, load_log.
    destruct (0 <? k); [|reflexivity].
    destruct (inputs w p); reflexivity. }
  unfold allocation_log. rewrite Hfind, Hd, Hm.
  rewrite !existsb_app, !Hquiet. cbn [existsb is_truncation orb].
  destruct (Z.ltb_spec n (len merged)) as [Hcut|Hfit].
  - split; [rewrite len_py_prefix by lia; lia|].
    cbn. split; [intros _; exact Hcut|reflexivity].
  - split; [lia|]. cbn. split; [discriminate|lia].
Qed.

Lemma allocator_respects_target_witness :
  (dict_find (language_data skewed_config) "zz"
     = Some (Availability 3 (-5) (-2)) /\ 0 <= 2) /\
  exists text stats log,
    get_balanced_language_data skewed_config "zz" 2
      (uniform_world [97; 98; 99; 100; 101; 102; 103; 104]%N) fresh
      = (Ok (text, stats), say log fresh) /\
    LangStats.language stats = "zz"%string /\
    LangStats.target_chars stats = 2 /\
    LangStats.wiki_available stats = 3 /\
    LangStats.oscar_available stats = -5 /\
    LangStats.total_chars stats =
      LangStats.wiki_chars stats + LangStats.oscar_chars stats /\
    len text = Z.min 2 (LangStats.total_chars stats) /\
    (existsb is_truncation log = true <-> 2 < LangStats.total_chars stats).
Proof.
  split; [split; [reflexivity|lia]|].
  apply (allocator_respects_target (R := rotating_random) skewed_config "zz"
           (Availability 3 (-5) (-2)) 2
           (uniform_world [97; 98; 99; 100; 101; 102; 103; 104]%N) fresh);
    [reflexivity|lia].
Defined.

Example allocator_cut_after_merge :
  fst (get_balanced_language_data skewed_config "zz" 2
         (uniform_world [97; 98; 99; 100; 101; 102; 103; 104]%N) fresh)
  = Ok ([97; 98]%N, LangStats.mk "zz" 7 0 7 2 3 (-5)).
Proof. vm_compute. reflexivity. Qed.

(** ** The assembler, language by language *)

Lemma for_each_app {R : Random} {A S : Type} (l1 l2 : list A)
      (body : S -> A -> M S) (acc : S) w (s : state) :
  for_each (l1 ++ l2) body acc w s =
  match for_each l1 body acc w s with
  | (Ok acc', s') => for_each l2 body acc' w s'
  | (Raise e, s') => (Raise e, s')
  end.
Proof.
  revert acc s. induction l1 as [|x l1 IH]; intros acc s; cbn [app for_each].
  - reflexivity.
  - unfold bind at 1 2. destruct (body acc x w s) as [[acc'|e] s'].
    + apply IH.
    + reflexivity.
Qed.

Lemma listed_allocation cfg w lang n :
  listed cfg lang ->
  exists text stats, allocation_of cfg w lang n = Ok (text, stats).
Proof.
  unfold listed. intros Hl.
  destruct (dict_find (language_data cfg) lang) as [entry|] eqn:Hfind;
    [|congruence].
  destruct (allocation_of_listed cfg w lang n entry Hfind)
    as [wc [oc [merged [_ [_ [_ Halloc]]]]]].
  eexists. eexists. exact Halloc.
Qed.

(** One turn of the loop of the assembler. *)
Lemma collect_language_run {R : Random} cfg n acc lang w (s : state) :
  collect_language cfg n acc lang w s =
  match allocation_of cfg w lang n with
  | Ok (text, stats) =>
      (Ok (Collect
             (all_texts acc ++ (if 0 <? len text
                                then [language_block lang text] else []))
             (dict_set (language_stats acc) lang stats)
             (total_collected acc + (if 0 <? len text then len text else 0))),
       say (allocation_log cfg w lang n ++ [Collected lang (len text)]) s)
  | Raise e => (Raise e, say (allocation_log cfg w lang n) s)
  end.
Proof.
  unfold collect_language. unfold bind at 1.
  rewrite get_balanced_language_data_result.
  destruct (allocation_of cfg w lang n) as [[text stats]|e]; [|reflexivity].
  unfold bind at 1. rewrite print_run. unfold ret. rewrite say_say.
  destruct (0 <? len text); cbn [all_texts language_stats total_collected];
    rewrite ?app_nil_r, ?Z.add_0_r; reflexivity.
Qed.

(** The loop of the assembler over listed languages. *)
Lemma collect_loop_listed {R : Random} cfg n w :
  forall langs acc (s : state),
    Forall (listed cfg) langs ->
    for_each langs (collect_language cfg n) acc w s =
    (Ok (Collect
           (all_texts acc ++ flat_map (block_of cfg w n) langs)
           (stats_after cfg w n (language_stats acc) langs)
           (total_collected acc
            + fold_right (fun lang k => collected_chars cfg w n lang + k)
                         0 langs)),
     say (collect_log cfg w n langs) s).
Proof.
  induction langs as [|lang langs IH]; intros acc s Hall.
  - cbn. rewrite app_nil_r, Z.add_0_r, say_nil. destruct acc. reflexivity.
  - apply Forall_cons_iff in Hall. destruct Hall as [Hlang Hall].
    destruct (listed_allocation cfg w lang n Hlang) as [text [stats Halloc]].
    cbn [for_each]. unfold bind at 1.
    rewrite collect_language_run, Halloc.
    rewrite (IH _ _ Hall). rewrite say_say.
    cbn [all_texts language_stats total_collected].
    unfold stats_after at 2, collect_log at 2.
    cbn [fold_left flat_map fold_right].
    unfold block_of at 2, collected_chars at 2. rewrite Halloc.
    fold (stats_after cfg w n (dict_set (language_stats acc) lang stats) langs).
    fold (collect_log cfg w n langs).
    rewrite <- !app_assoc, <- Z.add_assoc. reflexivity.
Qed.

(** The loop of the assembler stops at the first unlisted language. *)
Lemma collect_loop_unlisted {R : Random} cfg n w known lang rest acc
      (s : state) :
  Forall (listed cfg) known ->
  dict_find (language_data cfg) lang = None ->
  for_each (known ++ lang :: rest) (collect_language cfg n) acc w s =
  (Raise (KeyError lang),
   say (collect_log cfg w n known ++ [Processing lang n]) s).
Proof.
  intros Hknown Hnone. rewrite for_each_app.
  rewrite (collect_loop_listed cfg n w known acc s Hknown).
  cbn [for_each]. unfold bind at 1. rewrite collect_language_run.
  unfold allocation_of, allocation_log, dict_get. rewrite Hnone.
  cbn [rbind]. rewrite say_say. reflexivity.
Qed.

(** X7. When a language of [LANGUAGES] has no entry in [LANGUAGE_DATA],
    the assembler raises [KeyError] for the first such language, after
    processing the languages before it: nothing is written, nothing is
    shuffled, and the languages after it are not looked at. *)
Theorem create_balanced_file_unlisted_language {R : Random}
        cfg split_config w (s : state) known lang rest :
  languages cfg = known ++ lang :: rest ->
  Forall (listed cfg) known ->
  dict_find (language_data cfg) lang = None ->
  exists log,
    create_balanced_file cfg split_config w s
      = (Raise (KeyError lang), say log s) /\
    written (say log s) = written s /\
    generator (say log s) = generator s /\
    Forall (fun m => forall l k, m = Processing l k -> In l (known ++ [lang]))
           log.
Proof.
  intros Hlangs Hknown Hnone.
  rewrite create_balanced_file_run, Hlangs.
  rewrite (collect_loop_unlisted cfg _ w known lang rest _ _ Hknown Hnone).
  rewrite say_say. eexists. split; [reflexivity|].
  split; [reflexivity|]. split; [reflexivity|].
  rewrite !Forall_app. split; [|split].
  - unfold banner. repeat constructor; intros l k [=].
  - unfold collect_log. rewrite Forall_flat_map.
    rewrite Forall_forall. intros x Hx.
    rewrite Forall_app. split.
    + unfold allocation_log.
      destruct (dict_find (language_data cfg) x) as [entry|].
      * destruct (optimal_distribution _ _ _) as [wc oc].
        destruct (interleave_texts _ _ _) as [merged|e]; [|constructor].
        rewrite !Forall_app. repeat split.
        -- repeat constructor; intros l k [=]; subst.
           apply in_or_app. left. exact Hx.
        -- unfold requested_log, load_log.
           destruct (0 <? wc); [|constructor].
           destruct (inputs w _); repeat constructor; intros l k [=].
        -- unfold requested_log, load_log.
           destruct (0 <? oc); [|constructor].
           destruct (inputs w _); repeat constructor; intros l k [=].
        -- destruct (_ <? _); repeat constructor; intros l k [=].
        -- repeat constructor; intros l k [=].
      * repeat constructor; intros l k [=]; subst.
        apply in_or_app. left. exact Hx.
    + destruct (allocation_of cfg w x _) as [[text stats]|e];
        repeat constructor; intros l k [=].
  - repeat constructor. intros l k [=]; subst.
    apply in_or_app. right. left. reflexivity.
Qed.

Lemma create_balanced_file_unlisted_language_witness :
  (languages gap_config = ["yo"%string] ++ "xx"%string :: ["ar"%string] /\
   Forall (listed gap_config) ["yo"%string] /\
   dict_find (language_data gap_config) "xx" = None) /\
  exists log,
    create_balanced_file gap_config tiny_split
      (uniform_world [97; 98; 99]%N) fresh
      = (Raise (KeyError "xx"), say log fresh) /\
    written (say log fresh) = written fresh /\
    generator (say log fresh) = generator fresh /\
    Forall (fun m => forall l k, m = Processing l k ->
                                 In l (["yo"%string] ++ ["xx"%string]))
           log.
Proof.
  assert (Hknown : Forall (listed gap_config) ["yo"%string]).
  { constructor; [|constructor]. unfold listed. cbn. discriminate. }
  split; [split; [reflexivity|split; [exact Hknown|reflexivity]]|].
  apply (create_balanced_file_unlisted_language (R := rotating_random)
           gap_config tiny_split (uniform_world [97; 98; 99]%N) fresh
           ["yo"%string] "xx"%string ["ar"%string] eq_refl Hknown eq_refl).
Defined.

(** What the assembler returns, writes and prints when every language is
    listed. *)
Lemma create_balanced_file_outcome {R : Random} cfg split_config w (s : state) :
  Forall (listed cfg) (languages cfg) ->
  let n := Split.chars_per_lang split_config in
  let blocks := flat_map (block_of cfg w n) (languages cfg) in
  let order := fst (random_shuffle (generator s) blocks) in
  let filename := Split.filename split_config in
  create_balanced_file cfg split_config w s =
  (Ok (FileStats.mk filename (Split.total_chars split_config)
         (len (concat order)) n (Split.baseline_lang split_config)
         (stats_after cfg w n [] (languages cfg))),
   State (stdout s ++ banner split_config
            ++ collect_log cfg w n (languages cfg)
            ++ [ Created filename (len (concat order));
                 PerfectBalance
                   (len (concat order) =? Split.total_chars split_config);
                 SavedTo (path_join OUTPUT_DIR filename) ])
         (snd (random_shuffle (generator s) blocks))
         (written s
            ++ [(path_join OUTPUT_DIR filename, TextFile (concat order))])).
Proof.
  intros Hall n blocks order filename.
  rewrite create_balanced_file_run.
  rewrite (collect_loop_listed cfg n w (languages cfg) _ _ Hall).
  cbn [all_texts language_stats app say stdout generator written].
  fold blocks. fold order. fold filename.
  rewrite <- !app_assoc. reflexivity.
Qed.

(** X8. When every language is listed the assembler returns normally and
    writes one file: the concatenation, in the order the shuffle gives, of
    one block for each language whose text is not empty, and no block for a
    language whose text is empty.  [actual_chars] is the length of that
    file, that is the total length of those blocks. *)
Theorem create_balanced_file_blocks {R : Random} cfg split_config w (s : state) :
  (forall g l, Permutation l (fst (random_shuffle g l))) ->
  Forall (listed cfg) (languages cfg) ->
  exists file_stats s' order,
    create_balanced_file cfg split_config w s = (Ok file_stats, s') /\
    Permutation
      (flat_map (block_of cfg w (Split.chars_per_lang split_config))
                (languages cfg))
      order /\
    written s' =
      written s ++ [(path_join OUTPUT_DIR (Split.filename split_config),
                     TextFile (concat order))] /\
    FileStats.actual_chars file_stats = len (concat order) /\
    FileStats.actual_chars file_stats =
      blocks_length
        (flat_map (block_of cfg w (Split.chars_per_lang split_config))
                  (languages cfg)).
Proof.
  intros Hperm Hall.
  rewrite (create_balanced_file_outcome cfg split_config w s Hall).
  eexists. eexists. eexists. split; [reflexivity|].
  split; [apply Hperm|]. split; [reflexivity|]. split; [reflexivity|].
  cbn [FileStats.actual_chars]. unfold blocks_length, len. f_equal.
  symmetry. apply Permutation_concat_length. apply Hperm.
Qed.

Lemma listed_pair_config : Forall (listed pair_config) (languages pair_config).
Proof. repeat constructor; unfold listed; cbn; discriminate. Qed.

Lemma create_balanced_file_blocks_witness :
  ((forall g l, Permutation l (fst (random_shuffle (Random := rotating_random) g l))) /\
   Forall (listed pair_config) (languages pair_config)) /\
  exists file_stats s' order,
    create_balanced_file pair_config tiny_split one_file_world fresh
      = (Ok file_stats, s') /\
    Permutation
      (flat_map (block_of pair_config one_file_world
                          (Split.chars_per_lang tiny_split))
                (languages pair_config))
      order /\
    written s' =
      written fresh ++ [(path_join OUTPUT_DIR (Split.filename tiny_split),
                         TextFile (concat order))] /\
    FileStats.actual_chars file_stats = len (concat order) /\
    FileStats.actual_chars file_stats =
      blocks_length
        (flat_map (block_of pair_config one_file_world
                            (Split.chars_per_lang tiny_split))
                  (languages pair_config)).
Proof.
  split; [split; [intros g l; apply rotate_permutation
                 |exact listed_pair_config]|].
  apply (create_balanced_file_blocks (R := rotating_random) pair_config
           tiny_split one_file_world fresh).
  - intros g l. apply rotate_permutation.
  - exact listed_pair_config.
Defined.

Example blocks_of_pair_config :
  flat_map (block_of pair_config one_file_world 2) (languages pair_config)
  = [language_block "hi" [97]%N].
Proof. vm_compute. reflexivity. Qed.

(** *** The statistics dictionary *)

Lemma dict_set_fresh {V : Type} (d : dict V) (key : string) (v : V) :
  dict_find d key = None -> dict_set d key v = d ++ [(key, v)].
Proof.
  induction d as [|[k v0] d IH]; cbn [dict_find dict_set app];
    [reflexivity|].
  destruct (String.eqb k key); [discriminate|].
  intros Hnone. rewrite IH by exact Hnone. reflexivity.
Qed.

Lemma dict_find_app_fresh {V : Type} (d : dict V) (key key' : string) (v : V) :
  key <> key' -> dict_find d key' = None ->
  dict_find (d ++ [(key, v)]) key' = None.
Proof.
  intros Hne. induction d as [|[k v0] d IH]; cbn [dict_find app].
  - destruct (String.eqb_spec key key'); [contradiction|reflexivity].
  - destruct (String.eqb k key'); [discriminate|exact IH].
Qed.

Lemma stats_after_fresh cfg w n :
  forall langs d,
    Forall (listed cfg) langs -> NoDup langs ->
    (forall lang, In lang langs -> dict_find d lang = None) ->
    stats_after cfg w n d langs = d ++ flat_map (stats_of cfg w n) langs.
Proof.
  induction langs as [|lang langs IH]; intros d Hall Hnodup Hfresh.
  - cbn. rewrite app_nil_r. reflexivity.
  - apply Forall_cons_iff in Hall. destruct Hall as [Hlang Hall].
    apply NoDup_cons_iff in Hnodup. destruct Hnodup as [Hnew Hnodup].
    destruct (listed_allocation cfg w lang n Hlang) as [text [stats Halloc]].
    assert (Hs : stats_of cfg w n lang = [(lang, stats)])
      by (unfold stats_of; rewrite Halloc; reflexivity).
    unfold stats_after. cbn [fold_left flat_map]. rewrite Halloc, Hs.
    fold (stats_after cfg w n (dict_set d lang stats) langs).
    rewrite dict_set_fresh by (apply Hfresh; left; reflexivity).
    rewrite IH; [rewrite <- app_assoc; reflexivity|exact Hall|exact Hnodup|].
    intros l Hl. apply dict_find_app_fresh.
    + intros ->. contradiction.
    + apply Hfresh. right. exact Hl.
Qed.

Lemma stats_of_keys cfg w n langs :
  Forall (listed cfg) langs ->
  map fst (flat_map (stats_of cfg w n) langs) = langs.
Proof.
  induction 1 as [|lang langs Hlang _ IH]; [reflexivity|].
  destruct (listed_allocation cfg w lang n Hlang) as [text [stats Halloc]].
  assert (Hs : stats_of cfg w n lang = [(lang, stats)])
    by (unfold stats_of; rewrite Halloc; reflexivity).
  cbn [flat_map]. rewrite Hs.
  cbn [app map fst]. rewrite IH. reflexivity.
Qed.

Lemma dict_find_stats_of cfg w n lang langs text stats :
  In lang langs ->
  allocation_of cfg w lang n = Ok (text, stats) ->
  dict_find (flat_map (stats_of cfg w n) langs) lang = Some stats.
Proof.
  intros Hin Halloc. induction langs as [|l langs IH]; [contradiction|].
  cbn [flat_map].
  destruct (String.eqb_spec l lang) as [->|Hne].
  - unfold stats_of at 1. rewrite Halloc. cbn [app dict_find].
    rewrite String.eqb_refl. reflexivity.
  - destruct Hin as [->|Hin]; [contradiction|].
    unfold stats_of at 1.
    destruct (allocation_of cfg w l n) as [[t st]|e]; cbn [app dict_find].
    + destruct (String.eqb_spec l lang); [contradiction|]. apply IH, Hin.
    + apply IH, Hin.
Qed.

(** X9. When every language is listed and no language is repeated, the
    statistics the assembler returns have one entry per language, in the
    order of [LANGUAGES], whether or not the language got a block: the
    entry is the statistics the allocator returned for that language, even
    when its text was empty. *)
Theorem create_balanced_file_statistics {R : Random}
        cfg split_config w (s : state) file_stats s' :
  create_balanced_file cfg split_config w s = (Ok file_stats, s') ->
  Forall (listed cfg) (languages cfg) ->
  NoDup (languages cfg) ->
  map fst (FileStats.language_stats file_stats) = languages cfg /\
  FileStats.chars_per_lang file_stats = Split.chars_per_lang split_config /\
  forall lang, In lang (languages cfg) ->
    exists text stats,
      allocation_of cfg w lang (Split.chars_per_lang split_config)
        = Ok (text, stats) /\
      dict_find (FileStats.language_stats file_stats) lang = Some stats /\
      LangStats.language stats = lang /\
      LangStats.target_chars stats = FileStats.chars_per_lang file_stats /\
      LangStats.total_chars stats =
        LangStats.wiki_chars stats + LangStats.oscar_chars stats.
Proof.
  intros Hrun Hall Hnodup.
  rewrite (create_balanced_file_outcome cfg split_config w s Hall) in Hrun.
  injection Hrun as <- _.
  cbn [FileStats.language_stats FileStats.chars_per_lang].
  rewrite stats_after_fresh by (assumption || reflexivity).
  cbn [app].
  split; [apply stats_of_keys; exact Hall|]. split; [reflexivity|].
  intros lang Hin.
  rewrite Forall_forall in Hall. specialize (Hall lang Hin).
  unfold listed in Hall.
  destruct (dict_find (language_data cfg) lang) as [entry|] eqn:Hfind;
    [|congruence].
  destruct (allocation_of_listed cfg w lang
              (Split.chars_per_lang split_config) entry Hfind)
    as [wc [oc [merged [_ [_ [_ Halloc]]]]]].
  eexists. eexists. split; [exact Halloc|].
  split; [apply (dict_find_stats_of _ _ _ _ _ _ _ Hin Halloc)|].
  repeat split.
Qed.

Lemma create_balanced_file_statistics_witness :
  exists file_stats s',
    create_balanced_file pair_config tiny_split one_file_world fresh
      = (Ok file_stats, s') /\
    Forall (listed pair_config) (languages pair_config) /\
    NoDup (languages pair_config) /\
    map fst (FileStats.language_stats file_stats) = languages pair_config /\
    FileStats.chars_per_lang file_stats = Split.chars_per_lang tiny_split /\
    forall lang, In lang (languages pair_config) ->
      exists text stats,
        allocation_of pair_config one_file_world lang
                      (Split.chars_per_lang tiny_split) = Ok (text, stats) /\
        dict_find (FileStats.language_stats file_stats) lang = Some stats /\
        LangStats.language stats = lang /\
        LangStats.target_chars stats = FileStats.chars_per_lang file_stats /\
        LangStats.total_chars stats =
          LangStats.wiki_chars stats + LangStats.oscar_chars stats.
Proof.
  assert (Hnodup : NoDup (languages pair_config)).
  { cbn. repeat constructor; cbn; intuition discriminate. }
  pose proof (create_balanced_file_outcome (R := rotating_random) pair_config
                tiny_split one_file_world fresh listed_pair_config) as Hrun.
  cbv zeta in Hrun.
  eexists. eexists. split; [exact Hrun|].
  split; [exact listed_pair_config|]. split; [exact Hnodup|].
  exact (create_balanced_file_statistics (R := rotating_random) pair_config
           tiny_split one_file_world fresh _ _ Hrun listed_pair_config Hnodup).
Defined.

(** ** The CSV and the report *)

(** The statistics in the returned dictionary, for the rows of the CSV and
    of the report. *)
Lemma assembled_language_stats {R : Random}
      cfg split_config w (s : state) file_stats s' :
  create_balanced_file cfg split_config w s = (Ok file_stats, s') ->
  Forall (listed cfg) (languages cfg) ->
  NoDup (languages cfg) ->
  FileStats.filename file_stats = Split.filename split_config /\
  FileStats.baseline_lang file_stats = Split.baseline_lang split_config /\
  FileStats.target_chars file_stats = Split.total_chars split_config /\
  forall lang, In lang (languages cfg) ->
    exists stats,
      dict_find (FileStats.language_stats file_stats) lang = Some stats /\
      LangStats.target_chars stats = Split.chars_per_lang split_config /\
      LangStats.total_chars stats =
        LangStats.wiki_chars stats + LangStats.oscar_chars stats.
Proof.
  intros Hrun Hall Hnodup.
  rewrite (create_balanced_file_outcome cfg split_config w s Hall) in Hrun.
  injection Hrun as <- _.
  cbn [FileStats.language_stats FileStats.filename FileStats.baseline_lang
       FileStats.target_chars].
  repeat (split; [reflexivity|]).
  rewrite stats_after_fresh by (assumption || reflexivity). cbn [app].
  intros lang Hin.
  rewrite Forall_forall in Hall. specialize (Hall lang Hin).
  unfold listed in Hall.
  destruct (dict_find (language_data cfg) lang) as [entry|] eqn:Hfind;
    [|congruence].
  destruct (allocation_of_listed cfg w lang
              (Split.chars_per_lang split_config) entry Hfind)
    as [wc [oc [merged [_ [_ [_ Halloc]]]]]].
  eexists. split; [apply (dict_find_stats_of _ _ _ _ _ _ _ Hin Halloc)|].
  split; reflexivity.
Qed.

Lemma csv_rows_by_language (file_stats : FileStats.t)
      (P : LangStats.t -> Prop) (Q : csv_row -> Prop) :
  (forall lang stats, P stats ->
     Q (CsvRow (FileStats.filename file_stats) lang
          (String.eqb lang (FileStats.baseline_lang file_stats))
          (LangStats.target_chars stats) (LangStats.wiki_chars stats)
          (LangStats.oscar_chars stats) (LangStats.total_chars stats))) ->
  forall langs,
    (forall lang, In lang langs ->
       exists stats,
         dict_find (FileStats.language_stats file_stats) lang = Some stats /\
         P stats) ->
    map csv_language (csv_rows_of (Config langs []) file_stats) = langs /\
    Forall Q (csv_rows_of (Config langs []) file_stats).
Proof.
  intros HPQ. unfold csv_rows_of. cbn [languages].
  induction langs as [|lang langs IH]; intros Hin.
  - split; [reflexivity|constructor].
  - destruct (Hin lang (or_introl eq_refl)) as [stats [Hfind HP]].
    destruct (IH (fun l Hl => Hin l (or_intror Hl))) as [Hmap Hall].
    cbn [flat_map]. rewrite Hfind. cbn [app map csv_language].
    split; [rewrite Hmap; reflexivity|].
    constructor; [apply HPQ; exact HP|exact Hall].
Qed.

(** X10. The CSV rows of a file the assembler returned, every language
    listed and none repeated: one row per language in the order of
    [LANGUAGES], each with the file's name, the per-language target, a
    total equal to the sum of its wiki and crawl counts, and the baseline
    mark exactly on the rows of the baseline language. *)
Theorem csv_rows_of_assembled_file {R : Random}
        cfg split_config w (s : state) file_stats s' :
  create_balanced_file cfg split_config w s = (Ok file_stats, s') ->
  Forall (listed cfg) (languages cfg) ->
  NoDup (languages cfg) ->
  map csv_language (csv_rows_of cfg file_stats) = languages cfg /\
  Forall
    (fun row =>
       csv_file row = Split.filename split_config /\
       csv_target_chars row = Split.chars_per_lang split_config /\
       csv_total_chars row = csv_wiki_chars row + csv_oscar_chars row /\
       (csv_is_baseline row = true <->
        csv_language row = Split.baseline_lang split_config))
    (csv_rows_of cfg file_stats).
Proof.
  intros Hrun Hall Hnodup.
  destruct (assembled_language_stats cfg split_config w s file_stats s'
              Hrun Hall Hnodup) as [Hname [Hbase [_ Hstats]]].
  change (csv_rows_of cfg file_stats)
    with (csv_rows_of (Config (languages cfg) []) file_stats).
  apply (csv_rows_by_language file_stats
           (fun stats =>
              LangStats.target_chars stats = Split.chars_per_lang split_config /\
              LangStats.total_chars stats =
                LangStats.wiki_chars stats + LangStats.oscar_chars stats)).
  - intros lang stats [Ht Hsum].
    cbn [csv_file csv_target_chars csv_total_chars csv_wiki_chars
         csv_oscar_chars csv_is_baseline csv_language].
    rewrite Hname, Hbase. repeat split; try assumption.
    + intros Heq. apply String.eqb_eq. exact Heq.
    + intros Heq. apply String.eqb_eq. exact Heq.
  - exact Hstats.
Qed.

Lemma csv_rows_of_assembled_file_witness :
  exists file_stats s',
    create_balanced_file pair_config tiny_split one_file_world fresh
      = (Ok file_stats, s') /\
    Forall (listed pair_config) (languages pair_config) /\
    NoDup (languages pair_config) /\
    map csv_language (csv_rows_of pair_config file_stats)
      = languages pair_config /\
    Forall
      (fun row =>
         csv_file row = Split.filename tiny_split /\
         csv_target_chars row = Split.chars_per_lang tiny_split /\
         csv_total_chars row = csv_wiki_chars row + csv_oscar_chars row /\
         (csv_is_baseline row = true <->
          csv_language row = Split.baseline_lang tiny_split))
      (csv_rows_of pair_config file_stats).
Proof.
  assert (Hnodup : NoDup (languages pair_config)).
  { cbn. repeat constructor; cbn; intuition discriminate. }
  pose proof (create_balanced_file_outcome (R := rotating_random) pair_config
                tiny_split one_file_world fresh listed_pair_config) as Hrun.
  cbv zeta in Hrun.
  eexists. eexists. split; [exact Hrun|].
  split; [exact listed_pair_config|]. split; [exact Hnodup|].
  exact (csv_rows_of_assembled_file (R := rotating_random) pair_config
           tiny_split one_file_world fresh _ _ Hrun listed_pair_config Hnodup).
Defined.




(** ** The baseline calculator: the baseline and the exact targets *)

Lemma min_by_total_scan :
  forall (rest before mid : dict availability) (best : string * availability),
    Forall (fun e => total (snd best) < total (snd e)) before ->
    Forall (fun e => total (snd best) <= total (snd e)) mid ->
    exists before' after',
      before ++ best :: mid ++ rest =
        before'
          ++ fold_left
               (fun best x => if total (snd x) <? total (snd best)
                              then x else best) rest best
          :: after' /\
      Forall
        (fun e =>
           total (snd (fold_left
                         (fun best x => if total (snd x) <? total (snd best)
                                        then x else best) rest best))
           < total (snd e)) before' /\
      Forall
        (fun e =>
           total (snd (fold_left
                         (fun best x => if total (snd x) <? total (snd best)
                                        then x else best) rest best))
           <= total (snd e)) after'.
Proof.
  induction rest as [|x rest IH]; intros before mid best Hbefore Hmid.
  - exists before, mid. rewrite app_nil_r. cbn. auto.
  - cbn [fold_left].
    destruct (Z.ltb_spec (total (snd x)) (total (snd best))) as [Hlt|Hge].
    + destruct (IH (before ++ best :: mid) [] x) as [b' [a' [Heq [Hb Ha]]]].
      * rewrite Forall_app. split.
        -- eapply Forall_impl; [|exact Hbefore]. cbn. intros e He. lia.
        -- constructor; [lia|].
           eapply Forall_impl; [|exact Hmid]. cbn. intros e He. lia.
      * constructor.
      * exists b', a'. split; [|split; assumption].
        rewrite <- Heq. cbn [app]. rewrite <- app_assoc. reflexivity.
    + destruct (IH before (mid ++ [x]) best Hbefore) as [b' [a' [Heq [Hb Ha]]]].
      * rewrite Forall_app. split; [exact Hmid|]. constructor; [lia|constructor].
      * exists b', a'. split; [|split; assumption].
        rewrite <- Heq. rewrite <- app_assoc. reflexivity.
Qed.

Lemma min_by_total_first_minimum (d : dict availability) m :
  min_by_total d = Ok m ->
  exists before after,
    d = before ++ m :: after /\
    Forall (fun e => total (snd m) < total (snd e)) before /\
    Forall (fun e => total (snd m) <= total (snd e)) after.
Proof.
  destruct d as [|first rest]; [discriminate|].
  cbn [min_by_total]. intros [= <-].
  destruct (min_by_total_scan rest [] [] first) as [b [a [Heq H]]];
    [constructor|constructor|].
  exists b, a. split; [exact Heq|exact H].
Qed.

(** When the calculator returns, it returns these three plans. *)
Lemma find_baseline_amounts_run {R : Random} cfg w (s : state) amounts s' :
  find_baseline_amounts cfg w s = (Ok amounts, s') ->
  exists m small medium,
    min_by_total (language_data cfg) = Ok m /\
    scaled_chars (total (snd m)) PyFloat.lit_0_9 = Ok small /\
    scaled_chars (total (snd m)) PyFloat.lit_1_0 = Ok medium /\
    amounts =
      [ ("small"%string,
         amounts_for cfg m
           (SplitDef PyFloat.lit_0_9 "final_balanced_small.txt") small);
        ("medium"%string,
         amounts_for cfg m
           (SplitDef PyFloat.lit_1_0 "final_balanced_medium.txt") medium);
        ("large"%string,
         amounts_for cfg m
           (SplitDef PyFloat.lit_1_0 "final_balanced_large.txt") medium) ] /\
    generator s' = generator s /\ written s' = written s.
Proof.
  unfold find_baseline_amounts, find_baseline_amounts_for.
  unfold bind at 1. unfold lift at 1.
  destruct (min_by_total (language_data cfg)) as [m|e] eqn:Hmin;
    [|discriminate].
  unfold bind at 1. rewrite print_run.
  unfold split_configs. cbn [for_each ratio name].
  unfold bind, lift, print, ret.
  destruct (scaled_chars (total (snd m)) PyFloat.lit_0_9) as [a|e] eqn:Ha;
    [|discriminate].
  destruct (scaled_chars (total (snd m)) PyFloat.lit_1_0) as [b|e] eqn:Hb;
    [|discriminate].
  cbn [dict_set String.eqb Ascii.eqb Bool.eqb].
  intros [= <- <-]. exists m, a, b.
  repeat split; try assumption; reflexivity.
Qed.

(** X12. The baseline the calculator picks is the first entry of
    [LANGUAGE_DATA] with the least total: every entry before it has a
    strictly greater total, every entry after it a greater or equal one.
    The plans it returns are "small", "medium" and "large" in that order,
    each naming that baseline and a file total of the per-language target
    times the number of languages. *)
Theorem baseline_is_first_minimum {R : Random} cfg w (s : state) amounts s' :
  find_baseline_amounts cfg w s = (Ok amounts, s') ->
  exists before m after,
    language_data cfg = before ++ m :: after /\
    Forall (fun e => total (snd m) < total (snd e)) before /\
    Forall (fun e => total (snd m) <= total (snd e)) after /\
    map fst amounts = ["small"; "medium"; "large"]%string /\
    map (fun kv => Split.filename (snd kv)) amounts =
      [ "final_balanced_small.txt"; "final_balanced_medium.txt";
        "final_balanced_large.txt" ]%string /\
    Forall (fun kv =>
              Split.baseline_lang (snd kv) = fst m /\
              Split.total_chars (snd kv) =
                Split.chars_per_lang (snd kv) * len (languages cfg))
           amounts.
Proof.
  intros Hrun.
  destruct (find_baseline_amounts_run cfg w s amounts s' Hrun)
    as [m [a [b [Hmin [_ [_ [-> _]]]]]]].
  destruct (min_by_total_first_minimum _ _ Hmin) as [before [after [Hd [Hb Ha]]]].
  exists before, m, after.
  split; [exact Hd|]. split; [exact Hb|]. split; [exact Ha|].
  split; [reflexivity|]. split; [reflexivity|].
  repeat constructor.
Qed.

Lemma baseline_is_first_minimum_witness :
  exists amounts s',
    find_baseline_amounts module_config (uniform_world []) fresh
      = (Ok amounts, s') /\
    exists before m after,
      language_data module_config = before ++ m :: after /\
      Forall (fun e => total (snd m) < total (snd e)) before /\
      Forall (fun e => total (snd m) <= total (snd e)) after /\
      map fst amounts = ["small"; "medium"; "large"]%string /\
      map (fun kv => Split.filename (snd kv)) amounts =
        [ "final_balanced_small.txt"; "final_balanced_medium.txt";
          "final_balanced_large.txt" ]%string /\
      Forall (fun kv =>
                Split.baseline_lang (snd kv) = fst m /\
                Split.total_chars (snd kv) =
                  Split.chars_per_lang (snd kv)
                  * len (languages module_config))
             amounts.
Proof.
  assert (Hrun : find_baseline_amounts module_config (uniform_world []) fresh
                 = (fst (find_baseline_amounts module_config
                           (uniform_world []) fresh),
                    snd (find_baseline_amounts module_config
                           (uniform_world []) fresh)))
    by (destruct (find_baseline_amounts _ _ _); reflexivity).
  assert (Hok : fst (find_baseline_amounts module_config
                       (uniform_world []) fresh)
                = Ok [ ("small"%string,
                        Split.mk 11398357 "final_balanced_small.txt"
                                 102585213 "yo");
                       ("medium"%string,
                        Split.mk 12664842 "final_balanced_medium.txt"
                                 113983578 "yo");
                       ("large"%string,
                        Split.mk 12664842 "final_balanced_large.txt"
                                 113983578 "yo") ])
    by (vm_compute; reflexivity).
  rewrite Hok in Hrun.
  eexists. eexists. split; [exact Hrun|].
  exact (baseline_is_first_minimum (R := rotating_random) module_config
           (uniform_world []) fresh _ _ Hrun).
Defined.

(** *** Exact targets *)

Lemma round_mag_exact (m e : Z) :
  0 <= m < 2 ^ 53 -> PyFloat.emin <= e ->
  PyFloat.round_mag m e = (m, e).
Proof.
  intros Hm He. unfold PyFloat.round_mag.
  assert (HL : Z.log2 m <= 52).
  { destruct (Z.eq_dec m 0) as [->|Hne]; [cbn; lia|].
    apply Z.lt_succ_r. apply Z.log2_lt_pow2; lia. }
  destruct (Z.leb_spec (Z.max (e + Z.log2 m - 52) PyFloat.emin) e);
    [reflexivity|lia].
Qed.

Lemma round_exact (m e : Z) :
  0 <= m < 2 ^ 53 -> PyFloat.emin <= e ->
  PyFloat.round m e = PyFloat.mk m e.
Proof.
  intros Hm He. unfold PyFloat.round.
  rewrite Z.abs_eq by lia. rewrite round_mag_exact by assumption.
  destruct (Z.eq_dec m 0) as [->|Hne]; [reflexivity|].
  rewrite Z.sgn_pos by lia. f_equal. lia.
Qed.

Lemma small_value_finite (m : Z) :
  0 <= m < 2 ^ 53 -> PyFloat.overflows (PyFloat.mk m 0) = false.
Proof.
  intros Hm. apply (no_overflow 0); cbn [PyFloat.expo]; try lia.
  unfold PyFloat.units. cbn [PyFloat.mant PyFloat.expo].
  rewrite Z.sub_0_r. change (2 ^ 0) with 1.
  rewrite Z.mul_1_r, Z.abs_eq by lia.
  assert (2 ^ 53 <= 2 ^ 1023) by (apply Z.pow_le_mono_r; lia). lia.
Qed.

Lemma scaled_chars_one (n : Z) :
  0 <= n <= 2 ^ 53 -> scaled_chars n PyFloat.lit_1_0 = Ok n.
Proof.
  intros Hn.
  destruct (Z.eq_dec n (2 ^ 53)) as [->|Hne]; [vm_compute; reflexivity|].
  unfold scaled_chars, PyFloat.int_mul, PyFloat.of_int.
  rewrite round_exact by (unfold PyFloat.emin; lia).
  rewrite small_value_finite by lia. cbn [rbind].
  unfold PyFloat.mul, PyFloat.lit_1_0. cbn [PyFloat.mant PyFloat.expo].
  rewrite Z.mul_1_r. cbn [Z.add].
  rewrite round_exact by (unfold PyFloat.emin; lia).
  rewrite small_value_finite by lia.
  cbn [PyFloat.to_int]. unfold PyFloat.truncate.
  cbn [PyFloat.mant PyFloat.expo Z.leb Z.compare]. f_equal.
  change (2 ^ 0) with 1. lia.
Qed.

(** X13. For a table whose least total is between 0 and 2^53 the "medium"
    and "large" targets are exactly that least total: the multiplication
    by the float 1.0 and the conversion back lose nothing.  Above 2^53 they
    can: a least total of 2^53 + 1 gives the target 2^53. *)
Theorem full_ratio_is_exact {R : Random} cfg w (s : state) amounts s' :
  find_baseline_amounts cfg w s = (Ok amounts, s') ->
  Forall (fun e => 0 <= total (snd e) <= 2 ^ 53) (language_data cfg) ->
  exists m small medium large,
    min_by_total (language_data cfg) = Ok m /\
    amounts = [("small"%string, small); ("medium"%string, medium);
               ("large"%string, large)] /\
    Split.chars_per_lang medium = total (snd m) /\
    Split.chars_per_lang large = total (snd m) /\
    Split.chars_per_lang small <= total (snd m) /\
    scaled_chars (2 ^ 53 + 1) PyFloat.lit_1_0 = Ok (2 ^ 53).
Proof.
  intros Hrun Hrange.
  destruct (find_baseline_amounts_run cfg w s amounts s' Hrun)
    as [m [a [b [Hmin [Ha [Hb [-> _]]]]]]].
  pose proof (min_by_total_in _ _ Hmin) as Hin.
  rewrite Forall_forall in Hrange. specialize (Hrange m Hin).
  rewrite scaled_chars_one in Hb by exact Hrange. injection Hb as <-.
  eexists. eexists. eexists. eexists.
  split; [exact Hmin|]. split; [reflexivity|].
  cbn [amounts_for Split.chars_per_lang].
  split; [reflexivity|]. split; [reflexivity|]. split.
  - apply (scaled_chars_mono (total (snd m)) PyFloat.lit_0_9 PyFloat.lit_1_0);
      [lia|vm_compute; discriminate|exact Ha|].
    apply scaled_chars_one. exact Hrange.
  - vm_compute. reflexivity.
Qed.

Lemma full_ratio_is_exact_witness :
  exists amounts s',
    find_baseline_amounts module_config (uniform_world []) fresh
      = (Ok amounts, s') /\
    exists m small medium large,
      min_by_total (language_data module_config) = Ok m /\
      amounts = [("small"%string, small); ("medium"%string, medium);
                 ("large"%string, large)] /\
      Split.chars_per_lang medium = total (snd m) /\
      Split.chars_per_lang large = total (snd m) /\
      Split.chars_per_lang small <= total (snd m) /\
      scaled_chars (2 ^ 53 + 1) PyFloat.lit_1_0 = Ok (2 ^ 53).
Proof.
  assert (Hrun : find_baseline_amounts module_config (uniform_world []) fresh
                 = (fst (find_baseline_amounts module_config
                           (uniform_world []) fresh),
                    snd (find_baseline_amounts module_config
                           (uniform_world []) fresh)))
    by (destruct (find_baseline_amounts _ _ _); reflexivity).
  assert (Hok : fst (find_baseline_amounts module_config
                       (uniform_world []) fresh)
                = Ok [ ("small"%string,
                        Split.mk 11398357 "final_balanced_small.txt"
                                 102585213 "yo");
                       ("medium"%string,
                        Split.mk 12664842 "final_balanced_medium.txt"
                                 113983578 "yo");
                       ("large"%string,
                        Split.mk 12664842 "final_balanced_large.txt"
                                 113983578 "yo") ])
    by (vm_compute; reflexivity).
  rewrite Hok in Hrun.
  eexists. eexists. split; [exact Hrun|].
  refine (full_ratio_is_exact (R := rotating_random) module_config
            (uniform_world []) fresh _ _ Hrun _).
  repeat (constructor; [cbn; lia|]). constructor.
Defined.

Lemma scaled_chars_nine_tenths (n : Z) :
  0 <= n <= 2 ^ 48 -> scaled_chars n PyFloat.lit_0_9 = Ok (9 * n / 10).
Proof.
  intros Hn.
  destruct (Z.eq_dec n 0) as [->|Hne]; [vm_compute; reflexivity|].
  unfold scaled_chars, PyFloat.int_mul, PyFloat.of_int.
  rewrite round_exact by (unfold PyFloat.emin; lia).
  rewrite small_value_finite by lia. cbn [rbind].
  unfold PyFloat.mul, PyFloat.lit_0_9. cbn [PyFloat.mant PyFloat.expo].
  cbn [Z.add].
  set (x := n * 8106479329266893).
  assert (Hx : 2 ^ 52 <= x < 2 ^ 101) by (subst x; lia).
  rewrite (round_finite (-53) x (-53)) by lia.
  cbn [PyFloat.to_int]. f_equal.
  assert (HK : 10 * (9 * n / 10) <= 9 * n < 10 * (9 * n / 10) + 10).
  { pose proof (Z.div_mod (9 * n) 10 ltac:(lia)).
    pose proof (Z.mod_pos_bound (9 * n) 10 ltac:(lia)). lia. }
  set (K := 9 * n / 10) in *. clearbody K.
  assert (HL : 52 <= Z.log2 x <= 100).
  { split.
    - apply Z.log2_le_pow2; lia.
    - apply Z.lt_succ_r. apply Z.log2_lt_pow2; lia. }
  pose proof (Z.log2_spec x ltac:(lia)) as [Hlow _].
  unfold PyFloat.round. rewrite Z.abs_eq by lia.
  rewrite Z.sgn_pos by lia.
  unfold PyFloat.round_mag, PyFloat.emin.
  rewrite Z.max_l by lia.
  destruct (Z.leb_spec (-53 + Z.log2 x - 52) (-53)) as [Hexact|Hround].
  - unfold PyFloat.truncate. cbn [PyFloat.mant PyFloat.expo].
    cbn [Z.leb Z.compare Z.opp]. rewrite Z.mul_1_l.
    rewrite Z.quot_div_nonneg by lia.
    symmetry. apply Z.div_unique with (r := x - 2 ^ 53 * K).
    + left. subst x. lia.
    + lia.
  - set (s := Z.log2 x - 52) in *.
    replace (-53 + Z.log2 x - 52 - -53) with s by (subst s; lia).
    replace (-53 + Z.log2 x - 52) with (s - 53) by (subst s; lia).
    assert (Hs : 0 < s <= 48) by (subst s; lia).
    pose proof (pow2_pos s ltac:(lia)) as HS.
    pose proof (pow2_pos (53 - s) ltac:(lia)) as HT.
    assert (HTS : 2 ^ (53 - s) * 2 ^ s = 2 ^ 53)
      by (rewrite <- pow2_split by lia; f_equal; lia).
    assert (HSn : 2 ^ s < 2 * n).
    { assert (Hsplit : 2 ^ Z.log2 x = 2 ^ s * 2 ^ 52)
        by (rewrite <- pow2_split by lia; f_equal; subst s; lia).
      subst x. lia. }
    assert (Hlo : K * 2 ^ (53 - s) <= PyFloat.round_half_even x s).
    { apply round_half_even_lower; [lia|].
      rewrite <- Z.mul_assoc, HTS. subst x. lia. }
    assert (Hhi : PyFloat.round_half_even x s <= (K + 1) * 2 ^ (53 - s) - 1).
    { apply round_half_even_upper; [lia|].
      rewrite Z.mul_sub_distr_r, <- Z.mul_assoc, HTS. subst x. lia. }
    unfold PyFloat.truncate. cbn [PyFloat.mant PyFloat.expo].
    rewrite Z.mul_1_l.
    destruct (Z.leb_spec 0 (s - 53)) as [|_]; [lia|].
    replace (- (s - 53)) with (53 - s) by lia.
    rewrite Z.quot_div_nonneg by lia.
    apply Z.le_antisymm.
    + apply Z.lt_succ_r. apply Z.div_lt_upper_bound; lia.
    + apply Z.div_le_lower_bound; lia.
Qed.

(** X14. For a table whose least total [n] is between 0 and 2^48 the
    "small" target is exactly [9 * n // 10]: the float product with the
    literal 0.9, which is slightly above nine tenths, truncates to the
    integer quotient. *)
Theorem small_ratio_is_floor {R : Random} cfg w (s : state) amounts s' :
  find_baseline_amounts cfg w s = (Ok amounts, s') ->
  Forall (fun e => 0 <= total (snd e) <= 2 ^ 48) (language_data cfg) ->
  exists m small,
    min_by_total (language_data cfg) = Ok m /\
    dict_find amounts "small" = Some small /\
    Split.chars_per_lang small = 9 * total (snd m) / 10 /\
    Split.total_chars small = 9 * total (snd m) / 10 * len (languages cfg).
Proof.
  intros Hrun Hrange.
  destruct (find_baseline_amounts_run cfg w s amounts s' Hrun)
    as [m [a [b [Hmin [Ha [Hb [-> _]]]]]]].
  pose proof (min_by_total_in _ _ Hmin) as Hin.
  rewrite Forall_forall in Hrange. specialize (Hrange m Hin).
  rewrite scaled_chars_nine_tenths in Ha by exact Hrange. injection Ha as <-.
  eexists. eexists.
  split; [exact Hmin|]. split; [reflexivity|].
  split; reflexivity.
Qed.

Lemma small_ratio_is_floor_witness :
  exists amounts s',
    find_baseline_amounts module_config (uniform_world []) fresh
      = (Ok amounts, s') /\
    exists m small,
      min_by_total (language_data module_config) = Ok m /\
      dict_find amounts "small" = Some small /\
      Split.chars_per_lang small = 9 * total (snd m) / 10 /\
      Split.total_chars small =
        9 * total (snd m) / 10 * len (languages module_config).
Proof.
  assert (Hrun : find_baseline_amounts module_config (uniform_world []) fresh
                 = (fst (find_baseline_amounts module_config
                           (uniform_world []) fresh),
                    snd (find_baseline_amounts module_config
                           (uniform_world []) fresh)))
    by (destruct (find_baseline_amounts _ _ _); reflexivity).
  assert (Hok : fst (find_baseline_amounts module_config
                       (uniform_world []) fresh)
                = Ok [ ("small"%string,
                        Split.mk 11398357 "final_balanced_small.txt"
                                 102585213 "yo");
                       ("medium"%string,
                        Split.mk 12664842 "final_balanced_medium.txt"
                                 113983578 "yo");
                       ("large"%string,
                        Split.mk 12664842 "final_balanced_large.txt"
                                 113983578 "yo") ])
    by (vm_compute; reflexivity).
  rewrite Hok in Hrun.
  eexists. eexists. split; [exact Hrun|].
  refine (small_ratio_is_floor (R := rotating_random) module_config
            (uniform_world []) fresh _ _ Hrun _).
  repeat (constructor; [cbn; lia|]). constructor.
Defined.

(** ** The driver *)

Section Driver.
Context {R : Random}.

Lemma bind_ok {A B : Type} (c : M A) (k : A -> M B) w (s s' : state) a :
  c w s = (Ok a, s') -> bind c k w s = k a w s'.
Proof. intros H. unfold bind. rewrite H. reflexivity. Qed.

Lemma reports_ret {A : Type} (a : A) : reports (ret a).
Proof. intros w s. exists a, []. rewrite say_nil. reflexivity. Qed.

Lemma reports_print m : reports (print m).
Proof. intros w s. exists tt, [m]. apply print_run. Qed.

Lemma reports_bind {A B : Type} (c : M A) (k : A -> M B) :
  reports c -> (forall a, reports (k a)) -> reports (bind c k).
Proof.
  intros Hc Hk w s. destruct (Hc w s) as [a [log Hrun]].
  destruct (Hk a w (say log s)) as [b [log' Hrun']].
  exists b, (log ++ log'). rewrite (bind_ok _ _ _ _ _ _ Hrun), Hrun', say_say.
  reflexivity.
Qed.

Lemma reports_for_each {A S : Type} (l : list A) (body : S -> A -> M S) :
  (forall acc x, reports (body acc x)) ->
  forall acc, reports (for_each l body acc).
Proof.
  intros Hbody. induction l as [|x l IH]; intros acc; cbn [for_each].
  - apply reports_ret.
  - apply reports_bind; [apply Hbody|exact IH].
Qed.

Lemma reports_written_content path : reports (written_content path).
Proof.
  intros w s. eexists. exists []. rewrite say_nil. reflexivity.
Qed.

Lemma reports_print_breakdown cfg file_stats :
  reports (print_breakdown cfg file_stats).
Proof.
  unfold print_breakdown.
  apply reports_bind; [apply reports_print|]. intros _.
  apply reports_bind.
  - apply reports_for_each. intros sums lang.
    destruct (dict_find _ lang).
    + apply reports_bind; [apply reports_print|]. intros _. apply reports_ret.
    + apply reports_ret.
  - intros sums. apply reports_bind; [apply reports_print|]. intros _.
    apply reports_print.
Qed.

(** The report returns when the first file's baseline is in the table. *)
Lemma reports_print_detailed_statistics cfg all_file_stats :
  Forall (fun fs => listed cfg (FileStats.baseline_lang fs)) all_file_stats ->
  reports (print_detailed_statistics cfg all_file_stats).
Proof.
  intros Hall. unfold print_detailed_statistics.
  apply reports_bind; [apply reports_print|]. intros _.
  apply reports_bind.
  { destruct all_file_stats as [|first rest]; [apply reports_ret|].
    apply Forall_inv in Hall. unfold listed in Hall. unfold dict_get.
    destruct (dict_find (language_data cfg) (FileStats.baseline_lang first))
      as [entry|]; [|congruence].
    intros w s. unfold bind, lift. apply reports_print. }
  intros _.
  apply reports_bind; [apply reports_print|]. intros _.
  apply reports_bind.
  { apply reports_for_each. intros acc x. apply reports_print. }
  intros _. apply reports_for_each. intros acc x.
  apply reports_print_breakdown.
Qed.

Lemma save_statistics_to_file_run cfg all_file_stats w (s : state) :
  save_statistics_to_file cfg all_file_stats w s =
  (Ok tt,
   State (stdout s
            ++ [StatisticsSavedTo
                  (path_join OUTPUT_DIR "balanced_statistics.csv")])
         (generator s)
         (written s
            ++ [(path_join OUTPUT_DIR "balanced_statistics.csv",
                 CsvFile (flat_map (csv_rows_of cfg) all_file_stats))])).
Proof. reflexivity. Qed.

(** After the loop over the plans: the report, then the CSV, then the
    closing lines, whatever the list of files. *)
Lemma report_and_save_run cfg all_file_stats w (s : state) :
  Forall (fun fs => listed cfg (FileStats.baseline_lang fs)) all_file_stats ->
  exists log1 log2,
    report_and_save cfg all_file_stats w s =
    (Ok tt,
     State (stdout s ++ log1
              ++ Line "All balanced files created successfully!" :: log2)
           (generator s)
           (written s
              ++ [(path_join OUTPUT_DIR "balanced_statistics.csv",
                   CsvFile (flat_map (csv_rows_of cfg) all_file_stats))])).
Proof.
  intros Hall. unfold report_and_save.
  destruct (reports_print_detailed_statistics cfg all_file_stats Hall w s)
    as [[] [log Hreport]].
  rewrite (bind_ok _ _ _ _ _ _ Hreport).
  rewrite (bind_ok _ _ _ _ _ _ (save_statistics_to_file_run cfg _ w _)).
  rewrite (bind_ok _ _ _ _ _ _ (print_run _ w _)).
  match goal with
  | |- exists _ _, bind ?c ?k w ?s0 = _ =>
      assert (Hloop : reports c);
      [|destruct (Hloop w s0) as [[] [log' Hrun]];
        rewrite (bind_ok _ _ _ _ _ _ Hrun)]
  end.
  { apply reports_for_each. intros acc fs.
    apply reports_bind; [apply reports_written_content|].
    intros [[text|rows]|]; [apply reports_print|apply reports_ret
                            |apply reports_ret]. }
  rewrite (bind_ok _ _ _ _ _ _ (print_run _ w _)), print_run.
  exists (log ++ [StatisticsSavedTo
                    (path_join OUTPUT_DIR "balanced_statistics.csv")]),
         (log' ++ [Line "Perfect multilingual balance achieved!";
                   Line "Every language contributes exactly the same amount in each file."]).
  unfold say. cbn [stdout generator written].
  rewrite <- !app_assoc. reflexivity.
Qed.

(** [main] once both source directories are found. *)
Lemma main_run cfg w (s : state) :
  path_exists w WIKI_DIR = true -> path_exists w OSCAR_DIR = true ->
  main cfg w s =
  match find_baseline_amounts cfg w
          (State (stdout s
                    ++ [Line "Multilingual Data Merger - Balanced Approach";
                        Line "Using lowest available language as baseline for perfect balance"])
                 (random_seed 42) (written s)) with
  | (Raise e, s1) => (Raise e, s1)
  | (Ok baseline_configs, s1) =>
      match for_each baseline_configs (process_split cfg) [] w s1 with
      | (Raise e, s2) => (Raise e, s2)
      | (Ok all_file_stats, s2) => report_and_save cfg all_file_stats w s2
      end
  end.
Proof.
  intros Hwiki Hoscar. unfold main.
  unfold bind at 1. rewrite print_run.
  unfold bind at 1. rewrite print_run.
  unfold bind at 1. unfold os_path_exists at 1. rewrite Hwiki. cbn [negb].
  unfold bind at 1. unfold os_path_exists at 1. rewrite Hoscar. cbn [negb].
  unfold bind at 1. unfold seed at 1.
  rewrite say_say. cbn [say stdout generator written app].
  unfold bind at 1.
  destruct (find_baseline_amounts cfg w _) as [[configs|e] s1]; [|reflexivity].
  unfold bind at 1. fold (process_split cfg).
  destruct (for_each configs _ [] w s1) as [[all|e] s2]; reflexivity.
Qed.

Lemma process_split_run cfg all_file_stats split_name config w (s : state) :
  process_split cfg all_file_stats (split_name, config) w s =
  match create_balanced_file cfg config w (say [ProcessingSplit split_name] s)
  with
  | (Ok file_stats, s') => (Ok (all_file_stats ++ [file_stats]), s')
  | (Raise e, s') =>
      (Ok all_file_stats, say [ErrorCreating (Split.filename config) e] s')
  end.
Proof.
  unfold process_split, try_except.
  unfold bind at 1. rewrite print_run. unfold bind at 1.
  destruct (create_balanced_file cfg config w _) as [[fs|e] s'].
  - reflexivity.
  - unfold bind. rewrite print_run. reflexivity.
Qed.

(** A turn of the loop always returns: with one more entry and one more
    text file, or with neither. *)
Lemma process_split_cases cfg all_file_stats split_name config w (s : state) :
  exists s' text added,
    process_split cfg all_file_stats (split_name, config) w s
      = (Ok (all_file_stats ++ added), s') /\
    written s' = written s ++ optional_file (Split.filename config) text /\
    map output_path_of added
      = map fst (optional_file (Split.filename config) text) /\
    Forall (fun fs => FileStats.baseline_lang fs = Split.baseline_lang config)
           added.
Proof.
  rewrite process_split_run, create_balanced_file_run.
  destruct (prints_only_for_each (languages cfg)
              (collect_language cfg (Split.chars_per_lang config))
              (prints_only_collect_language cfg (Split.chars_per_lang config))
              (Collect [] [] 0) w) as [r [log Hloop]].
  rewrite Hloop. destruct r as [acc|e].
  - cbv zeta. eexists. eexists (Some _). eexists [_].
    split; [reflexivity|]. cbn [written say optional_file map fst].
    split; [reflexivity|]. split; [reflexivity|].
    constructor; [reflexivity|constructor].
  - eexists. exists None, []. rewrite app_nil_r.
    split; [reflexivity|]. cbn [written say optional_file map app].
    rewrite app_nil_r. repeat split. constructor.
Qed.

Lemma dict_find_in {V : Type} (d : dict V) k v :
  In (k, v) d -> dict_find d k <> None.
Proof.
  induction d as [|[k' v'] d IH]; [contradiction|].
  intros [Heq|Hin]; cbn [dict_find].
  - injection Heq as -> ->. rewrite String.eqb_refl. discriminate.
  - destruct (String.eqb k' k); [discriminate|exact (IH Hin)].
Qed.

End Driver.

(** X15. As soon as one of the two source directories is missing, [main]
    prints an error naming the first missing one and returns: nothing is
    written, the generator is not seeded, and the tables are not looked at,
    so that not even an empty [LANGUAGE_DATA] raises. *)
Theorem main_missing_directory {R : Random} cfg w (s : state) :
  path_exists w WIKI_DIR = false \/ path_exists w OSCAR_DIR = false ->
  exists s' dir,
    main cfg w s = (Ok tt, s') /\
    written s' = written s /\ generator s' = generator s /\
    path_exists w dir = false /\
    (dir = WIKI_DIR \/ path_exists w WIKI_DIR = true /\ dir = OSCAR_DIR) /\
    last (stdout s') (Line "") = ErrorDirectory dir.
Proof.
  intros Hmissing. unfold main.
  unfold bind at 1. rewrite print_run.
  unfold bind at 1. rewrite print_run.
  unfold bind at 1. unfold os_path_exists at 1.
  destruct (path_exists w WIKI_DIR) eqn:Hwiki; cbn [negb].
  - destruct Hmissing as [|Hoscar]; [discriminate|].
    unfold bind at 1. unfold os_path_exists at 1. rewrite Hoscar. cbn [negb].
    rewrite print_run, !say_say. eexists. exists OSCAR_DIR.
    split; [reflexivity|]. cbn [say written generator stdout].
    repeat split; try assumption.
    + right. split; reflexivity.
    + rewrite !app_assoc. apply last_last.
  - rewrite print_run, !say_say. eexists. exists WIKI_DIR.
    split; [reflexivity|]. cbn [say written generator stdout].
    repeat split; try assumption.
    + left. reflexivity.
    + rewrite !app_assoc. apply last_last.
Qed.

Lemma main_missing_directory_witness :
  (path_exists bare_world WIKI_DIR = false
   \/ path_exists bare_world OSCAR_DIR = false) /\
  exists s' dir,
    main (Config LANGUAGES []) bare_world fresh = (Ok tt, s') /\
    written s' = written fresh /\ generator s' = generator fresh /\
    path_exists bare_world dir = false /\
    (dir = WIKI_DIR
     \/ path_exists bare_world WIKI_DIR = true /\ dir = OSCAR_DIR) /\
    last (stdout s') (Line "") = ErrorDirectory dir.
Proof.
  split; [left; reflexivity|].
  apply (main_missing_directory (R := rotating_random) (Config LANGUAGES [])
           bare_world fresh).
  left. reflexivity.
Defined.

(** The three plans, once the calculator has returned on a usable table. *)
Lemma baseline_plans {R : Random} cfg w (s : state) :
  language_data cfg <> [] ->
  Forall (fun e => 0 <= total (snd e) <= 2 ^ 1023) (language_data cfg) ->
  exists m small medium s',
    find_baseline_amounts cfg w s =
      (Ok [ ("small"%string,
             Split.mk small "final_balanced_small.txt"
                      (small * len (languages cfg)) (fst m));
            ("medium"%string,
             Split.mk medium "final_balanced_medium.txt"
                      (medium * len (languages cfg)) (fst m));
            ("large"%string,
             Split.mk medium "final_balanced_large.txt"
                      (medium * len (languages cfg)) (fst m)) ], s') /\
    In m (language_data cfg) /\
    generator s' = generator s /\ written s' = written s.
Proof.
  intros Hne Hrange.
  destruct (find_baseline_amounts_returns cfg w s Hne Hrange)
    as [small [medium [large [s' [Hrun _]]]]].
  destruct (find_baseline_amounts_run cfg w s _ s' Hrun)
    as [m [a [b [Hmin [_ [_ [Heq [Hg Hw]]]]]]]].
  rewrite Heq in Hrun. exists m, a, b, s'.
  split; [exact Hrun|]. split; [exact (min_by_total_in _ _ Hmin)|].
  split; [exact Hg|exact Hw].
Qed.

(** X16. Once both source directories are found and the table can be used
    (not empty, totals between 0 and 2^1023), [main] always returns: a
    split whose assembly raises is skipped, whatever the exception.  It
    writes at most the three text files, in the order small, medium, large,
    and then always the CSV, whose rows are those of the files that were
    written; the closing success line is printed in every case. *)
Theorem main_catches_split_failures {R : Random} cfg w (s : state) :
  path_exists w WIKI_DIR = true -> path_exists w OSCAR_DIR = true ->
  language_data cfg <> [] ->
  Forall (fun e => 0 <= total (snd e) <= 2 ^ 1023) (language_data cfg) ->
  exists s' small medium large all_file_stats,
    main cfg w s = (Ok tt, s') /\
    written s' =
      written s
        ++ (optional_file "final_balanced_small.txt" small
              ++ optional_file "final_balanced_medium.txt" medium
              ++ optional_file "final_balanced_large.txt" large)
        ++ [(path_join OUTPUT_DIR "balanced_statistics.csv",
             CsvFile (flat_map (csv_rows_of cfg) all_file_stats))] /\
    map output_path_of all_file_stats =
      map fst (optional_file "final_balanced_small.txt" small
                 ++ optional_file "final_balanced_medium.txt" medium
                 ++ optional_file "final_balanced_large.txt" large) /\
    In (Line "All balanced files created successfully!") (stdout s').
Proof.
  intros Hwiki Hoscar Hne Hrange.
  rewrite (main_run cfg w s Hwiki Hoscar).
  destruct (baseline_plans cfg w
              (State (stdout s
                        ++ [Line "Multilingual Data Merger - Balanced Approach";
                            Line "Using lowest available language as baseline for perfect balance"])
                     (random_seed 42) (written s)) Hne Hrange)
    as [m [a [b [s1 [Hplans [Hin [_ Hw1]]]]]]].
  rewrite Hplans. cbn [written] in Hw1. cbn [for_each].
  match goal with
  | |- context [bind (process_split cfg ?all (?n, ?c)) _ w ?st] =>
      destruct (process_split_cases cfg all n c w st)
        as [s2 [t1 [add1 [H1 [W1 [P1 F1]]]]]]
  end.
  rewrite (bind_ok _ _ _ _ _ _ H1).
  match goal with
  | |- context [bind (process_split cfg ?all (?n, ?c)) _ w ?st] =>
      destruct (process_split_cases cfg all n c w st)
        as [s3 [t2 [add2 [H2 [W2 [P2 F2]]]]]]
  end.
  rewrite (bind_ok _ _ _ _ _ _ H2).
  match goal with
  | |- context [bind (process_split cfg ?all (?n, ?c)) _ w ?st] =>
      destruct (process_split_cases cfg all n c w st)
        as [s4 [t3 [add3 [H3 [W3 [P3 F3]]]]]]
  end.
  rewrite (bind_ok _ _ _ _ _ _ H3). unfold ret at 1.
  cbn [Split.filename Split.baseline_lang] in *.
  assert (Hlisted : Forall (fun fs => listed cfg (FileStats.baseline_lang fs))
                           ((([] ++ add1) ++ add2) ++ add3)).
  { assert (Hm : listed cfg (fst m)).
    { destruct m as [k v]. exact (dict_find_in _ _ _ Hin). }
    rewrite !Forall_app. repeat split; [constructor| | |];
      (eapply Forall_impl; [|eassumption]);
      intros fs Hfs; cbn beta in Hfs; rewrite Hfs; exact Hm. }
  destruct (report_and_save_run cfg _ w s4 Hlisted) as [log1 [log2 Hend]].
  rewrite Hend. eexists. exists t1, t2, t3. eexists.
  split; [reflexivity|]. cbn [written stdout].
  split; [|split].
  - rewrite W3, W2, W1, Hw1, <- !app_assoc. reflexivity.
  - rewrite !map_app, P1, P2, P3. reflexivity.
  - rewrite !in_app_iff. right. right. left. reflexivity.
Qed.

Lemma main_catches_split_failures_witness :
  (path_exists (uniform_world [97]%N) WIKI_DIR = true /\
   path_exists (uniform_world [97]%N) OSCAR_DIR = true /\
   language_data gap_config <> [] /\
   Forall (fun e => 0 <= total (snd e) <= 2 ^ 1023)
          (language_data gap_config)) /\
  exists s' small medium large all_file_stats,
    main gap_config (uniform_world [97]%N) fresh = (Ok tt, s') /\
    written s' =
      written fresh
        ++ (optional_file "final_balanced_small.txt" small
              ++ optional_file "final_balanced_medium.txt" medium
              ++ optional_file "final_balanced_large.txt" large)
        ++ [(path_join OUTPUT_DIR "balanced_statistics.csv",
             CsvFile (flat_map (csv_rows_of gap_config) all_file_stats))] /\
    map output_path_of all_file_stats =
      map fst (optional_file "final_balanced_small.txt" small
                 ++ optional_file "final_balanced_medium.txt" medium
                 ++ optional_file "final_balanced_large.txt" large) /\
    In (Line "All balanced files created successfully!") (stdout s').
Proof.
  assert (Hrange : Forall (fun e => 0 <= total (snd e) <= 2 ^ 1023)
                          (language_data gap_config)).
  { repeat (constructor; [cbn; lia|]). constructor. }
  split; [split; [reflexivity|split; [reflexivity|split;
                    [discriminate|exact Hrange]]]|].
  apply (main_catches_split_failures (R := rotating_random) gap_config
           (uniform_world [97]%N) fresh eq_refl eq_refl);
    [discriminate|exact Hrange].
Defined.

(** A turn of the loop of [main] when a language is not in the table. *)
Lemma process_split_unlisted {R : Random} cfg all_file_stats split_name config
      w (s : state) known lang rest :
  languages cfg = known ++ lang :: rest ->
  Forall (listed cfg) known ->
  dict_find (language_data cfg) lang = None ->
  exists log,
    process_split cfg all_file_stats (split_name, config) w s =
    (Ok all_file_stats,
     say (log ++ [ErrorCreating (Split.filename config) (KeyError lang)]) s).
Proof.
  intros Hlangs Hknown Hnone.
  rewrite process_split_run, create_balanced_file_run, Hlangs.
  rewrite (collect_loop_unlisted cfg _ w known lang rest _ _ Hknown Hnone).
  rewrite !say_say, !app_assoc. eexists. reflexivity.
Qed.

(** X17. When [LANGUAGES] names a language that [LANGUAGE_DATA] does not
    list, every split fails with the same [KeyError], caught by [main]: no
    text file is written, the CSV is written with no row, and [main] still
    returns and prints its success line. *)
Theorem main_reports_success_without_files {R : Random} cfg w (s : state)
        known lang rest :
  path_exists w WIKI_DIR = true -> path_exists w OSCAR_DIR = true ->
  language_data cfg <> [] ->
  Forall (fun e => 0 <= total (snd e) <= 2 ^ 1023) (language_data cfg) ->
  languages cfg = known ++ lang :: rest ->
  Forall (listed cfg) known ->
  dict_find (language_data cfg) lang = None ->
  exists s',
    main cfg w s = (Ok tt, s') /\
    written s' =
      written s ++ [(path_join OUTPUT_DIR "balanced_statistics.csv",
                     CsvFile [])] /\
    generator s' = random_seed 42 /\
    (forall filename,
        In filename [ "final_balanced_small.txt"; "final_balanced_medium.txt";
                      "final_balanced_large.txt" ]%string ->
        In (ErrorCreating filename (KeyError lang)) (stdout s')) /\
    In (Line "All balanced files created successfully!") (stdout s').
Proof.
  intros Hwiki Hoscar Hne Hrange Hlangs Hknown Hnone.
  rewrite (main_run cfg w s Hwiki Hoscar).
  destruct (baseline_plans cfg w
              (State (stdout s
                        ++ [Line "Multilingual Data Merger - Balanced Approach";
                            Line "Using lowest available language as baseline for perfect balance"])
                     (random_seed 42) (written s)) Hne Hrange)
    as [m [a [b [s1 [Hplans [Hin [Hg1 Hw1]]]]]]].
  rewrite Hplans. cbn [written generator] in Hw1, Hg1. cbn [for_each].
  match goal with
  | |- context [bind (process_split cfg ?all (?n, ?c)) _ w ?st] =>
      destruct (process_split_unlisted cfg all n c w st known lang rest
                  Hlangs Hknown Hnone) as [l1 H1]
  end.
  rewrite (bind_ok _ _ _ _ _ _ H1).
  match goal with
  | |- context [bind (process_split cfg ?all (?n, ?c)) _ w ?st] =>
      destruct (process_split_unlisted cfg all n c w st known lang rest
                  Hlangs Hknown Hnone) as [l2 H2]
  end.
  rewrite (bind_ok _ _ _ _ _ _ H2).
  match goal with
  | |- context [bind (process_split cfg ?all (?n, ?c)) _ w ?st] =>
      destruct (process_split_unlisted cfg all n c w st known lang rest
                  Hlangs Hknown Hnone) as [l3 H3]
  end.
  rewrite (bind_ok _ _ _ _ _ _ H3). unfold ret at 1.
  cbn [Split.filename] in *.
  match goal with
  | |- context [report_and_save cfg [] w ?st] =>
      destruct (report_and_save_run cfg [] w st (Forall_nil _))
        as [log1 [log2 Hend]]
  end.
  rewrite Hend. eexists. split; [reflexivity|].
  cbn [written generator stdout say flat_map].
  split; [rewrite Hw1; reflexivity|]. split; [exact Hg1|]. split.
  - intros filename Hname. rewrite !in_app_iff. cbn [In] in *.
    destruct Hname as [<-|[<-|[<-|[]]]]; auto 12.
  - rewrite !in_app_iff. cbn [In]. auto 12.
Qed.

Lemma main_reports_success_without_files_witness :
  (path_exists (uniform_world [97]%N) WIKI_DIR = true /\
   path_exists (uniform_world [97]%N) OSCAR_DIR = true /\
   language_data gap_config <> [] /\
   Forall (fun e => 0 <= total (snd e) <= 2 ^ 1023)
          (language_data gap_config) /\
   languages gap_config = ["yo"%string] ++ "xx"%string :: ["ar"%string] /\
   Forall (listed gap_config) ["yo"%string] /\
   dict_find (language_data gap_config) "xx" = None) /\
  exists s',
    main gap_config (uniform_world [97]%N) fresh = (Ok tt, s') /\
    written s' =
      written fresh ++ [(path_join OUTPUT_DIR "balanced_statistics.csv",
                         CsvFile [])] /\
    generator s' = random_seed (Random := rotating_random) 42 /\
    (forall filename,
        In filename [ "final_balanced_small.txt"; "final_balanced_medium.txt";
                      "final_balanced_large.txt" ]%string ->
        In (ErrorCreating filename (KeyError "xx")) (stdout s')) /\
    In (Line "All balanced files created successfully!") (stdout s').
Proof.
  assert (Hrange : Forall (fun e => 0 <= total (snd e) <= 2 ^ 1023)
                          (language_data gap_config)).
  { repeat (constructor; [cbn; lia|]). constructor. }
  assert (Hknown : Forall (listed gap_config) ["yo"%string]).
  { constructor; [|constructor]. unfold listed. cbn. discriminate. }
  split.
  { split; [reflexivity|]. split; [reflexivity|]. split; [discriminate|].
    split; [exact Hrange|]. split; [reflexivity|].
    split; [exact Hknown|reflexivity]. }
  apply (main_reports_success_without_files (R := rotating_random) gap_config
           (uniform_world [97]%N) fresh ["yo"%string] "xx"%string
           ["ar"%string] eq_refl eq_refl);
    [discriminate|exact Hrange|reflexivity|exact Hknown|reflexivity].
Defined.

(** The rows of two files assembled for the same target differ in the file
    name only. *)
Lemma rows_for_renamed cfg w filename filename' baseline n :
  rows_for cfg w filename' baseline n
  = map (with_file filename') (rows_for cfg w filename baseline n).
Proof.
  unfold rows_for.
  generalize (stats_after cfg w n [] (languages cfg)). intros stats.
  induction (languages cfg) as [|lang langs IH]; [reflexivity|].
  cbn [flat_map]. rewrite map_app, IH. f_equal.
  destruct (dict_find stats lang); reflexivity.
Qed.

(** X18. When every language of [LANGUAGES] is listed (and the directories
    and the table are as [main] needs them), [main] writes exactly four
    files, in this order: the small, the medium and the large text file and
    the CSV.  With [m] the baseline entry, [n_small = int(total * 0.9)] and
    [n = int(total * 1.0)]: the small file is the blocks of the target
    [n_small] in the order the generator seeded with 42 shuffles them; the
    medium and the large file are both the blocks of the target [n],
    shuffled with the generator as the previous shuffle left it; the CSV
    holds the rows of the small file, of the medium file and of the large
    file, in this order, each language with the statistics of its target.
    So the rows of the large file are those of the medium file under the
    other file name, and under the permutation contract of the shuffle the
    medium and the large file are the same blocks in two orders and have
    the same length. *)
Theorem main_writes_three_files {R : Random} cfg w (s : state) :
  path_exists w WIKI_DIR = true -> path_exists w OSCAR_DIR = true ->
  language_data cfg <> [] ->
  Forall (fun e => 0 <= total (snd e) <= 2 ^ 1023) (language_data cfg) ->
  Forall (listed cfg) (languages cfg) ->
  (forall g l, Permutation l (fst (random_shuffle g l))) ->
  exists s' m n_small n,
    min_by_total (language_data cfg) = Ok m /\
    scaled_chars (total (snd m)) PyFloat.lit_0_9 = Ok n_small /\
    scaled_chars (total (snd m)) PyFloat.lit_1_0 = Ok n /\
    main cfg w s = (Ok tt, s') /\
    let blocks_small := flat_map (block_of cfg w n_small) (languages cfg) in
    let blocks := flat_map (block_of cfg w n) (languages cfg) in
    let shuffle_small := random_shuffle (random_seed 42) blocks_small in
    let shuffle_medium := random_shuffle (snd shuffle_small) blocks in
    let shuffle_large := random_shuffle (snd shuffle_medium) blocks in
    written s' =
      written s
        ++ [ (path_join OUTPUT_DIR "final_balanced_small.txt",
              TextFile (concat (fst shuffle_small)));
             (path_join OUTPUT_DIR "final_balanced_medium.txt",
              TextFile (concat (fst shuffle_medium)));
             (path_join OUTPUT_DIR "final_balanced_large.txt",
              TextFile (concat (fst shuffle_large)));
             (path_join OUTPUT_DIR "balanced_statistics.csv",
              CsvFile
                (rows_for cfg w "final_balanced_small.txt" (fst m) n_small
                   ++ rows_for cfg w "final_balanced_medium.txt" (fst m) n
                   ++ rows_for cfg w "final_balanced_large.txt" (fst m) n)) ]
    /\
    generator s' = snd shuffle_large /\
    rows_for cfg w "final_balanced_large.txt" (fst m) n
      = map (with_file "final_balanced_large.txt")
            (rows_for cfg w "final_balanced_medium.txt" (fst m) n) /\
    Permutation blocks_small (fst shuffle_small) /\
    Permutation blocks (fst shuffle_medium) /\
    Permutation (fst shuffle_medium) (fst shuffle_large) /\
    len (concat (fst shuffle_medium)) = len (concat (fst shuffle_large)).
Proof.
  intros Hwiki Hoscar Hne Hrange Hall Hperm.
  rewrite (main_run cfg w s Hwiki Hoscar).
  destruct (find_baseline_amounts_returns cfg w
              (State (stdout s
                        ++ [Line "Multilingual Data Merger - Balanced Approach";
                            Line "Using lowest available language as baseline for perfect balance"])
                     (random_seed 42) (written s)) Hne Hrange)
    as [small [medium [large [s1 [Hplans _]]]]].
  destruct (find_baseline_amounts_run cfg w _ _ s1 Hplans)
    as [m [a [b [Hmin [Ha [Hb [Heq [Hg1 Hw1]]]]]]]].
  rewrite Heq in Hplans. clear Heq small medium large.
  rewrite Hplans. cbn [written generator] in Hw1, Hg1. cbn [for_each].
  do 3 (erewrite bind_ok;
        [|rewrite process_split_run, (create_balanced_file_outcome _ _ _ _ Hall);
          reflexivity]).
  unfold ret at 1.
  match goal with
  | |- context [report_and_save cfg ?all w ?st] =>
      assert (Hlisted : Forall (fun fs => listed cfg (FileStats.baseline_lang fs))
                               all);
      [|destruct (report_and_save_run cfg all w st Hlisted)
          as [log1 [log2 Hend]]]
  end.
  { assert (Hm : listed cfg (fst m)).
    { pose proof (min_by_total_in _ _ Hmin) as Hin.
      destruct m as [k v]. exact (dict_find_in _ _ _ Hin). }
    repeat constructor; exact Hm. }
  rewrite Hend.
  cbn [amounts_for name Split.chars_per_lang Split.filename Split.total_chars
       Split.baseline_lang written generator stdout say app flat_map].
  rewrite app_nil_r, Hw1, Hg1, <- !app_assoc. cbn [app].
  assert (Hswap : Permutation
                    (fst (random_shuffle
                            (snd (random_shuffle (random_seed 42)
                                    (flat_map (block_of cfg w a)
                                              (languages cfg))))
                            (flat_map (block_of cfg w b) (languages cfg))))
                    (fst (random_shuffle
                            (snd (random_shuffle
                                    (snd (random_shuffle (random_seed 42)
                                            (flat_map (block_of cfg w a)
                                                      (languages cfg))))
                                    (flat_map (block_of cfg w b)
                                              (languages cfg))))
                            (flat_map (block_of cfg w b) (languages cfg))))).
  { etransitivity; [symmetry; apply Hperm|apply Hperm]. }
  eexists. exists m, a, b.
  split; [exact Hmin|]. split; [exact Ha|]. split; [exact Hb|].
  split; [reflexivity|]. cbv zeta. cbn [written generator].
  split; [reflexivity|]. split; [reflexivity|]. split; [apply rows_for_renamed|].
  split; [apply Hperm|]. split; [apply Hperm|]. split; [exact Hswap|].
  unfold len. f_equal. apply Permutation_concat_length. exact Hswap.
Qed.

Lemma main_writes_three_files_witness :
  (path_exists (uniform_world [97]%N) WIKI_DIR = true /\
   path_exists (uniform_world [97]%N) OSCAR_DIR = true /\
   language_data module_config <> [] /\
   Forall (fun e => 0 <= total (snd e) <= 2 ^ 1023)
          (language_data module_config) /\
   Forall (listed module_config) (languages module_config) /\
   (forall g l,
       Permutation l (fst (random_shuffle (Random := rotating_random) g l)))) /\
  exists s' m n_small n,
    min_by_total (language_data module_config) = Ok m /\
    scaled_chars (total (snd m)) PyFloat.lit_0_9 = Ok n_small /\
    scaled_chars (total (snd m)) PyFloat.lit_1_0 = Ok n /\
    main module_config (uniform_world [97]%N) fresh = (Ok tt, s') /\
    let blocks_small :=
      flat_map (block_of module_config (uniform_world [97]%N) n_small)
               (languages module_config) in
    let blocks :=
      flat_map (block_of module_config (uniform_world [97]%N) n)
               (languages module_config) in
    let shuffle_small :=
      random_shuffle (Random := rotating_random) (random_seed 42)
                     blocks_small in
    let shuffle_medium := random_shuffle (snd shuffle_small) blocks in
    let shuffle_large := random_shuffle (snd shuffle_medium) blocks in
    written s' =
      written fresh
        ++ [ (path_join OUTPUT_DIR "final_balanced_small.txt",
              TextFile (concat (fst shuffle_small)));
             (path_join OUTPUT_DIR "final_balanced_medium.txt",
              TextFile (concat (fst shuffle_medium)));
             (path_join OUTPUT_DIR "final_balanced_large.txt",
              TextFile (concat (fst shuffle_large)));
             (path_join OUTPUT_DIR "balanced_statistics.csv",
              CsvFile
                (rows_for module_config (uniform_world [97]%N)
                          "final_balanced_small.txt" (fst m) n_small
                   ++ rows_for module_config (uniform_world [97]%N)
                               "final_balanced_medium.txt" (fst m) n
                   ++ rows_for module_config (uniform_world [97]%N)
                               "final_balanced_large.txt" (fst m) n)) ]
    /\
    generator s' = snd shuffle_large /\
    rows_for module_config (uniform_world [97]%N)
             "final_balanced_large.txt" (fst m) n
      = map (with_file "final_balanced_large.txt")
            (rows_for module_config (uniform_world [97]%N)
                      "final_balanced_medium.txt" (fst m) n) /\
    Permutation blocks_small (fst shuffle_small) /\
    Permutation blocks (fst shuffle_medium) /\
    Permutation (fst shuffle_medium) (fst shuffle_large) /\
    len (concat (fst shuffle_medium)) = len (concat (fst shuffle_large)).
Proof.
  assert (Hrange : Forall (fun e => 0 <= total (snd e) <= 2 ^ 1023)
                          (language_data module_config)).
  { repeat (constructor; [cbn; lia|]). constructor. }
  assert (Hall : Forall (listed module_config) (languages module_config)).
  { repeat (constructor; [unfold listed; cbn; discriminate|]). constructor. }
  split.
  { split; [reflexivity|]. split; [reflexivity|]. split; [discriminate|].
    split; [exact Hrange|]. split; [exact Hall|].
    intros g l. apply rotate_permutation. }
  apply (main_writes_three_files (R := rotating_random) module_config
           (uniform_world [97]%N) fresh eq_refl eq_refl);
    [discriminate|exact Hrange|exact Hall|].
  intros g l. apply rotate_permutation.
Defined.

(** ** The crawl extractor *)

Lemma py_prefix_firstn {T : Type} (s : list T) (n : Z) :
  0 <= n -> py_prefix s n = firstn (Z.to_nat n) s.
Proof.
  intros Hn. unfold py_prefix, py_slice, clip_index.
  destruct (Z.ltb_spec 0 0); [lia|].
  destruct (Z.ltb_spec n 0); [lia|].
  pose proof (len_nonneg s).
  rewrite (Z.min_l 0) by lia. cbn [Z.to_nat skipn]. rewrite Z.sub_0_r.
  destruct (Z.le_ge_cases n (len s)) as [Hle|Hge].
  - rewrite Z.min_l by lia. reflexivity.
  - rewrite Z.min_r by lia. unfold len in *. rewrite Nat2Z.id.
    rewrite !firstn_all2; [reflexivity|lia|lia].
Qed.

Lemma concat_nonempty_nil {T : Type} (docs : list (list T)) :
  Forall (fun d => d <> []) docs -> concat docs = [] -> docs = [].
Proof.
  destruct docs as [|d docs]; [reflexivity|].
  intros Hall Hnil. apply Forall_inv in Hall. cbn [concat] in Hnil.
  apply app_eq_nil in Hnil. destruct Hnil as [Hd _]. contradiction.
Qed.

(** What the loop adds to the file and to the counters. *)
Lemma extract_loop_adds (limit_chars : Z) :
  forall dataset p,
    exists docs,
      ExtractOscar.file (ExtractOscar.extract_loop limit_chars dataset p)
        = ExtractOscar.file p ++ concat (map (fun d => d ++ [newline]) docs) /\
      ExtractOscar.total_chars (ExtractOscar.extract_loop limit_chars dataset p)
        = ExtractOscar.total_chars p + len (concat docs) /\
      ExtractOscar.doc_count (ExtractOscar.extract_loop limit_chars dataset p)
        = ExtractOscar.doc_count p + len docs /\
      Forall (fun d => d <> []) docs /\
      concat docs
        = firstn (Z.to_nat (limit_chars - ExtractOscar.total_chars p))
                 (concat (map strip dataset)).
Proof.
  induction dataset as [|sample rest IH]; intros p.
  - exists []. cbn. rewrite app_nil_r, !Z.add_0_r, firstn_nil.
    repeat split. constructor.
  - cbn [ExtractOscar.extract_loop map concat].
    destruct (strip sample) as [|c text'] eqn:Hstrip; cbn [is_empty].
    { exact (IH p). }
    rewrite <- Hstrip.
    assert (Hlen : 0 < len (strip sample)).
    { rewrite Hstrip. unfold len. cbn [length]. lia. }
    destruct (Z.leb_spec (limit_chars - ExtractOscar.total_chars p) 0)
      as [Hdone|Hmore].
    { exists []. cbn. rewrite app_nil_r, !Z.add_0_r.
      replace (Z.to_nat (limit_chars - ExtractOscar.total_chars p))
        with 0%nat by lia.
      repeat split. constructor. }
    set (remaining := limit_chars - ExtractOscar.total_chars p) in *.
    set (text := if remaining <? len (strip sample)
                 then py_prefix (strip sample) remaining else strip sample).
    assert (Htext : text = firstn (Z.to_nat remaining) (strip sample)).
    { subst text. destruct (Z.ltb_spec remaining (len (strip sample))).
      - apply py_prefix_firstn. lia.
      - rewrite firstn_all2; [reflexivity|]. unfold len in *. lia. }
    clearbody text.
    assert (Hlt : len text = Z.min remaining (len (strip sample))).
    { rewrite Htext. unfold len. rewrite length_firstn. lia. }
    assert (Hne : text <> []).
    { intros Hnil. rewrite Hnil in Hlt. unfold len in Hlt at 1.
      cbn [length] in Hlt. lia. }
    destruct (IH (ExtractOscar.Progress
                    (ExtractOscar.total_chars p + len text)
                    (ExtractOscar.doc_count p + 1)
                    (ExtractOscar.file p ++ text ++ [newline])))
      as [docs [Hfile [Htotal [Hcount [Hall Hdocs]]]]].
    cbn [ExtractOscar.total_chars ExtractOscar.doc_count ExtractOscar.file]
      in Hfile, Htotal, Hcount, Hdocs.
    exists (text :: docs). cbn [map concat].
    split; [rewrite Hfile, <- !app_assoc; reflexivity|].
    split; [rewrite Htotal; unfold len; rewrite length_app, Nat2Z.inj_add;
            ring|].
    split; [rewrite Hcount; unfold len; cbn [length];
            rewrite Nat2Z.inj_succ; ring|].
    split; [constructor; assumption|].
    rewrite Hdocs, firstn_app, <- Htext. f_equal. f_equal.
    unfold len in *. subst remaining. lia.
Qed.

(** X19. The loop of [extract_oscar_language], for any limit and any
    dataset that streams without error: the file is made of the documents
    written, each followed by one newline; the documents put end to end are
    the first [limit_chars] characters of the stripped sample texts put end
    to end; no document is empty; [total_chars] is the limit or the whole
    stripped length, whichever is smaller (0 for a negative limit); and the
    file holds [total_chars + doc_count] characters. *)
Theorem extract_oscar_language_cap (limit_chars : Z) (dataset : list str) :
  exists docs,
    ExtractOscar.file (ExtractOscar.extract_oscar_language limit_chars dataset)
      = concat (map (fun d => d ++ [newline]) docs) /\
    concat docs
      = firstn (Z.to_nat limit_chars) (concat (map strip dataset)) /\
    Forall (fun d => d <> []) docs /\
    ExtractOscar.doc_count
      (ExtractOscar.extract_oscar_language limit_chars dataset) = len docs /\
    ExtractOscar.total_chars
      (ExtractOscar.extract_oscar_language limit_chars dataset)
      = Z.max 0 (Z.min limit_chars (len (concat (map strip dataset)))) /\
    len (ExtractOscar.file
           (ExtractOscar.extract_oscar_language limit_chars dataset))
      = ExtractOscar.total_chars
          (ExtractOscar.extract_oscar_language limit_chars dataset)
        + ExtractOscar.doc_count
            (ExtractOscar.extract_oscar_language limit_chars dataset).
Proof.
  unfold ExtractOscar.extract_oscar_language.
  destruct (extract_loop_adds limit_chars dataset
              (ExtractOscar.Progress 0 0 []))
    as [docs [Hfile [Htotal [Hcount [Hall Hdocs]]]]].
  cbn [ExtractOscar.total_chars ExtractOscar.doc_count ExtractOscar.file app]
    in Hfile, Htotal, Hcount, Hdocs.
  rewrite Z.sub_0_r in Hdocs.
  exists docs. rewrite Hfile, Htotal, Hcount.
  split; [reflexivity|]. split; [exact Hdocs|]. split; [exact Hall|].
  split; [lia|]. split.
  - rewrite Hdocs. unfold len. rewrite length_firstn. lia.
  - clear. unfold len. induction docs as [|d docs IH]; [reflexivity|].
    cbn [map concat length]. rewrite !length_app. cbn [length]. lia.
Qed.

Example extract_oscar_language_run :
  ExtractOscar.extract_oscar_language 5
    [ [32; 97; 98; 10]; [32; 9]; [99; 100; 101; 102]; [103] ]%N
  = ExtractOscar.Progress 5 2 [97; 98; 10; 99; 100; 101; 10]%N.
Proof. vm_compute. reflexivity. Qed.

(** X20. The crawl files never reach the allocator under the names the
    extractor gives them: the extractor names a file after the language
    name (oscar_yoruba_50M.txt), the allocator looks for the language code
    (oscar_yo_50M.txt).  So when the crawl directory holds nothing but what
    the extractor wrote, the allocator finds no crawl file for any
    configured language and takes no crawl character, whatever the
    target. *)
Theorem crawl_files_not_found (w : world) (lang : string) (n : Z) :
  (forall l, In l LANGUAGES ->
             inputs w (oscar_file_of l) <> Missing ->
             exists name code,
               In (name, code) ExtractOscar.LANGUAGE_CODES /\
               oscar_file_of l = ExtractOscar.output_path name OSCAR_DIR) ->
  In lang LANGUAGES ->
  inputs w (oscar_file_of lang) = Missing /\
  exists text stats,
    allocation_of module_config w lang n = Ok (text, stats) /\
    LangStats.oscar_chars stats = 0 /\
    LangStats.total_chars stats = LangStats.wiki_chars stats.
Proof.
  intros Honly Hlang.
  assert (Hmissing : inputs w (oscar_file_of lang) = Missing).
  { destruct (inputs w (oscar_file_of lang)) eqn:Hfile; [reflexivity| |];
      exfalso;
      (destruct (Honly lang Hlang) as [name [code [Hin Heq]]];
       [rewrite Hfile; discriminate|]);
      cbn [LANGUAGES In] in Hlang; cbn [ExtractOscar.LANGUAGE_CODES In] in Hin;
      repeat (destruct Hlang as [<-|Hlang]; [|]);
      try contradiction;
      repeat (destruct Hin as [[= <- <-]|Hin]; [vm_compute in Heq; discriminate|]);
      contradiction. }
  split; [exact Hmissing|].
  assert (Hlisted : listed module_config lang).
  { unfold listed. cbn [LANGUAGES In] in Hlang.
    repeat (destruct Hlang as [<-|Hlang]; [cbn; discriminate|]).
    contradiction. }
  unfold listed in Hlisted.
  destruct (dict_find (language_data module_config) lang) as [entry|] eqn:Hfind;
    [|congruence].
  destruct (allocation_of_listed module_config w lang n entry Hfind)
    as [wc [oc [merged [Hdist [Hmerged [_ Halloc]]]]]].
  eexists. eexists. split; [exact Halloc|].
  cbn [LangStats.oscar_chars LangStats.total_chars LangStats.wiki_chars].
  rewrite (requested_text_missing w (oscar_file_of lang) oc Hmissing).
  split; [reflexivity|]. unfold len. cbn [length]. lia.
Qed.

Lemma crawl_files_not_found_witness :
  ((forall l, In l LANGUAGES ->
              inputs (world_of [(ExtractOscar.output_path "Yoruba" OSCAR_DIR,
                                 [97; 98]%N)])
                     (oscar_file_of l) <> Missing ->
              exists name code,
                In (name, code) ExtractOscar.LANGUAGE_CODES /\
                oscar_file_of l = ExtractOscar.output_path name OSCAR_DIR) /\
   In "yo"%string LANGUAGES) /\
  inputs (world_of [(ExtractOscar.output_path "Yoruba" OSCAR_DIR,
                     [97; 98]%N)])
         (oscar_file_of "yo") = Missing /\
  exists text stats,
    allocation_of module_config
      (world_of [(ExtractOscar.output_path "Yoruba" OSCAR_DIR, [97; 98]%N)])
      "yo" 5 = Ok (text, stats) /\
    LangStats.oscar_chars stats = 0 /\
    LangStats.total_chars stats = LangStats.wiki_chars stats.
Proof.
  assert (Honly :
            forall l, In l LANGUAGES ->
              inputs (world_of [(ExtractOscar.output_path "Yoruba" OSCAR_DIR,
                                 [97; 98]%N)])
                     (oscar_file_of l) <> Missing ->
              exists name code,
                In (name, code) ExtractOscar.LANGUAGE_CODES /\
                oscar_file_of l = ExtractOscar.output_path name OSCAR_DIR).
  { intros l Hl Hfound. exfalso. apply Hfound.
    cbn [LANGUAGES In] in Hl.
    repeat (destruct Hl as [<-|Hl]; [vm_compute; reflexivity|]).
    contradiction. }
  split; [split; [exact Honly|left; reflexivity]|].
  apply (crawl_files_not_found _ "yo"%string 5 Honly).
  left. reflexivity.
Defined.

(** ** The article cleaner *)

Lemma lstrip_length (s : str) : (length (lstrip s) <= length s)%nat.
Proof.
  induction s as [|c s IH]; cbn [lstrip]; [lia|].
  destruct (isspace c); cbn [length]; lia.
Qed.

Lemma lstrip_same_length (s : str) :
  length (lstrip s) = length s -> lstrip s = s.
Proof.
  destruct s as [|c s]; [reflexivity|]. cbn [lstrip].
  destruct (isspace c); [|reflexivity].
  pose proof (lstrip_length s). cbn [length]. lia.
Qed.

Lemma rstrip_length (s : str) : (length (rstrip s) <= length s)%nat.
Proof.
  unfold rstrip. rewrite length_rev.
  pose proof (lstrip_length (rev s)) as H. rewrite length_rev in H. exact H.
Qed.

Lemma stripped_both (s : str) : strip s = s -> lstrip s = s /\ rstrip s = s.
Proof.
  intros Hs. assert (Hl : lstrip s = s).
  { apply lstrip_same_length.
    pose proof (lstrip_length s). pose proof (rstrip_length (lstrip s)).
    unfold strip in Hs. rewrite Hs in *. lia. }
  split; [exact Hl|]. unfold strip in Hs. rewrite Hl in Hs. exact Hs.
Qed.

Lemma lstrip_app (x y : str) :
  lstrip (x ++ y) = if is_empty (lstrip x) then lstrip y else lstrip x ++ y.
Proof.
  induction x as [|c x IH]; cbn [app lstrip is_empty].
  - destruct (lstrip y); reflexivity.
  - destruct (isspace c); [exact IH|reflexivity].
Qed.

Lemma rstrip_app (a b : str) :
  rstrip (a ++ b) = if is_empty (rstrip b) then rstrip a else a ++ rstrip b.
Proof.
  unfold rstrip. rewrite rev_app_distr, lstrip_app.
  destruct (lstrip (rev b)) as [|c l] eqn:Hb.
  - reflexivity.
  - cbn [is_empty]. rewrite rev_app_distr, rev_involutive.
    destruct (rev (c :: l)) eqn:Hrev; [|reflexivity].
    apply (f_equal (@length char)) in Hrev. rewrite length_rev in Hrev.
    discriminate.
Qed.

Lemma rstrip_newline (s : str) : rstrip (s ++ [newline]) = rstrip s.
Proof. unfold rstrip. rewrite rev_app_distr. reflexivity. Qed.

Lemma starts_with_app (p s : str) : Process.starts_with p (p ++ s) = true.
Proof.
  induction p as [|c p IH]; [destruct s; reflexivity|].
  cbn [app Process.starts_with]. rewrite N.eqb_refl. exact IH.
Qed.

Lemma remove_all_free (old s : str) :
  free_of old s -> Process.remove_all old 0 s = s.
Proof.
  induction s as [|c s IH]; intros Hfree; [reflexivity|].
  pose proof (Hfree 0%nat) as Hhead. cbn [skipn] in Hhead.
  cbn [Process.remove_all]. rewrite Hhead.
  f_equal. apply IH. intros k. exact (Hfree (S k)).
Qed.

Lemma universal_newlines_id (s : str) :
  Forall (fun c => c <> 13%N) s -> Process.universal_newlines s = s.
Proof.
  induction 1 as [|c s Hc _ IH]; [reflexivity|].
  cbn [Process.universal_newlines].
  destruct (N.eqb_spec c 13); [contradiction|]. f_equal. exact IH.
Qed.

Lemma lines_from_line (l : str) :
  Forall (fun c => c <> 10%N) l ->
  forall cur rest,
    Process.lines_from cur (l ++ newline :: rest)
    = (cur ++ l ++ [newline]) :: Process.lines_from [] rest.
Proof.
  induction 1 as [|c l Hc _ IH]; intros cur rest.
  - reflexivity.
  - cbn [app Process.lines_from].
    destruct (N.eqb_spec c 10); [contradiction|].
    rewrite IH, <- app_assoc. reflexivity.
Qed.

Lemma flatten_one_line (s : str) : one_line s -> Process.flatten s = s.
Proof.
  unfold Process.flatten. induction 1 as [|c s [Hc _] _ IH]; [reflexivity|].
  cbn [map]. destruct (N.eqb_spec c 10); [contradiction|]. f_equal. exact IH.
Qed.

Lemma one_line_no_newline (s : str) :
  one_line s -> Forall (fun c => c <> 10%N) s.
Proof. apply Forall_impl. intros c [H _]. exact H. Qed.

Lemma one_line_no_return (s : str) :
  one_line s -> Forall (fun c => c <> 13%N) s.
Proof. apply Forall_impl. intros c [_ H]. exact H. Qed.

Lemma lines_from_record (article : str * str) (rest : str) :
  one_line (fst article) -> one_line (snd article) ->
  Process.lines_from [] (ExtractWiki.article_record article ++ rest)
  = record_lines article ++ Process.lines_from [] rest.
Proof.
  intros Htitle Htext.
  assert (Hshape :
            ExtractWiki.article_record article ++ rest
            = (str_of_string "TITLE: " ++ fst article)
                ++ newline
                :: (str_of_string "TEXT: " ++ snd article)
                ++ newline
                :: repeat 61%N 80 ++ newline :: [] ++ newline :: rest).
  { unfold ExtractWiki.article_record. rewrite <- !app_assoc. reflexivity. }
  rewrite Hshape.
  rewrite (lines_from_line (str_of_string "TITLE: " ++ fst article)).
  2:{ apply Forall_app. split; [|apply one_line_no_newline; exact Htitle].
      repeat constructor; discriminate. }
  rewrite (lines_from_line (str_of_string "TEXT: " ++ snd article)).
  2:{ apply Forall_app. split; [|apply one_line_no_newline; exact Htext].
      repeat constructor; discriminate. }
  rewrite (lines_from_line (repeat 61%N 80))
    by (repeat constructor; discriminate).
  rewrite (lines_from_line [] (Forall_nil _)).
  unfold record_lines. cbn [app]. rewrite <- !app_assoc. reflexivity.
Qed.

Lemma strip_title_line (title : str) :
  Process.starts_with Process.TITLE
    (strip (str_of_string "TITLE: " ++ title ++ [newline])) = true.
Proof.
  unfold strip.
  change (lstrip (str_of_string "TITLE: " ++ title ++ [newline]))
    with (Process.TITLE ++ (32%N :: title ++ [newline])).
  rewrite rstrip_app. destruct (is_empty _).
  - reflexivity.
  - apply starts_with_app.
Qed.

Lemma strip_text_line (text : str) :
  stripped text ->
  strip (str_of_string "TEXT: " ++ text ++ [newline])
  = str_of_string "TEXT: " ++ text.
Proof.
  intros [Hstrip Hne]. destruct (stripped_both text Hstrip) as [_ Hr].
  unfold strip.
  change (lstrip (str_of_string "TEXT: " ++ text ++ [newline]))
    with (str_of_string "TEXT: " ++ (text ++ [newline])).
  rewrite rstrip_app, rstrip_newline, Hr.
  destruct text; [contradiction|reflexivity].
Qed.

Lemma step_title_line (title text out : str) :
  Process.step (text, out) (str_of_string "TITLE: " ++ title ++ [newline])
  = (text, out).
Proof. unfold Process.step. rewrite strip_title_line. reflexivity. Qed.

Lemma step_text_line (text old out : str) :
  stripped text -> free_of Process.TEXT text ->
  Process.step (old, out) (str_of_string "TEXT: " ++ text ++ [newline])
  = (text, out).
Proof.
  intros Hs Hfree. unfold Process.step. rewrite (strip_text_line text Hs).
  change (Process.starts_with Process.TITLE (str_of_string "TEXT: " ++ text))
    with false.
  change (Process.starts_with Process.TEXT (str_of_string "TEXT: " ++ text))
    with true.
  cbv iota.
  change (Process.remove_all Process.TEXT 0 (str_of_string "TEXT: " ++ text))
    with (32%N :: Process.remove_all Process.TEXT 0 text).
  rewrite (remove_all_free _ _ Hfree).
  change (strip (32%N :: text)) with (strip text).
  destruct Hs as [-> _]. reflexivity.
Qed.

Lemma step_rule_line (text out : str) :
  stripped text -> one_line text ->
  Process.step (text, out) (repeat 61%N 80 ++ [newline])
  = ([], out ++ text ++ [newline]).
Proof.
  intros [Hs Hne] Hline. unfold Process.step.
  replace (strip (repeat 61%N 80 ++ [newline])) with (repeat 61%N 80)
    by (vm_compute; reflexivity).
  change (Process.starts_with Process.TITLE (repeat 61%N 80)) with false.
  change (Process.starts_with Process.TEXT (repeat 61%N 80)) with false.
  change (Process.starts_with [61%N] (repeat 61%N 80)) with true.
  cbv iota. unfold Process.flush.
  rewrite (flatten_one_line text Hline), Hs.
  destruct text; [contradiction|reflexivity].
Qed.

Lemma step_blank_line (out : str) :
  Process.step ([], out) [newline] = ([32%N], out).
Proof. reflexivity. Qed.

(** The loop of the cleaner over the lines of a list of records. *)
Lemma fold_records :
  forall articles (text out : str),
    Forall plain_article articles ->
    fold_left Process.step (flat_map record_lines articles) (text, out)
    = (if is_empty articles then text else [32%N],
       out ++ concat (map (fun a => snd a ++ [newline]) articles)).
Proof.
  induction articles as [|a rest IH]; intros text out Hall.
  - cbn. rewrite app_nil_r. reflexivity.
  - apply Forall_cons_iff in Hall.
    destruct Hall as [[Htitle [Hline [Hs Hfree]]] Hall].
    cbn [flat_map is_empty map concat]. rewrite fold_left_app.
    change (fold_left Process.step (record_lines a) (text, out))
      with (Process.step
              (Process.step
                 (Process.step
                    (Process.step (text, out)
                       (str_of_string "TITLE: " ++ fst a ++ [newline]))
                    (str_of_string "TEXT: " ++ snd a ++ [newline]))
                 (repeat 61%N 80 ++ [newline]))
              [newline]).
    rewrite step_title_line, (step_text_line _ _ _ Hs Hfree),
      (step_rule_line _ _ Hs Hline), step_blank_line.
    rewrite (IH _ _ Hall), <- !app_assoc.
    destruct rest; reflexivity.
Qed.

Lemma articles_file_lines (articles : list (str * str)) :
  Forall plain_article articles ->
  Process.file_lines (ExtractWiki.articles_file articles)
  = flat_map record_lines articles.
Proof.
  intros Hall. unfold Process.file_lines.
  rewrite universal_newlines_id.
  - unfold ExtractWiki.articles_file.
    induction Hall as [|a rest [Htitle [Hline _]] _ IH]; [reflexivity|].
    cbn [map concat flat_map].
    rewrite (lines_from_record a _ Htitle Hline), IH. reflexivity.
  - unfold ExtractWiki.articles_file.
    induction Hall as [|a rest [Htitle [Hline _]] _ IH]; [constructor|].
    cbn [map concat]. apply Forall_app. split; [|exact IH].
    unfold ExtractWiki.article_record.
    repeat (apply Forall_app; split);
      try (apply one_line_no_return; assumption);
      repeat constructor; discriminate.
Qed.

(** X21. What the cleaner makes of a file of article records as
    [process_extracted_json] writes them, when every title and text is on
    one line and no text contains "TEXT:": one line per article holding its
    text, in the order of the records, and then one empty line, left by the
    blank line that ends the last record. *)
Theorem process_file_of_article_records (articles : list (str * str)) :
  articles <> [] ->
  Forall plain_article articles ->
  Process.process_file (ExtractWiki.articles_file articles)
  = concat (map (fun a => snd a ++ [newline]) articles) ++ [newline].
Proof.
  intros Hne Hall. unfold Process.process_file.
  rewrite (articles_file_lines articles Hall), (fold_records _ _ _ Hall).
  destruct articles; [contradiction|]. reflexivity.
Qed.

Lemma process_file_of_article_records_witness :
  ([([65%N], [98; 99]%N)] <> [] /\
   Forall plain_article [([65%N], [98; 99]%N)]) /\
  Process.process_file (ExtractWiki.articles_file [([65%N], [98; 99]%N)])
  = concat (map (fun a => snd a ++ [newline]) [([65%N], [98; 99]%N)])
      ++ [newline].
Proof.
  assert (Hplain : Forall plain_article [([65%N], [98; 99]%N)]).
  { constructor; [|constructor]. unfold plain_article, one_line, stripped.
    cbn [fst snd]. split; [|split; [|split; [split|]]].
    - repeat constructor; discriminate.
    - repeat constructor; discriminate.
    - reflexivity.
    - discriminate.
    - intros [|[|[|k]]]; reflexivity. }
  split; [split; [discriminate|exact Hplain]|].
  apply (process_file_of_article_records [([65%N], [98; 99]%N)]);
    [discriminate|exact Hplain].
Defined.

(** The cleaner run on two records: a text that contains "TEXT:" loses
    it, and a line of the text that starts with "=" ends the article
    early. *)
Example process_file_run :
  Process.process_file
    (ExtractWiki.articles_file
       [ (str_of_string "A", str_of_string "b TEXT:c");
         (str_of_string "D", [101; 10; 61; 32; 102; 10; 103]%N) ])
  = str_of_string "b c" ++ [newline]
      ++ str_of_string "e" ++ [newline]
      ++ str_of_string "g" ++ [newline]
      ++ [newline].
Proof. vm_compute. reflexivity. Qed.
